(* ===== verification/_CoqProject ===== *)
-Q . S2P
Prelude.v
Types.v
Catalog.v
Pricing.v
Store.v
Lifecycle.v
Views.v
RestaurantDashboard.v
Dashboards.v
Charts.v
System.v
Amounts.v
Progress.v
WellFormed.v
Screens.v
Departures.v
KitchenViews.v
Router.v
Scenarios.v
