(* ===== verification/Prelude.v ===== *)
(** * A verification development of the We-deliver marketplace front end

    The program (src/) is a React/TypeScript single-page application in
    which four kinds of users (platform owner, restaurant admin, driver,
    customer) share one in-memory zustand store:

    - [src/types.ts]      the data: user roles, order statuses, payment
                          methods, menu items, carts and orders;
    - [src/constants.tsx] the mock catalogue (users, restaurants, menu);
    - [src/store.ts]      the store: current user, cart and order list with
                          the setters [login], [logout], [addToCart],
                          [removeFromCart], [clearCart], [placeOrder] and
                          [updateOrderStatus];
    - [src/views/*.tsx]   one view per role; the order lifecycle is not a
                          function of its own but the event handlers of
                          these views ([CustomerApp.handleAddToCart],
                          [handlePlaceOrder], the restaurant dashboards'
                          Accept/Decline/Prep/Ready buttons,
                          [DriverApp.handleAccept], [handleStatusUpdate]),
                          each of which calls a store setter;
    - [src/App.tsx]       the routing from the current user's role to a view.

    Files of the development, in dependency order:

    - [Prelude]   (this file) the notations of [wd_scope] ([=s=] for [===]
                  on strings, [?.] for optional chaining), the hint databases
                  [wd] and [wd_rw], the tactics [case_streq] and [bool_hyps],
                  and the generic lemmas on sums over lists ([sumZ], the
                  code's [reduce]), indexed filtering ([filter_idx], the
                  code's [filter((_, i) => ...)]) and lookups by unique key.
    - [Types]     [src/types.ts]: every enum as an [Inductive] with the
                  source's constructors, every interface as a [Record t]
                  inside a [Module] of the interface's name (field names are
                  the source's: [Order.status], [CartItem.totalPrice]),
                  optional fields as [option], with [EqDecision] instances.
    - [Catalog]   [src/constants.tsx]: the mock users, restaurants and menu
                  items, [APP_NAME] and [CURRENCY], and the facts the store
                  relies on (unique emails and ids).
    - [Pricing]   the money computations of [src/views/CustomerApp.tsx]: the
                  line price of [handleAddToCart], [foodSubtotal], the flat
                  fees and [totalOrderAmount]; and the specification's
                  [priceSelection] (section 4.1) as an abstract contract.
    - [Store]     [src/store.ts]: [Store.AppState] and one function per
                  setter ([login], [logout], [addToCart], [removeFromCart],
                  [clearCart], [placeOrder], [updateOrderStatus]).
    - [Lifecycle] the specification's order state machine (section 4.2):
                  the transition table [edge], its actor column
                  [authorized], and [applyTransition] with its three errors.
                  This is a contract, not code: no function of src/
                  implements it.
    - [Views]     one [Module] per routed view, with the view's component
                  state, lists and click handlers: [CustomerApp],
                  [DriverApp], [RestaurantAdminDashboard], and [App] for the
                  role-to-view routing of [src/App.tsx].
    - [RestaurantDashboard] the restaurant view [App.tsx] does not route
                  to, and the interface [TicketBoard] (the tickets each
                  button is shown on and its effect) of which both
                  restaurant views are instances.
    - [Dashboards] the figures [PlatformOwnerDashboard.tsx] and
                  [AdminDashboard.tsx] compute from the store (GMV,
                  commission, driver count, the status distribution).
    - [Charts]    what those two views draw around the figures: stat and
                  KPI cards, the fixed chart data, the pies' cells and
                  legends, period tabs, table headers, and each view's
                  whole rendered screen.
    - [System]    one browser session as a state machine: [System.Sys] is
                  the store with the customer view's state, [System.Event]
                  one constructor per button that changes state (the login
                  buttons of [Login.tsx], logout in [Layout.tsx], the
                  customer's, restaurant's and driver's buttons), and
                  [System.exec] runs the button's handler when the button is
                  on the screen ([None] otherwise, and for every event once
                  the view has crashed while rendering).  [reachable] and
                  [reachable_fresh] are the states a session reaches.
    - [Amounts]   the invariant that every amount of a reachable state is
                  a whole number of rands.
    - [Progress]  the measure of the driver's remaining work, and the
                  sessions that bring an order to [READY_FOR_PICKUP] (and,
                  with a drivers list, to [DELIVERED]).
    - [Departures] general theorems on where the code departs from the
                  specification: off-table restaurant requests, clicks
                  rewriting orders that share an id, the stale variation,
                  and the dead end after the driver or owner view throws.
    - [WellFormed] the invariant on the shape of every order and cart line.
    - [Screens]   what the login screen, the layout's header, the driver's
                  cards, the restaurant admin's tickets and queue, and the
                  customer's menu, dialog, tray, categories and restaurant
                  cards show, computed from the state; [replaceFirst], the
                  code's [replace('_', ' ')]; the driver's earnings panel
                  and whole screen, the login page and the layout frame.
    - [KitchenViews] the whole rendered screens of both restaurant views
                  (header, cards, badges, tickets, queue, placeholders).
    - [Router]    the routes of [App.tsx] ([/login], [/], [*]) and the
                  router following their [<Navigate>] redirects with fuel.
    - [Scenarios] concrete sessions evaluated by [vm_compute]: the
                  witnesses of the general theorems, and concrete runs of
                  the specification's scenarios and of the departures.

    What the theorems show.
    - Invariants of every reachable state ([System]): each order's total is
      its subtotal plus the two fees; with fresh order ids, ids are unique,
      an order has a catalogue driver exactly in the driver's phase, and a
      delivered or cancelled order never changes again.
    - Refinement ([System.click_refines_spec]): every status change the
      restaurant and driver buttons make is the specification's
      [applyTransition] for the current user, except four requests the
      table lacks, three of which [Scenarios] shows are reached.
    - Functional behaviour of the store and handlers on every branch,
      including the silent no-ops where the specification asks for errors
      ([Store]), checkout ([System.checkout_atomic]), and pricing against
      the specification's contract ([Pricing]); the dashboards' status
      slices partition the orders ([Dashboards]).
    - Type ([WellFormed]): every order of a reachable state is a catalogue
      customer's order at a catalogue restaurant, picked up at its
      address, with non-empty items of catalogue lines of quantity one.
    - Termination and liveness ([Progress]): with fresh ids, each driver
      advance click lowers a measure, so a driver's clicks are bounded;
      for every drivers value, the shipped one included, every Kota King
      order still in the kitchen can be brought to READY_FOR_PICKUP by
      some session from any state that has not crashed; with fresh ids an
      order of Debonairs never leaves PENDING, its owner being no user of
      the catalogue.
    - Round trips: adding and removing a cart line ([Store]); logging in
      through an identity button and out again, with the header showing
      that user ([Screens]).
    - Equivalence ([RestaurantDashboard]): the unrouted restaurant view
      behaves exactly as the routed one.
    - Termination of routing ([Router.router_settles]): from every path and
      state the redirects settle within three renders on the page
      [System.screen] names, which justifies that abstraction.
    - Tenant isolation ([System.admin_sees_own_orders]): the restaurant
      dashboard shows an admin only orders of restaurants they own.
    - What is shown is what happens ([Screens]): the checkout tray shows
      the total, line count and restaurant of the order its button places;
      a driver's advance button names the step it performs; the two
      restaurant views show the same tickets ([KitchenViews]).  Lemmas of
      [Charts] and [Screens] check the pies' legends against their slices
      and the earnings badges' [||] fallbacks (a driver with 0 trips is
      shown 12).
    - Bounds ([Amounts]): every cart line, order amount and dashboard total
      of a reachable state is a whole, non-negative number of rands, which
      is what makes the [Z]-cents model of the code's doubles exact.
    - Where the code departs from the specification ([Departures] and
      [System.shipped_orders_never_reach_driver]): the driver and owner
      views throw because the store has no [drivers], no order ever
      reaches a driver, and the session is stuck on the blank page; the
      restaurant buttons offer and perform the four requests the table
      lacks (Ready skips PREPARING, Prep moves back, a second Ready or Prep
      succeeds); a click rewrites every order sharing the clicked id; a
      closed item dialog keeps its variation, which the next dialog shows
      unchecked and Add to Cart charges.  [Scenarios] runs each on a
      concrete session, with the collision, the mixed-restaurant cart and
      the cancelled delivery left on the driver's screen.

    The drivers list.  [DriverApp.tsx] reads [drivers] from the store, which
    has no such member.  [System] is parameterised by the value read: the
    code's own [DriverApp.storeDrivers] (always [undefined], the view
    throws) or any list (the view as meant).  The general theorems hold for
    every value.  A view that throws while rendering is not caught by any
    error boundary, so React unmounts the page: [System.crashed] marks
    such a state and [exec] offers no event in it, logout included.
    Click times [now] are free inputs (not forced to increase): the model
    allows more sessions than a real clock, which only strengthens the
    invariants.

    Order ids.  [Math.floor(Math.random() * 90000)] is the event's input
    [rnd] with [0 <= rnd < 90000].  Nothing prevents two checkouts from
    drawing the same number; [reachable_fresh] is the reachability of
    sessions in which that does not happen, and the collision scenario shows
    what happens otherwise.  No bound or fuel is needed: [exec] is a
    single step, and sessions are finite lists of events.

    Modal dialog.  While the item dialog of [CustomerApp.tsx] is open it
    covers the screen, so the model offers the list, back and checkout
    buttons only when no item is selected.

    Money.  TypeScript [number]s holding prices are modelled as [Z] counting
    cents (the specification's fixed-point reading); every price of the
    catalogue and both fees are whole rands, on which IEEE doubles add
    exactly; [Amounts.reachable_amounts_whole] shows every amount of every
    reachable state is such a number, so the model computes the same values
    as the code (below 2^53 rands).  The commission [gmv * 0.20] is kept as
    a rational number of cents.  The code's use of binary floating point is recorded as a
    divergence from the specification, not modelled bit by bit.

    Timestamps.  [new Date().toISOString()] is an input of the operations that use
    it ([now : Z] milliseconds); the ISO formatting is not modelled.

    Liveness.  The session that delivers an order is built step by step
    ([Progress.push_events]: log in as the restaurant admin or the driver,
    click the button of the order's current status); the proof goes by
    induction on the steps left on the main path (at most seven), so no
    fuel is needed.

    Routing fuel.  [Routes.resolve] follows at most [fuel] redirects; the
    longest chain is an unknown path without a user ([*] to [/] to
    [/login]), so three renders are enough, and [router_settles] proves it
    for every path.

    Screens.  A rendered view is a record of what it shows (texts,
    figures, lists of cards and rows, which placeholder is shown); the
    class names are kept only where they carry meaning (a stat's colour,
    a highlighted tab, a trend's badge colour).

    Not modelled: the layout and styling classes of the JSX markup, the
    SVG icons and images (only their sources are kept); the drawing of the
    charts by recharts (their data, cells and legends are modelled); the
    number formatting of [toFixed]/[toLocaleString]. *)

From Stdlib Require Export ZArith Lia Permutation Morphisms.
From stdpp Require Export base list list_relations sets strings pretty decidable.

Declare Scope wd_scope.
Delimit Scope wd_scope with wd.
Open Scope Z_scope.

(** Money is an integer number of cents. *)
Abbreviation Money := Z.

(** JavaScript's strict equality on strings. *)
Notation "a =s= b" := (String.eqb a b) (at level 70, no associativity) : wd_scope.

(** Optional chaining [x?.f]. *)
Notation "x ?. f" := (option_map f x) (at level 10, f at level 9) : wd_scope.

Open Scope wd_scope.

Create HintDb wd.
Create Rewrite HintDb wd_rw.

(** ** Sums of money over lists *)

(** [sumZ f l] is the sum of [f x] over the list [l]. *)
Fixpoint sumZ {A} (f : A -> Z) (l : list A) : Z :=
  match l with
  | [] => 0
  | x :: l' => f x + sumZ f l'
  end.

Lemma sumZ_app {A} (f : A -> Z) l1 l2 : sumZ f (l1 ++ l2) = sumZ f l1 + sumZ f l2.
Proof. induction l1 as [|x l1 IH]; simpl; lia. Qed.

(** The accumulation [l.reduce((acc, x) => acc + f(x), a)] of the code is
    [fold_left]; it is [a] plus the sum. *)
Lemma fold_left_add_sumZ {A} (f : A -> Z) l a :
  fold_left (fun acc x => acc + f x) l a = a + sumZ f l.
Proof.
  revert a; induction l as [|x l IH]; intros a; simpl; [lia|].
  rewrite IH; lia.
Qed.

#[export] Instance sumZ_Permutation {A} (f : A -> Z) :
  Proper (@Permutation A ==> eq) (sumZ f).
Proof. intros l1 l2 Hp; induction Hp; simpl; lia. Qed.

Lemma sumZ_nonneg {A} (f : A -> Z) l :
  Forall (fun x => 0 <= f x) l -> 0 <= sumZ f l.
Proof. induction 1; simpl; lia. Qed.

(** ** Filtering a list by index, as [l.filter((_, i) => p(i))] *)

Fixpoint filter_idx_from {A} (p : Z -> bool) (i : Z) (l : list A) : list A :=
  match l with
  | [] => []
  | x :: l' => if p i then x :: filter_idx_from p (i + 1) l'
               else filter_idx_from p (i + 1) l'
  end.

Definition filter_idx {A} (p : Z -> bool) (l : list A) : list A :=
  filter_idx_from p 0 l.

Lemma filter_idx_from_all {A} (p : Z -> bool) i (l : list A) :
  (forall j, i <= j < i + Z.of_nat (length l) -> p j = true) ->
  filter_idx_from p i l = l.
Proof.
  revert i; induction l as [|x l IH]; intros i Hp; simpl in *; [done|].
  rewrite Hp by lia. f_equal. apply IH. intros j Hj; apply Hp; lia.
Qed.

Lemma filter_idx_from_drop {A} (k : Z) i (l : list A) :
  i <= k < i + Z.of_nat (length l) ->
  filter_idx_from (fun j => negb (j =? k)) i l
  = take (Z.to_nat (k - i)) l ++ drop (S (Z.to_nat (k - i))) l.
Proof.
  revert i; induction l as [|x l IH]; intros i Hk; simpl in *; [lia|].
  destruct (Z.eqb_spec i k) as [->|Hne]; simpl.
  - rewrite Z.sub_diag; simpl. rewrite drop_0.
    apply filter_idx_from_all. intros j Hj.
    apply negb_true_iff, Z.eqb_neq; lia.
  - rewrite IH by lia.
    replace (Z.to_nat (k - i)) with (S (Z.to_nat (k - (i + 1)))) by lia.
    reflexivity.
Qed.

(** ** Mapping a list pointwise *)

Lemma Forall_map_iff {A B} (P : B -> Prop) (f : A -> B) l :
  Forall P (map f l) <-> Forall (fun x => P (f x)) l.
Proof. rewrite Forall_map. done. Qed.

(** Two members of a list whose keys are unique are equal when their keys are. *)
Lemma NoDup_map_key_eq {A B} (f : A -> B) (l : list A) x y :
  NoDup (map f l) -> x ∈ l -> y ∈ l -> f x = f y -> x = y.
Proof.
  induction l as [|z l IH]; simpl; intros Hnd Hx Hy Hf; [set_solver|].
  pose proof (NoDup_cons_1_1 _ _ Hnd) as Hz; apply NoDup_cons_1_2 in Hnd.
  apply elem_of_cons in Hx as [->|Hx]; apply elem_of_cons in Hy as [->|Hy]; auto.
  - destruct Hz. rewrite Hf. by apply (list_elem_of_fmap_2 f).
  - destruct Hz. rewrite <- Hf. by apply (list_elem_of_fmap_2 f).
Qed.

Lemma Forall_elem {A} (P : A -> Prop) (l : list A) x : Forall P l -> x ∈ l -> P x.
Proof. intros H Hx. rewrite Forall_forall in H. by apply H, list_elem_of_In. Qed.

(** With unique string keys, looking a member up by its key finds it. *)
Lemma find_key_unique {A} (f : A -> string) (l : list A) x :
  NoDup (map f l) -> x ∈ l -> find (fun y => f y =s= f x) l = Some x.
Proof.
  intros Hnd Hx. destruct (find _ l) as [y|] eqn:E.
  - apply find_some in E as [Hy Hf]. apply String.eqb_eq in Hf.
    f_equal. eapply (NoDup_map_key_eq f); eauto. by apply list_elem_of_In.
  - exfalso. apply list_elem_of_In in Hx. eapply find_none in E; [|exact Hx].
    by rewrite String.eqb_refl in E.
Qed.

(** ** Tactics *)

(** Case analysis on every string equality test in the goal. *)
Ltac case_streq :=
  repeat match goal with
  | |- context [String.eqb ?a ?b] =>
      destruct (String.eqb_spec a b); subst
  end.

(** Split the boolean guards of a handler into propositions. *)
Ltac bool_hyps :=
  repeat match goal with
  | H : _ && _ = true |- _ => apply andb_prop in H as [? ?]
  | H : bool_decide _ = true |- _ => apply bool_decide_eq_true in H
  end.

#[export] Hint Rewrite @sumZ_app @fold_left_add_sumZ : wd_rw.
