(* ===== verification/Types.v ===== *)
(** * Types: the data model of [src/types.ts]

    Each [enum] is an [Inductive] with the source's constructors; each
    [interface] is a [Record t] inside a [Module] named after the interface,
    so that its fields keep the source's names ([Order.status],
    [CartItem.totalPrice]).  Optional fields ([x?: T]) are [option T];
    [number] fields holding money are [Money] (cents, see [Prelude]); ISO
    time stamps are [Z] milliseconds.  Decidable equality of every type is an
    [EqDecision] instance. *)

From S2P Require Import Prelude.

Inductive UserRole := OWNER | RESTAURANT_ADMIN | DRIVER | CUSTOMER.

Inductive OrderStatus :=
  | PENDING
  | RESTAURANT_ACCEPTED
  | PREPARING
  | READY_FOR_PICKUP
  | ACCEPTED
  | PICKED_UP
  | IN_TRANSIT
  | DELIVERED
  | CANCELLED.

Inductive PaymentMethod := CARD | EFT_POP | CASH | WALLET.

#[export] Instance UserRole_eq_dec : EqDecision UserRole.
Proof. solve_decision. Defined.
#[export] Instance OrderStatus_eq_dec : EqDecision OrderStatus.
Proof. solve_decision. Defined.
#[export] Instance PaymentMethod_eq_dec : EqDecision PaymentMethod.
Proof. solve_decision. Defined.

(** The string value of each [UserRole] member ([OWNER = 'OWNER'], ...),
    which the views print. *)
(** The string value of each [OrderStatus] member. *)
Definition OrderStatus_value (st : OrderStatus) : string :=
  match st with
  | PENDING => "PENDING"
  | RESTAURANT_ACCEPTED => "RESTAURANT_ACCEPTED"
  | PREPARING => "PREPARING"
  | READY_FOR_PICKUP => "READY_FOR_PICKUP"
  | ACCEPTED => "ACCEPTED"
  | PICKED_UP => "PICKED_UP"
  | IN_TRANSIT => "IN_TRANSIT"
  | DELIVERED => "DELIVERED"
  | CANCELLED => "CANCELLED"
  end.

(** The string value of each [PaymentMethod] member. *)
Definition PaymentMethod_value (m : PaymentMethod) : string :=
  match m with CARD => "CARD" | EFT_POP => "EFT_POP" | CASH => "CASH" | WALLET => "WALLET" end.

Definition UserRole_value (r : UserRole) : string :=
  match r with
  | OWNER => "OWNER"
  | RESTAURANT_ADMIN => "RESTAURANT_ADMIN"
  | DRIVER => "DRIVER"
  | CUSTOMER => "CUSTOMER"
  end.

Module MenuItemVariation.
Record t := mk { id : string; name : string; price : Money }.
End MenuItemVariation.

Module MenuItemModifier.
Record t := mk { id : string; name : string; price : Money }.
End MenuItemModifier.

Module MenuItem.
Record t := mk {
    id : string;
    restaurantId : string;
    categoryId : string;
    name : string;
    description : string;
    basePrice : Money;
    image : string;
    variations : option (list MenuItemVariation.t);
    modifiers : option (list MenuItemModifier.t);
    isAvailable : bool }.
End MenuItem.

(** [rating] is a decimal with one digit ([4.9]); it is kept in tenths. *)
Module Restaurant.
Record t := mk {
    id : string;
    name : string;
    logo : string;
    banner : string;
    address : string;
    zone : string;
    rating : Z;
    deliveryTime : string;
    categories : list string;
    ownerId : string;
    isChain : option bool }.
End Restaurant.

Module CartItem.
Record t := mk {
    menuItemId : string;
    name : string;
    quantity : Z;
    variation : option MenuItemVariation.t;
    modifiers : option (list MenuItemModifier.t);
    totalPrice : Money }.
End CartItem.

Module Order.
Record t := mk {
    id : string;
    customerId : string;
    restaurantId : option string;
    driverId : option string;
    items : option (list CartItem.t);
    pickupAddress : string;
    dropoffAddress : string;
    status : OrderStatus;
    paymentMethod : PaymentMethod;
    foodSubtotal : Money;
    deliveryFee : Money;
    serviceFee : Money;
    totalFee : Money;
    createdAt : Z;
    updatedAt : Z }.
End Order.

Module User.
Record t := mk { id : string; name : string; email : string; role : UserRole }.
End User.

(** [AnalyticsKPI]: declared but used by no view (the dashboards build
    untyped literals of the same shape); [value] is [string | number],
    [trend] the union ['up' | 'down' | 'neutral']. *)
Inductive Trend := up | down | neutral.

Inductive TextOrNumber := Text (t : string) | Number (n : Z).

Module AnalyticsKPI.
Record t := mk { label : string; value : TextOrNumber; change : string; icon : string;
                 trend : Trend }.
End AnalyticsKPI.

#[export] Instance MenuItemVariation_eq_dec : EqDecision MenuItemVariation.t.
Proof. solve_decision. Defined.
#[export] Instance MenuItemModifier_eq_dec : EqDecision MenuItemModifier.t.
Proof. solve_decision. Defined.
#[export] Instance MenuItem_eq_dec : EqDecision MenuItem.t.
Proof. solve_decision. Defined.
#[export] Instance Restaurant_eq_dec : EqDecision Restaurant.t.
Proof. solve_decision. Defined.
#[export] Instance CartItem_eq_dec : EqDecision CartItem.t.
Proof. solve_decision. Defined.
#[export] Instance Order_eq_dec : EqDecision Order.t.
Proof. solve_decision. Defined.
#[export] Instance User_eq_dec : EqDecision User.t.
Proof. solve_decision. Defined.

(** Terminal statuses: no button of any view is meant to move an order out
    of them. *)
Definition is_terminal (st : OrderStatus) : bool :=
  match st with DELIVERED | CANCELLED => true | _ => false end.
