(* ===== verification/Catalog.v ===== *)
(** * Catalog: the mock reference data of [src/constants.tsx]

    The users a session can log in as, the two restaurants and the two menu
    items, with prices in cents.  The catalogue is read, never written, by
    the store and the views.  [FOOD_CATEGORIES] are the category chips of
    the customer's home screen. *)

From S2P Require Import Prelude Types.

Definition APP_NAME : string := "SwiftDrop SA".
Definition CURRENCY : string := "R".

Definition MOCK_USERS : list User.t := [
  User.mk "1" "Zanele Khumalo" "owner@swiftdrop.co.za" OWNER;
  User.mk "2" "Kota King Admin" "kota@business.co.za" RESTAURANT_ADMIN;
  User.mk "3" "Speedy Sipho" "sipho@driver.co.za" DRIVER;
  User.mk "4" "Thabo Mokoena" "thabo@gmail.com" CUSTOMER ].

Record FoodCategory := mkCategory { categoryId : string; categoryName : string; icon : string }.

Definition FOOD_CATEGORIES : list FoodCategory := [
  mkCategory "1" "Kota" "🍞";
  mkCategory "2" "Chips" "🍟";
  mkCategory "3" "Braai" "🔥";
  mkCategory "4" "Burgers" "🍔";
  mkCategory "5" "Drinks" "🥤" ].

Definition MOCK_RESTAURANTS : list Restaurant.t := [
  Restaurant.mk "rest-1" "The Kota King"
    "https://images.unsplash.com/photo-1594212699903-ec8a3eca50f5?w=100&h=100&fit=crop"
    "https://images.unsplash.com/photo-1504674900247-0877df9cc836?w=800&h=300&fit=crop"
    "Vilikazi Street, Orlando West" "Soweto" 49 "15-25 min"
    ["Kota"; "Chips"] "2" None;
  Restaurant.mk "rest-2" "Debonairs Pizza - Jabulani"
    "https://images.unsplash.com/photo-1513104890138-7c749659a591?w=100&h=100&fit=crop"
    "https://images.unsplash.com/photo-1590947132387-155cc02f3212?w=800&h=300&fit=crop"
    "Jabulani Mall, Soweto" "Soweto" 46 "30-45 min"
    ["Pizza"; "Drinks"] "deb-corp" (Some true) ].

Definition MOCK_MENU_ITEMS : list MenuItem.t := [
  MenuItem.mk "m1" "rest-1" "1" "The Full House Kota"
    "Quarter loaf, chips, polony, cheese, egg, and special sauce" 4500
    "https://images.unsplash.com/photo-1509722747041-619f382b83bc?w=400"
    (Some [MenuItemVariation.mk "v1" "Standard" 0;
           MenuItemVariation.mk "v2" "Double Cheese" 1000])
    None true;
  MenuItem.mk "m2" "rest-1" "2" "Slap Chips"
    "Freshly cut township style slap chips" 2000
    "https://images.unsplash.com/photo-1573080496219-bb080dd4f877?w=400"
    (Some [MenuItemVariation.mk "s1" "Small" 0;
           MenuItemVariation.mk "s2" "Medium" 1500;
           MenuItemVariation.mk "s3" "Large" 2500;
           MenuItemVariation.mk "s4" "Extra Large" 4000])
    None true ].

(** Every user of the catalogue has a non-empty id (the store uses
    [driverId ? ... : ...], in which the empty string is falsy). *)
Definition users_have_ids (us : list User.t) : bool :=
  forallb (fun u => negb (User.id u =s= "")) us.

Lemma MOCK_USERS_ids : users_have_ids MOCK_USERS = true.
Proof. reflexivity. Qed.

Lemma MOCK_USERS_emails_NoDup : NoDup (map User.email MOCK_USERS).
Proof. apply (bool_decide_unpack _). vm_compute. reflexivity. Qed.

Lemma MOCK_USERS_ids_NoDup : NoDup (map User.id MOCK_USERS).
Proof. apply (bool_decide_unpack _). vm_compute. reflexivity. Qed.

#[export] Hint Resolve MOCK_USERS_emails_NoDup MOCK_USERS_ids_NoDup : wd.

(** Looking a catalogue restaurant up by its own id finds it; its id is
    not empty (so it is truthy). *)
Lemma MOCK_RESTAURANTS_find r :
  r ∈ MOCK_RESTAURANTS ->
  find (fun rr => Restaurant.id rr =s= Restaurant.id r) MOCK_RESTAURANTS = Some r /\
  Restaurant.id r <> "".
Proof.
  unfold MOCK_RESTAURANTS. intros Hr.
  repeat (apply elem_of_cons in Hr as [->|Hr]; [split; [reflexivity|discriminate]|]).
  by apply elem_of_nil in Hr.
Qed.

(** The catalogue has one restaurant admin (the owner of The Kota King)
    and one driver. *)
Lemma MOCK_USERS_admin u :
  u ∈ MOCK_USERS -> User.role u = RESTAURANT_ADMIN ->
  User.id u = "2" /\ User.email u = "kota@business.co.za".
Proof.
  unfold MOCK_USERS. intros Hu Hr.
  repeat (apply elem_of_cons in Hu as [->|Hu]; [done|]). by apply elem_of_nil in Hu.
Qed.

Lemma MOCK_USERS_driver u :
  u ∈ MOCK_USERS -> User.role u = DRIVER ->
  User.id u = "3" /\ User.email u = "sipho@driver.co.za".
Proof.
  unfold MOCK_USERS. intros Hu Hr.
  repeat (apply elem_of_cons in Hu as [->|Hu]; [done|]). by apply elem_of_nil in Hu.
Qed.
