(* ===== verification/Pricing.v ===== *)
(** * Pricing: the money computations of [src/views/CustomerApp.tsx]

    [finalPrice] is the line price computed by [handleAddToCart] (line 22)
    and [makeCartItem] the cart line it builds (lines 23-30);
    [foodSubtotal], [deliveryFee], [serviceFee] and [totalOrderAmount] are
    the constants and folds of lines 15-18, which [handlePlaceOrder] copies
    into the new order.

    [priceSelection] states the specification's pricing operation (section
    4.1: availability, variation membership, quantity and sign checks, with
    errors), an abstract contract that is not code; the theorems relate the
    code's unchecked computation to it. *)

From S2P Require Import Prelude Types Catalog.

Module Pricing.

(** [x || 0] on a number: [0] for a missing value or for [0] itself. *)
Definition js_or_zero (x : option Money) : Money :=
  match x with
  | Some p => if p =? 0 then 0 else p
  | None => 0
  end.

(** [selectedItem.basePrice + (selectedVar?.price || 0)
      + selectedMods.reduce((a, b) => a + b.price, 0)] *)
Definition finalPrice (selectedItem : MenuItem.t)
    (selectedVar : option MenuItemVariation.t)
    (selectedMods : list MenuItemModifier.t) : Money :=
  MenuItem.basePrice selectedItem
  + js_or_zero (selectedVar ?. MenuItemVariation.price)
  + fold_left (fun a b => a + MenuItemModifier.price b) selectedMods 0.

(** The [CartItem] literal of [handleAddToCart]. *)
Definition makeCartItem (selectedItem : MenuItem.t)
    (selectedVar : option MenuItemVariation.t)
    (selectedMods : list MenuItemModifier.t) : CartItem.t :=
  CartItem.mk (MenuItem.id selectedItem) (MenuItem.name selectedItem) 1
    selectedVar (Some selectedMods)
    (finalPrice selectedItem selectedVar selectedMods).

(** [cart.reduce((acc, item) => acc + item.totalPrice, 0)] *)
Definition foodSubtotal (cart : list CartItem.t) : Money :=
  fold_left (fun acc item => acc + CartItem.totalPrice item) cart 0.

Definition deliveryFee : Money := 2500.
Definition serviceFee : Money := 500.

Definition totalOrderAmount (cart : list CartItem.t) : Money :=
  foodSubtotal cart + deliveryFee + serviceFee.

(** ** The specification's [priceSelection] (abstract contract) *)

Inductive PricingError :=
  | ItemUnavailable
  | VariationRequired
  | VariationNotOffered
  | BadQuantity
  | PricingIntegrityError.

Definition var_price (v : option MenuItemVariation.t) : Money :=
  match v with Some v => MenuItemVariation.price v | None => 0 end.

Definition offers (it : MenuItem.t) (v : MenuItemVariation.t) : bool :=
  match MenuItem.variations it with
  | Some vs => bool_decide (v ∈ vs)
  | None => false
  end.

(** [priceSelection] of the specification: the line total or an error.
    A variation is mandatory when the item declares variations. *)
Definition priceSelection (it : MenuItem.t) (v : option MenuItemVariation.t)
    (mods : list MenuItemModifier.t) (quantity : Z) : Money + PricingError :=
  if negb (MenuItem.isAvailable it) then inr ItemUnavailable
  else if negb (1 <=? quantity) then inr BadQuantity
  else
    match v, MenuItem.variations it with
    | None, Some (_ :: _) => inr VariationRequired
    | Some v', _ => if offers it v' then
                      let unit := MenuItem.basePrice it + MenuItemVariation.price v'
                                  + sumZ MenuItemModifier.price mods in
                      if unit <? 0 then inr PricingIntegrityError
                      else inl (unit * quantity)
                    else inr VariationNotOffered
    | None, _ =>
        let unit := MenuItem.basePrice it + sumZ MenuItemModifier.price mods in
        if unit <? 0 then inr PricingIntegrityError else inl (unit * quantity)
    end.

(** ** Lemmas *)

Lemma js_or_zero_default (x : option Money) :
  js_or_zero x = match x with Some p => p | None => 0 end.
Proof. destruct x as [p|]; simpl; [destruct (Z.eqb_spec p 0); lia|done]. Qed.

Lemma finalPrice_sum it v mods :
  finalPrice it v mods
  = MenuItem.basePrice it + var_price v + sumZ MenuItemModifier.price mods.
Proof.
  unfold finalPrice. rewrite js_or_zero_default, fold_left_add_sumZ.
  destruct v; simpl; lia.
Qed.

Lemma foodSubtotal_sum cart : foodSubtotal cart = sumZ CartItem.totalPrice cart.
Proof. unfold foodSubtotal. autorewrite with wd_rw. lia. Qed.

#[global] Instance foodSubtotal_proper :
  Proper (@Permutation CartItem.t ==> eq) foodSubtotal.
Proof. intros c1 c2 Hp. rewrite !foodSubtotal_sum. by rewrite Hp. Qed.

(** ** Properties *)

(** The subtotal of a cart does not depend on the order
    of its lines (specification section 8: [priceOrder] is order
    independent). *)
Theorem foodSubtotal_order_independent (c1 c2 : list CartItem.t) :
  Permutation c1 c2 -> foodSubtotal c1 = foodSubtotal c2.
Proof. intros Hp. by rewrite Hp. Qed.

(** C22: The line price of [handleAddToCart] refines the specification's
    [priceSelection] at the quantity [1] the code always uses: whenever the
    specification accepts a selection, the code computes the same line
    total. *)
Theorem finalPrice_refines_priceSelection it v mods p :
  priceSelection it v mods 1 = inl p -> finalPrice it v mods = p.
Proof.
  unfold priceSelection. rewrite finalPrice_sum.
  destruct (MenuItem.isAvailable it); simpl; [|discriminate].
  destruct v as [v'|]; [destruct (offers it v')|];
    repeat case_match; simpl in *; try discriminate;
    intros [= <-]; lia.
Qed.

(** ** Witnesses *)

Definition line (id : string) (p : Money) : CartItem.t :=
  CartItem.mk id id 1 None (Some []) p.

Lemma foodSubtotal_order_independent_witness :
  Permutation [line "m1" 5500; line "m2" 2000] [line "m2" 2000; line "m1" 5500] /\
  foodSubtotal [line "m1" 5500; line "m2" 2000] = foodSubtotal [line "m2" 2000; line "m1" 5500].
Proof.
  assert (Hp : Permutation [line "m1" 5500; line "m2" 2000] [line "m2" 2000; line "m1" 5500])
    by constructor.
  split; [exact Hp|]. exact (foodSubtotal_order_independent _ _ Hp).
Defined.

Definition fullHouse : MenuItem.t :=
  match MOCK_MENU_ITEMS with
  | it :: _ => it
  | [] => MenuItem.mk "m0" "rest-0" "0" "none" "none" 0 "none" None None false
  end.

Definition doubleCheeseVar : MenuItemVariation.t :=
  MenuItemVariation.mk "v2" "Double Cheese" 1000.

Lemma finalPrice_refines_priceSelection_witness :
  priceSelection fullHouse (Some doubleCheeseVar) [] 1 = inl 5500 /\
  finalPrice fullHouse (Some doubleCheeseVar) [] = 5500.
Proof.
  assert (H : priceSelection fullHouse (Some doubleCheeseVar) [] 1 = inl 5500)
    by (vm_compute; reflexivity).
  split; [exact H|]. exact (finalPrice_refines_priceSelection _ _ _ _ H).
Defined.

End Pricing.
