(* ===== verification/Store.v ===== *)
(** * Store: the zustand store of [src/store.ts]

    [AppState] is the store's state (the interface of lines 6-19 without its
    function members); each setter is a function [AppState -> AppState]
    that rebuilds the state the way zustand's [set] merges the returned
    partial object into it.  The catalogue fields are initialised from
    [Catalog] and never written.

    The lemmas describe each setter on every branch: [updateOrderStatus]
    rewrites every order whose id matches (there is no guard of any kind,
    and no error for an unknown id), [removeFromCart] silently ignores an
    index out of range, [placeOrder] prepends the order and empties the
    cart, [logout] never touches the orders. *)

From S2P Require Import Prelude Types Catalog.

Module Store.

Record AppState := mk {
  currentUser : option User.t;
  restaurants : list Restaurant.t;
  menuItems : list MenuItem.t;
  orders : list Order.t;
  cart : list CartItem.t }.

Definition initialState : AppState :=
  mk None MOCK_RESTAURANTS MOCK_MENU_ITEMS [] [].

(** [MOCK_USERS.find(u => u.email === email)]; [if (user) set(...)]. *)
Definition login (email : string) (s : AppState) : AppState :=
  match find (fun u => User.email u =s= email) MOCK_USERS with
  | Some user => mk (Some user) (restaurants s) (menuItems s) (orders s) (cart s)
  | None => s
  end.

Definition logout (s : AppState) : AppState :=
  mk None (restaurants s) (menuItems s) (orders s) [].

Definition addToCart (item : CartItem.t) (s : AppState) : AppState :=
  mk (currentUser s) (restaurants s) (menuItems s) (orders s) (cart s ++ [item]).

(** [state.cart.filter((_, i) => i !== index)] *)
Definition removeFromCart (index : Z) (s : AppState) : AppState :=
  mk (currentUser s) (restaurants s) (menuItems s) (orders s)
     (filter_idx (fun i => negb (i =? index)) (cart s)).

Definition clearCart (s : AppState) : AppState :=
  mk (currentUser s) (restaurants s) (menuItems s) (orders s) [].

Definition placeOrder (order : Order.t) (s : AppState) : AppState :=
  mk (currentUser s) (restaurants s) (menuItems s) (order :: orders s) [].

(** The driver of [...(driverId ? { driverId } : {})]: an absent or empty
    (falsy) [driverId] keeps the order's own. *)
Definition newDriverId (driverId : option string) (old : option string) : option string :=
  match driverId with
  | Some d => if d =s= "" then old else Some d
  | None => old
  end.

(** The callback of [state.orders.map(o => ...)]. *)
Definition updateOrder (orderId : string) (status : OrderStatus)
    (driverId : option string) (now : Z) (o : Order.t) : Order.t :=
  if Order.id o =s= orderId then
    Order.mk (Order.id o) (Order.customerId o) (Order.restaurantId o)
      (newDriverId driverId (Order.driverId o)) (Order.items o)
      (Order.pickupAddress o) (Order.dropoffAddress o) status
      (Order.paymentMethod o) (Order.foodSubtotal o) (Order.deliveryFee o)
      (Order.serviceFee o) (Order.totalFee o) (Order.createdAt o) now
  else o.

Definition updateOrderStatus (orderId : string) (status : OrderStatus)
    (driverId : option string) (now : Z) (s : AppState) : AppState :=
  mk (currentUser s) (restaurants s) (menuItems s)
     (map (updateOrder orderId status driverId now) (orders s)) (cart s).

(** ** Lemmas on [updateOrder] *)

Lemma updateOrder_other orderId st d now o :
  Order.id o <> orderId -> updateOrder orderId st d now o = o.
Proof. unfold updateOrder. by case_streq. Qed.

Lemma updateOrder_id orderId st d now o :
  Order.id (updateOrder orderId st d now o) = Order.id o.
Proof. unfold updateOrder. by case_streq. Qed.

Lemma updateOrder_fees orderId st d now o :
  let o' := updateOrder orderId st d now o in
  Order.foodSubtotal o' = Order.foodSubtotal o /\
  Order.deliveryFee o' = Order.deliveryFee o /\
  Order.serviceFee o' = Order.serviceFee o /\
  Order.totalFee o' = Order.totalFee o.
Proof. unfold updateOrder. by case_streq. Qed.

(** [o'] is [o] with at most its status, driver and update time changed:
    the fields the specification allows a transition to write. *)
Definition same_except_transition (o o' : Order.t) : Prop :=
  Order.id o' = Order.id o /\ Order.customerId o' = Order.customerId o /\
  Order.restaurantId o' = Order.restaurantId o /\ Order.items o' = Order.items o /\
  Order.pickupAddress o' = Order.pickupAddress o /\
  Order.dropoffAddress o' = Order.dropoffAddress o /\
  Order.paymentMethod o' = Order.paymentMethod o /\
  Order.foodSubtotal o' = Order.foodSubtotal o /\
  Order.deliveryFee o' = Order.deliveryFee o /\
  Order.serviceFee o' = Order.serviceFee o /\
  Order.totalFee o' = Order.totalFee o /\ Order.createdAt o' = Order.createdAt o.

Lemma lookup_updateOrderStatus orderId st d now s i :
  orders (updateOrderStatus orderId st d now s) !! i
  = updateOrder orderId st d now <$> orders s !! i.
Proof. apply list_lookup_fmap. Qed.

(** An order property kept by the update of the matching orders holds of
    every order after [updateOrderStatus]. *)
Lemma Forall_updateOrderStatus (P : Order.t -> Prop) orderId st d now s :
  Forall P (orders s) ->
  (forall o, o ∈ orders s -> P o -> Order.id o = orderId ->
             P (updateOrder orderId st d now o)) ->
  Forall P (orders (updateOrderStatus orderId st d now s)).
Proof.
  intros Hall Hup. simpl. apply Forall_map. rewrite Forall_forall in Hall |- *.
  intros o Ho. destruct (decide (Order.id o = orderId)) as [E|E].
  - apply Hup; [by apply list_elem_of_In|by apply Hall|done].
  - rewrite updateOrder_other by done. by apply Hall.
Qed.

(** With unique ids, updating the id of [o] changes no other order. *)
Lemma updateOrder_unique_other os o o' st d now :
  NoDup (map Order.id os) -> o ∈ os -> o' ∈ os -> o' <> o ->
  updateOrder (Order.id o) st d now o' = o'.
Proof.
  intros Hnd Ho Ho' Hne. apply updateOrder_other.
  intros E. apply Hne. by eapply (NoDup_map_key_eq Order.id).
Qed.

Lemma map_id_updateOrder orderId st d now os :
  map Order.id (map (updateOrder orderId st d now) os) = map Order.id os.
Proof. rewrite map_map. apply map_ext. intros o. apply updateOrder_id. Qed.

#[export] Hint Rewrite updateOrder_id map_id_updateOrder : wd_rw.

Lemma updateOrderStatus_ids orderId st d now s :
  map Order.id (orders (updateOrderStatus orderId st d now s)) = map Order.id (orders s).
Proof. simpl. by autorewrite with wd_rw. Qed.

Lemma updateOrder_self st d now o :
  updateOrder (Order.id o) st d now o =
  Order.mk (Order.id o) (Order.customerId o) (Order.restaurantId o)
    (newDriverId d (Order.driverId o)) (Order.items o)
    (Order.pickupAddress o) (Order.dropoffAddress o) st
    (Order.paymentMethod o) (Order.foodSubtotal o) (Order.deliveryFee o)
    (Order.serviceFee o) (Order.totalFee o) (Order.createdAt o) now.
Proof. unfold updateOrder. by rewrite String.eqb_refl. Qed.

(** ** Properties *)

(** C17: [updateOrderStatus] rewrites, in place, exactly the orders whose id is
    [orderId]: each such order gets the requested status (whatever its
    current one), the update time [now] and the driver of
    [newDriverId], and keeps every other field; every other order, the
    cart and the current user are untouched. *)
Theorem updateOrderStatus_effect orderId st d now s i o :
  orders s !! i = Some o ->
  let s' := updateOrderStatus orderId st d now s in
  exists o', orders s' !! i = Some o' /\ same_except_transition o o' /\
    (Order.id o = orderId ->
       Order.status o' = st /\ Order.updatedAt o' = now /\
       Order.driverId o' = newDriverId d (Order.driverId o)) /\
    (Order.id o <> orderId -> o' = o) /\
    length (orders s') = length (orders s) /\
    cart s' = cart s /\ currentUser s' = currentUser s.
Proof.
  intros Hi s'; subst s'. exists (updateOrder orderId st d now o).
  rewrite lookup_updateOrderStatus, Hi. simpl. rewrite length_map.
  unfold updateOrder, same_except_transition.
  case_streq; simpl; repeat split; congruence.
Qed.

(** C18: An unknown order id is not an error: the store is left as it was
    (the specification asks for [NotFoundError]). *)
Theorem updateOrderStatus_unknown_id orderId st d now s :
  Forall (fun o => Order.id o <> orderId) (orders s) ->
  updateOrderStatus orderId st d now s = s.
Proof.
  intros Hall. destruct s as [u rs ms os c]; unfold updateOrderStatus; simpl in *.
  f_equal. induction Hall as [|o os Ho _ IH]; simpl; [done|].
  by rewrite updateOrder_other, IH.
Qed.

(** C19: [removeFromCart index] deletes the line at [index] when it exists, and
    silently leaves the cart unchanged otherwise (the specification asks
    for [IndexOutOfRangeError]). *)
Theorem removeFromCart_spec index s :
  cart (removeFromCart index s)
  = if bool_decide (0 <= index < Z.of_nat (length (cart s)))
    then take (Z.to_nat index) (cart s) ++ drop (S (Z.to_nat index)) (cart s)
    else cart s.
Proof.
  unfold removeFromCart, filter_idx; simpl. case_bool_decide as Hr.
  - rewrite filter_idx_from_drop by lia. by rewrite Z.sub_0_r.
  - apply filter_idx_from_all. intros j Hj.
    apply negb_true_iff, Z.eqb_neq. lia.
Qed.

(** C21: Logging in with the email of a catalogue user makes exactly that
    user current (the emails of the catalogue are unique) and changes
    nothing else of the store. *)
Theorem login_spec email s u :
  u ∈ MOCK_USERS -> User.email u = email ->
  login email s = mk (Some u) (restaurants s) (menuItems s) (orders s) (cart s).
Proof.
  intros Hu <-. unfold login.
  rewrite (find_key_unique User.email MOCK_USERS u); auto with wd.
Qed.

(** C20: Round trip of the cart: adding a line and then removing the line
    at the index it was added at gives back the store. *)
Theorem removeFromCart_addToCart item s :
  removeFromCart (Z.of_nat (length (cart s))) (addToCart item s) = s.
Proof.
  destruct s as [u rs ms os c]. unfold removeFromCart, addToCart, filter_idx; simpl. f_equal.
  rewrite filter_idx_from_drop by (rewrite length_app; simpl; lia).
  rewrite Z.sub_0_r, Nat2Z.id, take_app_length, drop_app_ge by lia.
  by rewrite Nat.sub_succ_l, Nat.sub_diag, app_nil_r by lia.
Qed.

(** ** Witnesses *)

Definition sampleOrder (oid : string) (st : OrderStatus) : Order.t :=
  Order.mk oid "4" (Some "rest-1") None (Some []) "Vilikazi Street, Orlando West"
    "Customer Address" st CASH 5500 2500 500 8500 1000 1000.

Lemma updateOrderStatus_effect_witness :
  exists o', orders (updateOrderStatus "ORD-7" READY_FOR_PICKUP None 2000
                       (placeOrder (sampleOrder "ORD-7" PREPARING) initialState)) !! 0%nat = Some o' /\
    Order.status o' = READY_FOR_PICKUP /\ Order.updatedAt o' = 2000.
Proof.
  destruct (updateOrderStatus_effect "ORD-7" READY_FOR_PICKUP None 2000
              (placeOrder (sampleOrder "ORD-7" PREPARING) initialState) 0%nat
              (sampleOrder "ORD-7" PREPARING) eq_refl)
    as (o' & Hl & _ & Hst & _).
  destruct (Hst eq_refl) as (H1 & H2 & _). by exists o'.
Defined.

Lemma updateOrderStatus_unknown_id_witness :
  updateOrderStatus "ORD-9" CANCELLED None 2000
    (placeOrder (sampleOrder "ORD-7" PREPARING) initialState)
  = placeOrder (sampleOrder "ORD-7" PREPARING) initialState.
Proof.
  apply updateOrderStatus_unknown_id. constructor; [discriminate|constructor].
Defined.

Lemma login_spec_witness :
  login "thabo@gmail.com" initialState
  = mk (Some (User.mk "4" "Thabo Mokoena" "thabo@gmail.com" CUSTOMER))
      MOCK_RESTAURANTS MOCK_MENU_ITEMS [] [].
Proof.
  apply (login_spec "thabo@gmail.com" initialState); [|reflexivity].
  by repeat (apply elem_of_cons; first [left; reflexivity|right]).
Defined.

End Store.
