(* ===== verification/Lifecycle.v ===== *)
(** * Lifecycle: the order state machine the specification prescribes

    The code has no transition function of its own: every status change is
    a call [updateOrderStatus(id, status, driverId?)] from a button of a
    view, with no check in the store (see [Store], [Views]).  This file
    states the contract those buttons are measured against, section 4.2 of
    the specification: the legal edges, the actor each edge requires, and
    [applyTransition] with its three errors.  It is an abstract
    specification, not a model of code; [System] proves which code steps
    refine it and which do not.

    Actor checks.  The specification's table asks for the restaurant admin
    "owning the order's restaurant" on the first row and for a plain
    RestaurantAdmin on the others; its design rationale ("only the party
    currently responsible for the order") is read here as ownership on every
    restaurant row.  [owner_of] maps a restaurant id to its owner's user id. *)

From S2P Require Import Prelude Types Catalog Store.

Module Lifecycle.

Record Actor := mkActor { actorId : string; actorRole : UserRole }.

Inductive TransitionError := NotFoundError | UnauthorizedError | IllegalTransitionError.

(** The edges of the table, whoever requests them. *)
Definition edge (from to : OrderStatus) : bool :=
  match from, to with
  | PENDING, RESTAURANT_ACCEPTED | PENDING, CANCELLED
  | RESTAURANT_ACCEPTED, PREPARING | RESTAURANT_ACCEPTED, CANCELLED
  | PREPARING, READY_FOR_PICKUP
  | READY_FOR_PICKUP, ACCEPTED | PENDING, ACCEPTED
  | ACCEPTED, PICKED_UP | PICKED_UP, IN_TRANSIT | IN_TRANSIT, DELIVERED => true
  | _, _ => false
  end.

Section Contract.

Variable owner_of : string -> option string.

Definition owns (a : Actor) (o : Order.t) : bool :=
  match Order.restaurantId o with
  | Some r => bool_decide (owner_of r = Some (actorId a))
  | None => false
  end.

Definition assigned (a : Actor) (o : Order.t) : bool :=
  bool_decide (Order.driverId o = Some (actorId a)).

(** The actor column and the precondition column of the table. *)
Definition authorized (a : Actor) (o : Order.t) (to : OrderStatus) : bool :=
  match Order.status o, to, actorRole a with
  | PENDING, RESTAURANT_ACCEPTED, RESTAURANT_ADMIN
  | PENDING, CANCELLED, RESTAURANT_ADMIN
  | RESTAURANT_ACCEPTED, PREPARING, RESTAURANT_ADMIN
  | RESTAURANT_ACCEPTED, CANCELLED, RESTAURANT_ADMIN
  | PREPARING, READY_FOR_PICKUP, RESTAURANT_ADMIN => owns a o
  | PENDING, CANCELLED, CUSTOMER => Order.customerId o =s= actorId a
  | READY_FOR_PICKUP, ACCEPTED, DRIVER => bool_decide (Order.driverId o = None)
  | PENDING, ACCEPTED, DRIVER =>
      bool_decide (Order.restaurantId o = None) && bool_decide (Order.driverId o = None)
  | ACCEPTED, PICKED_UP, DRIVER
  | PICKED_UP, IN_TRANSIT, DRIVER
  | IN_TRANSIT, DELIVERED, DRIVER => assigned a o
  | _, _, _ => false
  end.

(** The order after a successful transition: status, update time and, on
    the driver's acceptance only, the driver. *)
Definition transitioned (a : Actor) (to : OrderStatus) (now : Z) (o : Order.t) : Order.t :=
  Order.mk (Order.id o) (Order.customerId o) (Order.restaurantId o)
    (if bool_decide (to = ACCEPTED) then Some (actorId a) else Order.driverId o)
    (Order.items o) (Order.pickupAddress o) (Order.dropoffAddress o) to
    (Order.paymentMethod o) (Order.foodSubtotal o) (Order.deliveryFee o)
    (Order.serviceFee o) (Order.totalFee o) (Order.createdAt o) now.

Definition applyTransition (orders : list Order.t) (orderId : string)
    (to : OrderStatus) (a : Actor) (now : Z) : list Order.t + TransitionError :=
  match find (fun o => Order.id o =s= orderId) orders with
  | None => inr NotFoundError
  | Some o =>
      if negb (edge (Order.status o) to) then inr IllegalTransitionError
      else if negb (authorized a o to) then inr UnauthorizedError
      else inl (map (fun o' => if Order.id o' =s= orderId
                               then transitioned a to now o' else o') orders)
  end.

End Contract.

(** No edge leaves a terminal status. *)
Lemma edge_not_terminal from to : edge from to = true -> is_terminal from = false.
Proof. by destruct from, to. Qed.

End Lifecycle.
