(* ===== verification/Views.v ===== *)
(** * Views: the event handlers and order lists of [src/views] and [src/App.tsx]

    Each view reads the store and calls its setters from button handlers;
    only that logic is modelled, one [Module] per view:

    - [CustomerApp]: the component state of [CustomerApp.tsx] (lines 9-13)
      as the record [UI], its setters, [restMenu] (line 60),
      [handleAddToCart] (lines 20-35) and [handlePlaceOrder] (lines 37-57);
    - [DriverApp]: the lists [availableOrders] and [myActiveOrders]
      (lines 11-12), [handleAccept] (lines 14-16) and [handleStatusUpdate]
      (lines 18-25), and the render-time lookup of [drivers] (line 9);
    - [RestaurantAdminDashboard]: [myRest], [myOrders], [pending], [active]
      (lines 12-16) and the Decline / Accept / Prep / Ready buttons (lines
      77-78, 103-104);
    - [App]: [getDashboardByRole] (lines 16-29).

    The React component state of a view is lost when the view unmounts; the
    system model of [System] resets it when the current user changes. *)

From S2P Require Import Prelude Types Catalog Pricing Store.

(** [!x] on an optional string: [undefined] and [""] are falsy. *)
Definition js_falsy_str (x : option string) : bool :=
  match x with None => true | Some s => s =s= "" end.

(** [x || ''] on an optional string. *)
Definition js_or_empty (x : option string) : string :=
  match x with Some s => if s =s= "" then "" else s | None => "" end.

Module CustomerApp.

Record UI := mkUI {
  selectedRest : option Restaurant.t;
  selectedItem : option MenuItem.t;
  selectedVar : option MenuItemVariation.t;
  selectedMods : list MenuItemModifier.t;
  paymentMethod : PaymentMethod }.

Definition initialUI : UI := mkUI None None None [] CARD.

Definition setSelectedRest (r : option Restaurant.t) (ui : UI) : UI :=
  mkUI r (selectedItem ui) (selectedVar ui) (selectedMods ui) (paymentMethod ui).
Definition setSelectedItem (it : option MenuItem.t) (ui : UI) : UI :=
  mkUI (selectedRest ui) it (selectedVar ui) (selectedMods ui) (paymentMethod ui).
Definition setSelectedVar (v : option MenuItemVariation.t) (ui : UI) : UI :=
  mkUI (selectedRest ui) (selectedItem ui) v (selectedMods ui) (paymentMethod ui).
Definition setPaymentMethod (m : PaymentMethod) (ui : UI) : UI :=
  mkUI (selectedRest ui) (selectedItem ui) (selectedVar ui) (selectedMods ui) m.

(** [menuItems.filter(m => m.restaurantId === selectedRest.id)] *)
Definition restMenu (s : Store.AppState) (rest : Restaurant.t) : list MenuItem.t :=
  filter (fun m => MenuItem.restaurantId m = Restaurant.id rest) (Store.menuItems s).

Definition handleAddToCart (ui : UI) (s : Store.AppState) : UI * Store.AppState :=
  match selectedItem ui with
  | None => (ui, s)
  | Some it =>
      let item := Pricing.makeCartItem it (selectedVar ui) (selectedMods ui) in
      (mkUI (selectedRest ui) None None [] (paymentMethod ui),
       Store.addToCart item s)
  end.

Definition orderId (rnd : Z) : string := "ORD-" +:+ pretty rnd.

Definition dropoffAddress : string := "House 4242, Orlando West, Soweto".

(** The [newOrder] literal; the amounts are the render-time constants of
    lines 15-18, computed from the store's cart. *)
Definition newOrder (ui : UI) (s : Store.AppState) (rnd now : Z) : Order.t :=
  Order.mk (orderId rnd)
    (js_or_empty (Store.currentUser s ?. User.id))
    (selectedRest ui ?. Restaurant.id)
    None
    (Some (Store.cart s))
    (js_or_empty (selectedRest ui ?. Restaurant.address))
    dropoffAddress PENDING (paymentMethod ui)
    (Pricing.foodSubtotal (Store.cart s)) Pricing.deliveryFee Pricing.serviceFee
    (Pricing.totalOrderAmount (Store.cart s)) now now.

Definition handlePlaceOrder (ui : UI) (s : Store.AppState) (rnd now : Z)
    : UI * Store.AppState :=
  match Store.cart s with
  | [] => (ui, s)
  | _ => (setSelectedRest None ui, Store.placeOrder (newOrder ui s rnd now) s)
  end.

End CustomerApp.

Module DriverApp.

(** The shape of the [drivers] entries the view expects
    ([d.id], [d.ratingAvg], [d.totalTrips], [d.isOnline]); the rating is
    kept in tenths, as [Restaurant.rating]. *)
Record Driver := mkDriver { id : string; ratingAvg : Z; totalTrips : Z; isOnline : bool }.

(** [useStore().drivers]: [AppState] has no [drivers] member, so the view
    reads [undefined]. *)
Definition storeDrivers (s : Store.AppState) : option (list Driver) := None.

(** [drivers.find(d => d.id === currentUser?.id)], evaluated while the
    view renders: [None] when [drivers] is [undefined] (a [TypeError] is
    thrown), otherwise the lookup's result. *)
Definition driverData (drivers : option (list Driver)) (s : Store.AppState)
    : option (option Driver) :=
  match drivers with
  | None => None
  | Some ds => Some (find (fun d => bool_decide (Some (id d) = Store.currentUser s ?. User.id)) ds)
  end.

Definition availableOrders (s : Store.AppState) : list Order.t :=
  filter (fun o => Order.status o = READY_FOR_PICKUP \/
                   (Order.status o = PENDING /\ js_falsy_str (Order.restaurantId o) = true))
    (Store.orders s).

Definition myActiveOrders (s : Store.AppState) : list Order.t :=
  filter (fun o => Order.driverId o = Store.currentUser s ?. User.id /\
                   Order.status o <> DELIVERED)
    (Store.orders s).

Definition handleAccept (orderId : string) (now : Z) (s : Store.AppState) : Store.AppState :=
  Store.updateOrderStatus orderId ACCEPTED (Store.currentUser s ?. User.id) now s.

(** The [if / else if] chain of [handleStatusUpdate]. *)
Definition nextStatus (currentStatus : OrderStatus) : OrderStatus :=
  match currentStatus with
  | ACCEPTED => PICKED_UP
  | PICKED_UP => IN_TRANSIT
  | IN_TRANSIT => DELIVERED
  | st => st
  end.

Definition handleStatusUpdate (orderId : string) (currentStatus : OrderStatus)
    (now : Z) (s : Store.AppState) : Store.AppState :=
  Store.updateOrderStatus orderId (nextStatus currentStatus) None now s.

End DriverApp.

Module RestaurantAdminDashboard.

Definition myRest (s : Store.AppState) : option Restaurant.t :=
  find (fun r => bool_decide (Some (Restaurant.ownerId r) = Store.currentUser s ?. User.id))
    (Store.restaurants s).

Definition myOrders (s : Store.AppState) : list Order.t :=
  filter (fun o => Order.restaurantId o = myRest s ?. Restaurant.id) (Store.orders s).

Definition pending (s : Store.AppState) : list Order.t :=
  filter (fun o => Order.status o = PENDING) (myOrders s).

Definition active (s : Store.AppState) : list Order.t :=
  filter (fun o => Order.status o ∈ [RESTAURANT_ACCEPTED; PREPARING; READY_FOR_PICKUP])
    (myOrders s).

(** The four buttons: Decline and Accept on a pending ticket, Prep and
    Ready on an active one. *)
Inductive Button := Decline | Accept | Prep | Ready.

#[global] Instance Button_eq_dec : EqDecision Button.
Proof. solve_decision. Defined.

Definition buttonStatus (b : Button) : OrderStatus :=
  match b with
  | Decline => CANCELLED
  | Accept => RESTAURANT_ACCEPTED
  | Prep => PREPARING
  | Ready => READY_FOR_PICKUP
  end.

Definition onClick (b : Button) (orderId : string) (now : Z) (s : Store.AppState)
    : Store.AppState :=
  Store.updateOrderStatus orderId (buttonStatus b) None now s.

(** The list a button is rendered in. *)
Definition buttonList (b : Button) : Store.AppState -> list Order.t :=
  match b with Decline | Accept => pending | Prep | Ready => active end.

End RestaurantAdminDashboard.

Module App.

Inductive Screen :=
  | PlatformOwnerDashboard
  | RestaurantAdminDashboard
  | CustomerApp
  | DriverApp
  | NavigateToLogin.

#[global] Instance Screen_eq_dec : EqDecision Screen.
Proof. solve_decision. Defined.

Definition getDashboardByRole (currentUser : option User.t) : Screen :=
  match currentUser ?. User.role with
  | Some OWNER => PlatformOwnerDashboard
  | Some RESTAURANT_ADMIN => RestaurantAdminDashboard
  | Some CUSTOMER => CustomerApp
  | Some DRIVER => DriverApp
  | None => NavigateToLogin
  end.

End App.
