(* ===== verification/RestaurantDashboard.v ===== *)
(** * RestaurantDashboard: the restaurant view that [App.tsx] does not route

    [src/views/RestaurantDashboard.tsx] is a second restaurant view, not
    reachable from [App.tsx]: its ticket lists (lines 9-13), its
    [handleUpdate] (lines 15-17), its two figures (lines 34-35) and its four
    buttons (lines 79-80, 106-107).  Both restaurant views are instances of
    the interface [TicketBoard]: which tickets each button is shown on, and
    what pressing it does to the store.  The theorem of this file is that
    the two instances are equal, so routing the restaurant admin to this
    view would change no behaviour the development proves. *)

From S2P Require Import Prelude Types Store Views.

Module RestaurantDashboard.

Definition myRest (s : Store.AppState) : option Restaurant.t :=
  find (fun r => bool_decide (Some (Restaurant.ownerId r) = Store.currentUser s ?. User.id))
    (Store.restaurants s).

Definition myOrders (s : Store.AppState) : list Order.t :=
  filter (fun o => Order.restaurantId o = myRest s ?. Restaurant.id) (Store.orders s).

Definition pendingOrders (s : Store.AppState) : list Order.t :=
  filter (fun o => Order.status o = PENDING) (myOrders s).

Definition activeOrders (s : Store.AppState) : list Order.t :=
  filter (fun o => Order.status o ∈ [RESTAURANT_ACCEPTED; PREPARING; READY_FOR_PICKUP])
    (myOrders s).

Definition handleUpdate (orderId : string) (status : OrderStatus) (now : Z)
    (s : Store.AppState) : Store.AppState :=
  Store.updateOrderStatus orderId status None now s.

(** The figures "Unchecked Orders" and "Kitchen Prep". *)
Definition stats (s : Store.AppState) : Z * Z :=
  (Z.of_nat (length (pendingOrders s)), Z.of_nat (length (activeOrders s))).

(** The status each button passes to [handleUpdate]. *)
Definition buttonStatus (b : RestaurantAdminDashboard.Button) : OrderStatus :=
  match b with
  | RestaurantAdminDashboard.Decline => CANCELLED
  | RestaurantAdminDashboard.Accept => RESTAURANT_ACCEPTED
  | RestaurantAdminDashboard.Prep => PREPARING
  | RestaurantAdminDashboard.Ready => READY_FOR_PICKUP
  end.

(** The list a button is rendered in. *)
Definition buttonList (b : RestaurantAdminDashboard.Button) : Store.AppState -> list Order.t :=
  match b with
  | RestaurantAdminDashboard.Decline | RestaurantAdminDashboard.Accept => pendingOrders
  | RestaurantAdminDashboard.Prep | RestaurantAdminDashboard.Ready => activeOrders
  end.

End RestaurantDashboard.

(** ** The interface of a restaurant view *)

(** What a restaurant view offers: the tickets each button is rendered on,
    and the effect of pressing a button on an order. *)
Record TicketBoard := {
  tickets : RestaurantAdminDashboard.Button -> Store.AppState -> list Order.t;
  press : RestaurantAdminDashboard.Button -> string -> Z -> Store.AppState -> Store.AppState }.

Definition adminBoard : TicketBoard := {|
  tickets := RestaurantAdminDashboard.buttonList;
  press := RestaurantAdminDashboard.onClick |}.

Definition kitchenBoard : TicketBoard := {|
  tickets := RestaurantDashboard.buttonList;
  press := fun b oid now => RestaurantDashboard.handleUpdate oid (RestaurantDashboard.buttonStatus b) now |}.

(** Two boards are equivalent when they show every button on the same
    tickets with the same effect. *)
Definition board_equiv (b1 b2 : TicketBoard) : Prop :=
  forall b s, tickets b1 b s = tickets b2 b s /\
              forall oid now, press b1 b oid now s = press b2 b oid now s.

(** ** Properties *)

(** C29: The unrouted [RestaurantDashboard] is equivalent to the routed
    [RestaurantAdminDashboard]: every button is shown on the same tickets
    and has the same effect on the store, so the lifecycle departures
    proved of the one (Ready skips [PREPARING], Prep moves back, a second
    Ready succeeds) are departures of the other. *)
Theorem kitchen_equiv_admin : board_equiv kitchenBoard adminBoard.
Proof. intros b s. by destruct b. Qed.
