(* ===== verification/Dashboards.v ===== *)
(** * Dashboards: the figures of the analytics views

    [PlatformOwnerDashboard] (routed for the [OWNER] role) and
    [AdminDashboard] (not routed by [src/App.tsx]) compute their figures
    from the store at render time: the gross merchandise value, the
    platform's 20% commission, the number of drivers and, in
    [AdminDashboard], the distribution of orders over three status slices
    and its total; and the lists they print (the owner's KPIs and city
    sales, both restaurant tables).
    The hard-coded offsets (historical scale) are the source's.  Both read
    [drivers], which the store lacks: the driver figures are [None] where
    the code throws.

    Money is in cents as everywhere else; the commission, a product by the
    double [0.20], is a rational number of cents ([Q]). *)

From Stdlib Require Import QArith.
From S2P Require Import Prelude Types Store Views.

Module PlatformOwnerDashboard.

(** [orders.reduce((acc, o) => acc + o.totalFee, 0) + 145000] *)
Definition gmv (s : Store.AppState) : Money :=
  fold_left (fun acc o => acc + Order.totalFee o) (Store.orders s) 0 + 14500000.

(** [gmv * 0.20] *)
Definition platformRevenue (s : Store.AppState) : Q := (inject_Z (gmv s) * (20 # 100))%Q.

(** [drivers.length + 84]: [None] when [drivers] is [undefined] (a
    [TypeError] is thrown while rendering). *)
Definition activeDrivers (drivers : option (list DriverApp.Driver)) : option Z :=
  option_map (fun ds => Z.of_nat (length ds) + 84) drivers.

Inductive KpiValue :=
  | Amount (m : Money)
  | Commission (q : Q)
  | DriverCount (n : option Z)
  | Fixed (t : string).

Record Kpi := mkKpi { label : string; value : KpiValue; change : string; icon : string;
                     trend : string }.

(** [kpis] (lines 19-24). *)
Definition kpis (drivers : option (list DriverApp.Driver)) (s : Store.AppState) : list Kpi :=
  [mkKpi "Total GMV" (Amount (gmv s)) "+12.5%" "🚀" "up";
   mkKpi "Net Commission" (Commission (platformRevenue s)) "+8.2%" "💎" "up";
   mkKpi "Active Drivers" (DriverCount (activeDrivers drivers)) "100% Online" "🚛" "neutral";
   mkKpi "Avg Delivery" (Fixed "24m") "-2m from avg" "⏱️" "up"].

(** [citySales] (lines 26-31), in rands as written. *)
Definition citySales : list (string * Z) :=
  [("Soweto", 45000); ("Sandton", 32000); ("Khayelitsha", 28000); ("Umlazi", 22000)].

(** A row of the merchants table (lines 139-148): name, owner, zone and
    the fixed commission and status. *)
Definition restaurantRows (s : Store.AppState) : list (string * string * string * string * string) :=
  map (fun r => (Restaurant.name r, Restaurant.ownerId r, Restaurant.zone r, "20.0%", "Verified"))
    (Store.restaurants s).

End PlatformOwnerDashboard.

Module AdminDashboard.

(** [orders.reduce((acc, o) => acc + o.totalFee, 0) + 125000] *)
Definition totalGMV (s : Store.AppState) : Money :=
  fold_left (fun acc o => acc + Order.totalFee o) (Store.orders s) 0 + 12500000.

Definition platformRevenue (s : Store.AppState) : Q := (inject_Z (totalGMV s) * (20 # 100))%Q.

(** [drivers.filter(d => d.isOnline).length] *)
Definition activeDrivers (drivers : option (list DriverApp.Driver)) : option Z :=
  option_map (fun ds => Z.of_nat (length (filter (fun d => DriverApp.isOnline d = true) ds)))
    drivers.

Definition countStatus (p : OrderStatus -> Prop) `{!forall st, Decision (p st)}
    (s : Store.AppState) : Z :=
  Z.of_nat (length (filter (fun o => p (Order.status o)) (Store.orders s))).

(** The three slices of [statusDistribution], with their offsets. *)
Definition statusDistribution (s : Store.AppState) : list (string * Z) :=
  [("Delivered", countStatus (fun st => st = DELIVERED) s + 420);
   ("Active", countStatus (fun st => st <> DELIVERED /\ st <> CANCELLED) s + 32);
   ("Cancelled", countStatus (fun st => st = CANCELLED) s + 12)].

(** [statusDistribution.reduce((a, b) => a + b.value, 0)] (line 104). *)
Definition distributionTotal (s : Store.AppState) : Z :=
  fold_left (fun a b => a + snd b) (statusDistribution s) 0.

(** [{restaurants.length} Registered] (line 125). *)
Definition registered (s : Store.AppState) : Z := Z.of_nat (length (Store.restaurants s)).

(** A row of the restaurants table (lines 139-158): logo, name, zone and
    the fixed average order, commission split and status. *)
Definition restaurantRows (s : Store.AppState)
    : list (string * string * string * Money * string * string) :=
  map (fun r => (Restaurant.logo r, Restaurant.name r, Restaurant.zone r, 14500,
                 "75/20/5 Approved", "Verified"))
    (Store.restaurants s).

End AdminDashboard.

(** ** Properties *)

(** C28: The three slices of [AdminDashboard.statusDistribution] partition
    the orders: every order is in exactly one of Delivered, Active and
    Cancelled, so the total printed in the middle of the pie chart is the
    number of orders plus the hard-coded 464. *)
Theorem statusDistribution_total s :
  AdminDashboard.distributionTotal s = Z.of_nat (length (Store.orders s)) + 464.
Proof.
  unfold AdminDashboard.distributionTotal. rewrite (fold_left_add_sumZ snd), Z.add_0_l.
  unfold AdminDashboard.statusDistribution, AdminDashboard.countStatus; simpl.
  induction (Store.orders s) as [|o os IH]; simpl; [lia|].
  rewrite !filter_cons.
  destruct (Order.status o); repeat case_decide; try congruence; try tauto;
    simpl length; lia.
Qed.
