(* ===== verification/Charts.v ===== *)
(** * Charts: the cards, charts and legends of the analytics views

    [AdminCharts] ([src/views/AdminDashboard.tsx]) and [OwnerCharts]
    ([src/views/PlatformOwnerDashboard.tsx]) hold what the two analytics
    views draw around the figures of [Dashboards]: the stat cards, the
    fixed chart data, the pie charts' cells and their legends, the period
    tabs and the tables' column headers.  Both files declare the same
    palette [COLORS] (line 11).

    A pie chart of recharts colours its [i]-th slice with its [i]-th
    [<Cell>] child.  The admin view builds its cells from the slices with
    [COLORS[index % COLORS.length]] and its legend rows with [COLORS[i]];
    the owner view builds one cell per colour (four) for three slices, and
    writes the legend's colours and percentages out by hand.  The
    theorems check that each legend row names the colour and the figure
    of the slice it stands for. *)

From Stdlib Require Import QArith.
From S2P Require Import Prelude Types Store Views Dashboards.

(** [COLORS] (line 11 of both views). *)
Definition COLORS : list string := ["#3b82f6"; "#10b981"; "#f59e0b"; "#ef4444"].

Module AdminCharts.

Inductive StatValue :=
  | Gmv (m : Money)
  | Revenue (q : Q)
  | Fixed (t : string)
  | Fleet (n : option Z).

Record StatCard := mkStat { label : string; value : StatValue; change : string; icon : string }.

(** The four stat cards (lines 40-45). *)
Definition statCards (drivers : option (list DriverApp.Driver)) (s : Store.AppState)
    : list StatCard :=
  [mkStat "Total GMV" (Gmv (AdminDashboard.totalGMV s)) "+18.4%" "🚀";
   mkStat "Platform Rev" (Revenue (AdminDashboard.platformRevenue s)) "20% Fixed" "💎";
   mkStat "Township Orders" (Fixed "842") "Soweto #1" "📍";
   mkStat "Active Fleet" (Fleet (AdminDashboard.activeDrivers drivers)) "100% Active" "🚛"].

(** The two header buttons (lines 34-35); neither has a handler. *)
Definition headerButtons : list string := ["Download Report"; "Global Settings"].

(** The data of the "Weekly Revenue (ZAR)" bar chart (lines 68-76), in
    rands as written. *)
Definition weeklyRevenue : list (string * Z) :=
  [("Mon", 12000); ("Tue", 14500); ("Wed", 11000); ("Thu", 18000); ("Fri", 25000);
   ("Sat", 32000); ("Sun", 21000)].

(** [statusDistribution.map((_, index) => <Cell fill={COLORS[index %
    COLORS.length]} />)] (lines 96-98): the fill of each slice. *)
Definition pieCells (s : Store.AppState) : list (option string) :=
  imap (fun index _ => COLORS !! (index mod length COLORS)%nat) (AdminDashboard.statusDistribution s).

(** [statusDistribution.map((s, i) => ...)] (lines 109-117): the colour
    dot [COLORS[i]], the name and the value of each legend row. *)
Definition legendRows (s : Store.AppState) : list (option string * string * Z) :=
  imap (fun i '(name, value) => (COLORS !! i, name, value)) (AdminDashboard.statusDistribution s).

(** The column headers of the restaurants table (lines 131-135). *)
Definition tableHeader : list string :=
  ["Restaurant"; "Location"; "Avg Order"; "Comm Split"; "Status"].

Record Screen := mkScreen {
  heading : string * string;
  buttons : list string;
  cards : list StatCard;
  revenueChart : string * list (string * Z);
  pieTitle : string;
  cells : list (option string);
  pieTotal : Z * string;
  legend : list (option string * string * Z);
  vendorsTitle : string * Z;
  columns : list string;
  rows : list (string * string * string * Money * string * string) }.

(** The rendered view (lines 26-165): heading, buttons, cards, the weekly
    revenue chart, the status pie with its total ("Total Trips") and
    legend, and the vendors table with its "Registered" count; [None]
    when [drivers.filter] (line 18) throws before anything renders. *)
Definition screen (drivers : option (list DriverApp.Driver)) (s : Store.AppState)
    : option Screen :=
  match AdminDashboard.activeDrivers drivers with
  | None => None
  | Some _ =>
      Some (mkScreen ("Marketplace Insights", "Full overview of GMV and regional delivery performance.")
        headerButtons (statCards drivers s) ("Weekly Revenue (ZAR)", weeklyRevenue)
        "Order Logistics" (pieCells s) (AdminDashboard.distributionTotal s, "Total Trips")
        (legendRows s) ("Onboarded Vendors", AdminDashboard.registered s) tableHeader
        (AdminDashboard.restaurantRows s))
  end.

End AdminCharts.

Module OwnerCharts.

(** The period tabs (lines 42-44): each label, highlighted when it is
    "Monthly"; none has a handler. *)
Definition periodTabs : list (string * bool) :=
  map (fun t => (t, bool_decide (t = "Monthly"))) ["Daily"; "Weekly"; "Monthly"].

(** The badge colour of a KPI card (line 56): green when the trend is
    "up", blue otherwise. *)
Definition trendClass (k : PlatformOwnerDashboard.Kpi) : string :=
  if PlatformOwnerDashboard.trend k =s= "up" then "bg-green-50 text-green-600"
  else "bg-blue-50 text-blue-600".

(** The data of the "Payment Methods" pie (lines 87-91), in percent. *)
Definition paymentMix : list (string * Z) := [("Card", 55); ("Cash", 25); ("EFT/POP", 20)].

(** [COLORS.map((c, i) => <Cell key={i} fill={c} />)] (line 94). *)
Definition paymentCells : list string := COLORS.

(** The figure in the middle of the pie (lines 100-101): "75%" digital. *)
Definition digitalShare : Z := 75.

(** The legend (lines 105-117): label, [COLORS[i]] as written, percent. *)
Definition paymentLegend : list (string * option string * string) :=
  [("Card (Yoco/PayFast)", COLORS !! 0%nat, "55%");
   ("Cash on Delivery", COLORS !! 1%nat, "25%");
   ("EFT Upload", COLORS !! 2%nat, "20%")].

(** The button of the vendors table (line 125), with no handler, and the
    column headers (lines 131-135). *)
Definition onboardButton : string := "+ Onboard Restaurant".

Definition tableHeader : list string :=
  ["Restaurant Name"; "Owner"; "Zone"; "Comm %"; "Status"].

(** A KPI card (lines 50-62): icon, label, value, and the change in the
    badge coloured by the trend. *)
Definition kpiCard (k : PlatformOwnerDashboard.Kpi)
    : string * string * PlatformOwnerDashboard.KpiValue * string * string :=
  (PlatformOwnerDashboard.icon k, PlatformOwnerDashboard.label k,
   PlatformOwnerDashboard.value k, PlatformOwnerDashboard.change k, trendClass k).

Record Screen := mkScreen {
  heading : string * string;
  tabs : list (string * bool);
  cards : list (string * string * PlatformOwnerDashboard.KpiValue * string * string);
  salesChart : string * list (string * Z);
  paymentTitle : string;
  slices : list (string * Z);
  sliceCells : list string;
  centre : Z * string;
  legend : list (string * option string * string);
  vendors : string * string;
  columns : list string;
  rows : list (string * string * string * string * string) }.

(** The rendered view (lines 33-155); [None] when [drivers.length]
    (line 22) throws while the KPIs are built. *)
Definition screen (drivers : option (list DriverApp.Driver)) (s : Store.AppState)
    : option Screen :=
  match PlatformOwnerDashboard.activeDrivers drivers with
  | None => None
  | Some _ =>
      Some (mkScreen ("Platform Control", "Real-time Gross Merchandise Value (GMV) across South Africa.")
        periodTabs (map kpiCard (PlatformOwnerDashboard.kpis drivers s))
        ("Revenue by Region (ZAR)", PlatformOwnerDashboard.citySales) "Payment Methods"
        paymentMix paymentCells (digitalShare, "Digital") paymentLegend
        ("Managed Vendors", onboardButton) tableHeader (PlatformOwnerDashboard.restaurantRows s))
  end.

End OwnerCharts.

(** ** Properties *)

(** Every slice of the admin view's status pie gets a colour, and the
    legend row of the slice shows that same colour with the slice's name
    and value: the cells' [COLORS[index % COLORS.length]] and the legend's
    [COLORS[i]] agree, and neither reads past the palette, on every store. *)
Theorem admin_legend_matches_pie s i name v :
  AdminDashboard.statusDistribution s !! i = Some (name, v) ->
  exists c, AdminCharts.pieCells s !! i = Some (Some c) /\
            AdminCharts.legendRows s !! i = Some (Some c, name, v).
Proof.
  intros Hi. unfold AdminCharts.pieCells, AdminCharts.legendRows.
  rewrite !list_lookup_imap, Hi; simpl.
  pose proof (lookup_lt_Some _ _ _ Hi) as Hlt.
  destruct i as [|[|[|i]]]; simpl in *; [eauto|eauto|eauto|lia].
Qed.

(** The owner view's payment legend, written out by hand, names for each
    slice of the pie the colour recharts gives it and the slice's share;
    the shares add up to 100 and the "75%" in the middle is the share of
    the slices other than cash. *)
Lemma payment_legend_matches_pie i name v :
  OwnerCharts.paymentMix !! i = Some (name, v) ->
  exists label c, OwnerCharts.paymentLegend !! i = Some (label, Some c, pretty v +:+ "%") /\
                  OwnerCharts.paymentCells !! i = Some c.
Proof.
  intros Hi. destruct i as [|[|[|i]]]; simplify_eq/=; by do 2 eexists.
Qed.

Lemma payment_shares_total :
  sumZ snd OwnerCharts.paymentMix = 100 /\
  sumZ snd (filter (fun p => p.1 <> "Cash") OwnerCharts.paymentMix) = OwnerCharts.digitalShare.
Proof. split; reflexivity. Qed.
