(* ===== verification/System.v ===== *)
(** * System: the running application as a state machine

    One browser session holds the zustand store and the component state of
    the customer view.  An [Event] is a user interaction with what is on the
    screen: logging in or out, the customer's clicks, a restaurant button,
    a driver button.  [exec] performs the handler of an event and returns
    [None] when the event is not available on the current screen (the
    button is not rendered, or the view threw while rendering).  [reachable]
    is the set of states a session can reach from the initial store.

    The driver view reads [drivers] from the store while rendering; the
    store has no such member.  Section [WithDrivers] therefore takes the
    value read as a parameter [drivers]: the code's own value is
    [DriverApp.storeDrivers] (always [undefined]), and the theorems hold
    for every value, so that they also describe the driver view as it is
    meant to work once the store provides the list.  When the view on the
    screen throws while rendering ([crashed]: the driver's view, or the
    owner's, without a drivers list), React unmounts the page and [exec]
    offers no event at all, logout included.

    [reachable_fresh] restricts the random order ids of [PlaceOrder] to
    ids not yet used; the code draws them from 90000 values without any
    check, and the collision theorems show what happens otherwise. *)

From S2P Require Import Prelude Types Catalog Pricing Store Lifecycle Views.

Module System.

Record Sys := mkSys { store : Store.AppState; ui : CustomerApp.UI }.

Definition init : Sys := mkSys Store.initialState CustomerApp.initialUI.

Inductive Event :=
  | Login (email : string)
  | Logout
  | SelectRest (r : Restaurant.t)
  | BackToList
  | SelectItem (it : MenuItem.t)
  | CloseItem
  | SelectVar (v : MenuItemVariation.t)
  | AddToCart
  | SelectPayment (m : PaymentMethod)
  | PlaceOrder (rnd now : Z)
  | RestaurantClick (b : RestaurantAdminDashboard.Button) (o : Order.t) (now : Z)
  | DriverAcceptClick (o : Order.t) (now : Z)
  | DriverAdvanceClick (o : Order.t) (now : Z).

Definition screen (x : Sys) : App.Screen :=
  App.getDashboardByRole (Store.currentUser (store x)).

Definition is_customer (x : Sys) : bool :=
  bool_decide (screen x = App.CustomerApp).

Section WithDrivers.

Variable drivers : Store.AppState -> option (list DriverApp.Driver).

Definition driverRenders (s : Store.AppState) : bool :=
  bool_decide (DriverApp.driverData (drivers s) s <> None).

(** The view on the screen threw while rendering: [drivers.find] in
    [DriverApp] (line 9) or [drivers.length] in [PlatformOwnerDashboard]
    (line 22).  No error boundary catches it, so React unmounts the whole
    tree: the page is blank and no button, the layout's logout included,
    is left. *)
Definition crashed (x : Sys) : bool :=
  (bool_decide (screen x = App.DriverApp) && negb (driverRenders (store x))) ||
  (bool_decide (screen x = App.PlatformOwnerDashboard) && bool_decide (drivers (store x) = None)).

(** The handler of [e] on [x], or [None] when [e] is not on the screen. *)
Definition exec (x : Sys) (e : Event) : option Sys :=
  let s := store x in
  let u := ui x in
  match e with
  | Login email =>
      if bool_decide (Store.currentUser s = None)
         && bool_decide (email ∈ map User.email MOCK_USERS)
      then Some (mkSys (Store.login email s) CustomerApp.initialUI) else None
  | Logout =>
      if bool_decide (Store.currentUser s <> None) && negb (crashed x)
      then Some (mkSys (Store.logout s) CustomerApp.initialUI) else None
  | SelectRest r =>
      if is_customer x && bool_decide (CustomerApp.selectedRest u = None)
         && bool_decide (r ∈ Store.restaurants s)
      then Some (mkSys s (CustomerApp.setSelectedRest (Some r) u)) else None
  | BackToList =>
      if is_customer x && bool_decide (CustomerApp.selectedRest u <> None)
         && bool_decide (CustomerApp.selectedItem u = None)
      then Some (mkSys s (CustomerApp.setSelectedRest None u)) else None
  | SelectItem it =>
      match CustomerApp.selectedRest u with
      | Some rest =>
          if is_customer x && bool_decide (CustomerApp.selectedItem u = None)
             && bool_decide (it ∈ CustomerApp.restMenu s rest)
          then Some (mkSys s (CustomerApp.setSelectedItem (Some it) u)) else None
      | None => None
      end
  | CloseItem =>
      if is_customer x && bool_decide (CustomerApp.selectedRest u <> None)
         && bool_decide (CustomerApp.selectedItem u <> None)
      then Some (mkSys s (CustomerApp.setSelectedItem None u)) else None
  | SelectVar v =>
      match CustomerApp.selectedRest u, CustomerApp.selectedItem u with
      | Some _, Some it =>
          if is_customer x &&
             bool_decide (v ∈ default [] (MenuItem.variations it))
          then Some (mkSys s (CustomerApp.setSelectedVar (Some v) u)) else None
      | _, _ => None
      end
  | AddToCart =>
      if is_customer x && bool_decide (CustomerApp.selectedRest u <> None)
         && bool_decide (CustomerApp.selectedItem u <> None)
      then let '(u', s') := CustomerApp.handleAddToCart u s in Some (mkSys s' u')
      else None
  | SelectPayment m =>
      if is_customer x && bool_decide (CustomerApp.selectedRest u <> None)
         && bool_decide (CustomerApp.selectedItem u = None)
         && bool_decide (Store.cart s <> [])
      then Some (mkSys s (CustomerApp.setPaymentMethod m u)) else None
  | PlaceOrder rnd now =>
      if is_customer x && bool_decide (CustomerApp.selectedRest u <> None)
         && bool_decide (CustomerApp.selectedItem u = None)
         && bool_decide (Store.cart s <> []) && bool_decide (0 <= rnd < 90000)
      then let '(u', s') := CustomerApp.handlePlaceOrder u s rnd now in Some (mkSys s' u')
      else None
  | RestaurantClick b o now =>
      if bool_decide (screen x = App.RestaurantAdminDashboard)
         && bool_decide (o ∈ RestaurantAdminDashboard.buttonList b s)
      then Some (mkSys (RestaurantAdminDashboard.onClick b (Order.id o) now s) u)
      else None
  | DriverAcceptClick o now =>
      if bool_decide (screen x = App.DriverApp) && driverRenders s
         && bool_decide (o ∈ DriverApp.availableOrders s)
      then Some (mkSys (DriverApp.handleAccept (Order.id o) now s) u) else None
  | DriverAdvanceClick o now =>
      if bool_decide (screen x = App.DriverApp) && driverRenders s
         && bool_decide (o ∈ DriverApp.myActiveOrders s)
      then Some (mkSys (DriverApp.handleStatusUpdate (Order.id o) (Order.status o) now s) u)
      else None
  end.

Lemma logout_exec x :
  crashed x = false -> Store.currentUser (store x) <> None ->
  exec x Logout = Some (mkSys (Store.logout (store x)) CustomerApp.initialUI).
Proof. intros Hc Hu. cbn [exec]. by rewrite (bool_decide_eq_true_2 _ Hu), Hc. Qed.

(** The events of a whole session, run in order; [None] as soon as one is
    not available. *)
Fixpoint run (x : Sys) (es : list Event) : option Sys :=
  match es with
  | [] => Some x
  | e :: es' => match exec x e with Some x' => run x' es' | None => None end
  end.

Inductive reachable : Sys -> Prop :=
  | reach_init : reachable init
  | reach_step x e x' : reachable x -> exec x e = Some x' -> reachable x'.

(** An event that does not reuse an order id. *)
Definition fresh (x : Sys) (e : Event) : Prop :=
  match e with
  | PlaceOrder rnd _ => Forall (fun o => Order.id o <> CustomerApp.orderId rnd)
                          (Store.orders (store x))
  | _ => True
  end.

Inductive reachable_fresh : Sys -> Prop :=
  | reachf_init : reachable_fresh init
  | reachf_step x e x' :
      reachable_fresh x -> fresh x e -> exec x e = Some x' -> reachable_fresh x'.

(** ** The invariant of every reachable state *)

(** Every order records a total equal to the sum of its three amounts and
    belongs to a restaurant of the catalogue. *)
Definition order_ok (o : Order.t) : Prop :=
  Order.totalFee o = Order.foodSubtotal o + Order.deliveryFee o + Order.serviceFee o /\
  exists r, r ∈ MOCK_RESTAURANTS /\ Order.restaurantId o = Some (Restaurant.id r).

Definition ui_ok (u : CustomerApp.UI) : Prop :=
  (forall r, CustomerApp.selectedRest u = Some r -> r ∈ MOCK_RESTAURANTS) /\
  CustomerApp.selectedMods u = [].

Definition sys_ok (x : Sys) : Prop :=
  Store.restaurants (store x) = MOCK_RESTAURANTS /\
  Store.menuItems (store x) = MOCK_MENU_ITEMS /\
  (forall u, Store.currentUser (store x) = Some u -> u ∈ MOCK_USERS) /\
  ui_ok (ui x) /\ Forall order_ok (Store.orders (store x)).

Lemma order_ok_update oid st d n o :
  order_ok o -> order_ok (Store.updateOrder oid st d n o).
Proof. intros H. unfold Store.updateOrder. case_streq; exact H. Qed.

Lemma sys_ok_update oid st d n s u :
  sys_ok (mkSys s u) -> sys_ok (mkSys (Store.updateOrderStatus oid st d n s) u).
Proof.
  intros (Hr & Hm & Hu & Hui & Ho). split_and!; [done|done|done|done|].
  apply Store.Forall_updateOrderStatus; auto using order_ok_update.
Qed.

Lemma login_member email s u :
  Store.currentUser (Store.login email s) = Some u ->
  Store.currentUser s = Some u \/ u ∈ MOCK_USERS.
Proof.
  unfold Store.login. destruct (find _ _) as [v|] eqn:E; simpl; auto.
  intros [= <-]. right. apply list_elem_of_In. by apply find_some in E as [? _].
Qed.

Lemma exec_sys_ok x e x' : sys_ok x -> exec x e = Some x' -> sys_ok x'.
Proof.
  intros Hok Hx. destruct x as [s u].
  destruct e; simpl in Hx; repeat (case_match; try discriminate); simplify_eq/=;
    try solve [by apply sys_ok_update].
  all: destruct Hok as (Hr & Hm & Hu & [Hsr Hsm] & Ho); bool_hyps; simpl in *.
  - unfold Store.login. destruct (find _ _) as [v|] eqn:E; [|by split_and!].
    split_and!; try done. simpl. intros ? [= <-].
    apply list_elem_of_In. by apply find_some in E as [? _].
  - split_and!; done.
  - split_and!; try done. split; [|done]. intros r' [= <-]. by rewrite <- Hr.
  - split_and!; done.
  - split_and!; done.
  - split_and!; done.
  - split_and!; done.
  - unfold CustomerApp.handleAddToCart in *. case_match; simplify_eq/=.
    split_and!; done.
  - split_and!; done.
  - unfold CustomerApp.handlePlaceOrder in *. case_match; simplify_eq/=.
    split_and!; try done. constructor; [|done].
    destruct (CustomerApp.selectedRest u) as [r|] eqn:Er; [|done].
    split; [reflexivity|].
    exists r; split; [by apply Hsr|]. unfold CustomerApp.newOrder; simpl. by rewrite Er.
Qed.

Lemma reachable_sys_ok x : reachable x -> sys_ok x.
Proof.
  induction 1 as [|x e x' _ IH Hx].
  - split_and!; try done; intros ? [=].
  - by eapply exec_sys_ok.
Qed.

Lemma reachable_fresh_reachable x : reachable_fresh x -> reachable x.
Proof. induction 1; econstructor; eauto. Qed.

(** ** The invariant of states reached with fresh order ids *)

(** The statuses in which a driver is responsible for the order. *)
Definition driver_phase (st : OrderStatus) : bool :=
  match st with ACCEPTED | PICKED_UP | IN_TRANSIT | DELIVERED => true | _ => false end.

(** An order has a driver exactly in the driver's phase, and that driver
    is a driver of the catalogue. *)
Definition driver_ok (o : Order.t) : Prop :=
  match Order.driverId o with
  | None => driver_phase (Order.status o) = false
  | Some d => driver_phase (Order.status o) = true /\
              exists u, u ∈ MOCK_USERS /\ User.id u = d /\ User.role u = DRIVER
  end.

Definition fsys_ok (x : Sys) : Prop :=
  sys_ok x /\ NoDup (map Order.id (Store.orders (store x))) /\
  Forall driver_ok (Store.orders (store x)).

Lemma screen_user x sc :
  screen x = sc -> sc <> App.NavigateToLogin ->
  exists u, Store.currentUser (store x) = Some u /\
            App.getDashboardByRole (Some u) = sc.
Proof.
  unfold screen, App.getDashboardByRole. intros <- Hsc.
  destruct (Store.currentUser (store x)) as [u|]; simpl in *; [by eexists|done].
Qed.

Lemma dashboard_role u sc :
  App.getDashboardByRole (Some u) = sc ->
  User.role u = match sc with
                | App.PlatformOwnerDashboard => OWNER
                | App.RestaurantAdminDashboard => RESTAURANT_ADMIN
                | App.CustomerApp => CUSTOMER
                | App.DriverApp => DRIVER
                | App.NavigateToLogin => User.role u
                end.
Proof. unfold App.getDashboardByRole; simpl. destruct (User.role u); intros <-; done. Qed.

Lemma MOCK_USERS_id_nonempty u : u ∈ MOCK_USERS -> User.id u <> "".
Proof.
  intros Hu. pose proof MOCK_USERS_ids as H. unfold users_have_ids in H.
  rewrite forallb_forall in H. apply list_elem_of_In, H in Hu.
  apply negb_true_iff in Hu. intros E. rewrite E in Hu. done.
Qed.

Lemma newDriverId_some d old : d <> "" -> Store.newDriverId (Some d) old = Some d.
Proof. intros Hd. unfold Store.newDriverId. by case_streq. Qed.

(** Updating the one order [o] of a list with unique ids: a property of
    the list holds after the update when the updated [o] has it. *)
Lemma Forall_update_unique (P : Order.t -> Prop) s o st d now :
  NoDup (map Order.id (Store.orders s)) -> o ∈ Store.orders s ->
  Forall P (Store.orders s) ->
  P (Store.updateOrder (Order.id o) st d now o) ->
  Forall P (Store.orders (Store.updateOrderStatus (Order.id o) st d now s)).
Proof.
  intros Hnd Ho Hall Hp. apply Store.Forall_updateOrderStatus; [done|].
  intros o' Ho' _ Hid. by rewrite (NoDup_map_key_eq Order.id _ o' o Hnd Ho' Ho Hid).
Qed.

Lemma buttonList_member b s o :
  o ∈ RestaurantAdminDashboard.buttonList b s ->
  o ∈ Store.orders s /\
  Order.restaurantId o = RestaurantAdminDashboard.myRest s ?. Restaurant.id /\
  driver_phase (Order.status o) = false /\ is_terminal (Order.status o) = false /\
  (b = RestaurantAdminDashboard.Decline \/ b = RestaurantAdminDashboard.Accept ->
     Order.status o = PENDING) /\
  (b = RestaurantAdminDashboard.Prep \/ b = RestaurantAdminDashboard.Ready ->
     Order.status o ∈ [RESTAURANT_ACCEPTED; PREPARING; READY_FOR_PICKUP]).
Proof.
  destruct b; simpl; unfold RestaurantAdminDashboard.pending, RestaurantAdminDashboard.active,
    RestaurantAdminDashboard.myOrders;
    rewrite !list_elem_of_filter; intros (Hst & Hr & Ho); split_and!; try done;
    try (intros [?|?]; done);
    [rewrite Hst; done|rewrite Hst; done|rewrite Hst; done|rewrite Hst; done|..];
    repeat (apply elem_of_cons in Hst as [->|Hst]; [done|]); by apply elem_of_nil in Hst.
Qed.

Lemma available_member s o :
  o ∈ DriverApp.availableOrders s ->
  o ∈ Store.orders s /\
  (Order.status o = READY_FOR_PICKUP \/
   Order.status o = PENDING /\ js_falsy_str (Order.restaurantId o) = true).
Proof. unfold DriverApp.availableOrders. rewrite list_elem_of_filter. tauto. Qed.

Lemma myActive_member s o :
  o ∈ DriverApp.myActiveOrders s ->
  o ∈ Store.orders s /\ Order.driverId o = Store.currentUser s ?. User.id /\
  Order.status o <> DELIVERED.
Proof. unfold DriverApp.myActiveOrders. rewrite list_elem_of_filter. tauto. Qed.

Lemma driver_ok_none o : driver_ok o -> driver_phase (Order.status o) = false ->
  Order.driverId o = None.
Proof. unfold driver_ok. destruct (Order.driverId o); [intros [-> _]|]; done. Qed.

Lemma exec_fsys_ok x e x' : fsys_ok x -> fresh x e -> exec x e = Some x' -> fsys_ok x'.
Proof.
  intros (Hok & Hnd & Hdrv) Hfr Hx. split; [by eapply exec_sys_ok|].
  destruct x as [s u]. destruct Hok as (Hr & Hm & Hu & _ & Ho).
  destruct e; simpl in Hx; repeat (case_match; try discriminate); simplify_eq/=; bool_hyps.
  all: simpl in *; try by split.
  - (* Login *) unfold Store.login. by case_match.
  - (* AddToCart *) unfold CustomerApp.handleAddToCart in *. case_match; by simplify_eq/=.
  - (* PlaceOrder *)
    unfold CustomerApp.handlePlaceOrder in *. case_match; simplify_eq/=.
    split; [apply NoDup_cons_2; [|done]|constructor; [done|done]].
    intros (o & Hid & Ho')%list_elem_of_fmap. by apply (Forall_elem _ _ _ Hfr Ho').
  - (* RestaurantClick *)
    match goal with H : _ ∈ RestaurantAdminDashboard.buttonList _ _ |- _ =>
      destruct (buttonList_member _ _ _ H) as (Hin & _ & Hph & _) end.
    rewrite Store.map_id_updateOrder.
    split; [done|]. apply Forall_update_unique; [done..|].
    unfold driver_ok. rewrite Store.updateOrder_self; simpl.
    rewrite (driver_ok_none o (Forall_elem _ _ _ Hdrv Hin) Hph). by destruct b.
  - (* DriverAcceptClick *)
    match goal with H : _ ∈ DriverApp.availableOrders _ |- _ =>
      destruct (available_member _ _ H) as (Hin & Hst) end.
    match goal with H : screen _ = App.DriverApp |- _ =>
      destruct (screen_user _ _ H) as (v & Hv & Hrole); [done|] end.
    simpl in Hv.
    apply dashboard_role in Hrole. specialize (Hu v Hv).
    rewrite Store.map_id_updateOrder.
    split; [done|]. apply Forall_update_unique; [done..|].
    unfold driver_ok. rewrite Store.updateOrder_self; simpl. rewrite Hv. simpl.
    rewrite (driver_ok_none o (Forall_elem _ _ _ Hdrv Hin))
      by (by destruct Hst as [->|[-> _]]).
    destruct (String.eqb_spec (User.id v) "") as [E|_];
      [by apply MOCK_USERS_id_nonempty in Hu|].
    split; [done|]. by exists v.
  - (* DriverAdvanceClick *)
    match goal with H : _ ∈ DriverApp.myActiveOrders _ |- _ =>
      destruct (myActive_member _ _ H) as (Hin & Hd & Hst) end.
    rewrite Store.map_id_updateOrder.
    split; [done|]. apply Forall_update_unique; [done..|].
    pose proof (Forall_elem _ _ _ Hdrv Hin) as Hok. unfold driver_ok in *.
    rewrite Store.updateOrder_self; simpl.
    destruct (Order.driverId o); [destruct Hok as [Hph Hdu]; split; [|done]|];
      by destruct (Order.status o).
Qed.

Lemma reachable_fresh_fsys_ok x : reachable_fresh x -> fsys_ok x.
Proof.
  intros H. induction H as [|y e y' _ IH Hfr Hx].
  - split; [apply reachable_sys_ok, reach_init|split; constructor].
  - by eapply exec_fsys_ok.
Qed.

(** ** Refinement of the specification's transition contract *)

(** The owner of a restaurant, looked up in the store. *)
Definition owner_of (s : Store.AppState) (rid : string) : option string :=
  option_map Restaurant.ownerId
    (find (fun r => Restaurant.id r =s= rid) (Store.restaurants s)).

Definition actor_of (u : User.t) : Lifecycle.Actor :=
  Lifecycle.mkActor (User.id u) (User.role u).

(** The order a button acts on, the status it requests, and the time. *)
Definition request (e : Event) : option (Order.t * OrderStatus * Z) :=
  match e with
  | RestaurantClick b o now => Some (o, RestaurantAdminDashboard.buttonStatus b, now)
  | DriverAcceptClick o now => Some (o, ACCEPTED, now)
  | DriverAdvanceClick o now => Some (o, DriverApp.nextStatus (Order.status o), now)
  | _ => None
  end.

(** The requests the restaurant buttons can make that the table has no
    edge for. *)
Definition off_table : list (OrderStatus * OrderStatus) :=
  [(RESTAURANT_ACCEPTED, READY_FOR_PICKUP); (READY_FOR_PICKUP, PREPARING);
   (PREPARING, PREPARING); (READY_FOR_PICKUP, READY_FOR_PICKUP)].

Lemma refine_left s o to d now u own :
  NoDup (map Order.id (Store.orders s)) -> o ∈ Store.orders s ->
  Lifecycle.edge (Order.status o) to = true ->
  Lifecycle.authorized own (actor_of u) o to = true ->
  (forall old, Store.newDriverId d old =
     if bool_decide (to = ACCEPTED) then Some (User.id u) else old) ->
  Lifecycle.applyTransition own (Store.orders s) (Order.id o) to (actor_of u) now
  = inl (Store.orders (Store.updateOrderStatus (Order.id o) to d now s)).
Proof.
  intros Hnd Ho He Ha Hd. unfold Lifecycle.applyTransition.
  rewrite (find_key_unique Order.id) by done. rewrite He, Ha; simpl.
  f_equal. apply map_ext. intros o'.
  unfold Store.updateOrder, Lifecycle.transitioned. destruct (Order.id o' =s= Order.id o); [rewrite Hd; reflexivity|reflexivity].
Qed.

(** The restaurant admin on the dashboard owns every order of
    [myOrders]. *)
Lemma restaurant_owns x o u :
  sys_ok x -> o ∈ Store.orders (store x) ->
  Order.restaurantId o = RestaurantAdminDashboard.myRest (store x) ?. Restaurant.id ->
  Store.currentUser (store x) = Some u ->
  Lifecycle.owns (owner_of (store x)) (actor_of u) o = true.
Proof.
  intros (Hr & _ & _ & _ & Ho) Hin Hrid Hu.
  destruct (Forall_elem _ _ _ Ho Hin) as [_ (r & Hrm & Hor)].
  unfold RestaurantAdminDashboard.myRest in Hrid. rewrite Hu, Hr in Hrid.
  destruct (find _ MOCK_RESTAURANTS) as [m|] eqn:Em; simpl in Hrid; [|congruence].
  apply find_some in Em as [Hm Hown]. apply bool_decide_eq_true in Hown.
  apply list_elem_of_In in Hm.
  unfold Lifecycle.owns, owner_of. rewrite Hrid, Hr.
  rewrite (proj1 (MOCK_RESTAURANTS_find m Hm)); simpl.
  by apply bool_decide_eq_true.
Qed.

Ltac off_table_case Hst := right; rewrite Hst; apply (bool_decide_unpack _); reflexivity.

Lemma restaurant_click_refines x b o now u :
  fsys_ok x ->
  screen x = App.RestaurantAdminDashboard ->
  o ∈ RestaurantAdminDashboard.buttonList b (store x) ->
  Store.currentUser (store x) = Some u ->
  let to := RestaurantAdminDashboard.buttonStatus b in
  (Lifecycle.edge (Order.status o) to = true /\
   Lifecycle.applyTransition (owner_of (store x)) (Store.orders (store x)) (Order.id o)
     to (actor_of u) now
   = inl (Store.orders (RestaurantAdminDashboard.onClick b (Order.id o) now (store x))))
  \/ (Order.status o, to) ∈ off_table.
Proof.
  intros (Hok & Hnd & _) Hsc Hb Hu to.
  destruct (buttonList_member _ _ _ Hb) as (Hin & Hrid & _ & _ & Hpend & Hact).
  pose proof (restaurant_owns _ _ _ Hok Hin Hrid Hu) as Hown.
  destruct (screen_user _ _ Hsc) as (v & Hv & Hrole); [done|].
  rewrite Hu in Hv; injection Hv as <-. apply dashboard_role in Hrole.
  assert (Hleft : Lifecycle.edge (Order.status o) to = true ->
                  Lifecycle.authorized (owner_of (store x)) (actor_of u) o to = true ->
                  Lifecycle.edge (Order.status o) to = true /\
                  Lifecycle.applyTransition (owner_of (store x)) (Store.orders (store x))
                    (Order.id o) to (actor_of u) now
                  = inl (Store.orders (RestaurantAdminDashboard.onClick b (Order.id o) now (store x)))).
  { intros He Ha. split; [done|]. apply refine_left; [done..|].
    intros old. by destruct b. }
  unfold Lifecycle.authorized in Hleft. simpl in Hleft. rewrite Hrole in Hleft.
  subst to. destruct b.
  - left. rewrite Hpend in Hleft |- * by auto. by apply Hleft.
  - left. rewrite Hpend in Hleft |- * by auto. by apply Hleft.
  - assert (Hst : Order.status o ∈ [RESTAURANT_ACCEPTED; PREPARING; READY_FOR_PICKUP]) by auto.
    repeat (apply elem_of_cons in Hst as [Hst|Hst];
      [first [left; rewrite Hst in Hleft |- *; by apply Hleft | off_table_case Hst]|]).
    by apply elem_of_nil in Hst.
  - assert (Hst : Order.status o ∈ [RESTAURANT_ACCEPTED; PREPARING; READY_FOR_PICKUP]) by auto.
    repeat (apply elem_of_cons in Hst as [Hst|Hst];
      [first [left; rewrite Hst in Hleft |- *; by apply Hleft | off_table_case Hst]|]).
    by apply elem_of_nil in Hst.
Qed.

Lemma driver_accept_refines x o now u :
  fsys_ok x -> screen x = App.DriverApp ->
  o ∈ DriverApp.availableOrders (store x) ->
  Store.currentUser (store x) = Some u ->
  Lifecycle.edge (Order.status o) ACCEPTED = true /\
  Lifecycle.applyTransition (owner_of (store x)) (Store.orders (store x)) (Order.id o)
    ACCEPTED (actor_of u) now
  = inl (Store.orders (DriverApp.handleAccept (Order.id o) now (store x))).
Proof.
  intros ((_ & _ & Hus & _ & Ho) & Hnd & Hdrv) Hsc Hav Hu.
  destruct (available_member _ _ Hav) as (Hin & Hst).
  destruct (Forall_elem _ _ _ Ho Hin) as [_ (r & Hrm & Hor)].
  assert (Hready : Order.status o = READY_FOR_PICKUP).
  { destruct Hst as [?|[_ Hf]]; [done|]. rewrite Hor in Hf; simpl in Hf.
    apply String.eqb_eq in Hf. by apply MOCK_RESTAURANTS_find in Hrm as [_ ?]. }
  destruct (screen_user _ _ Hsc) as (v & Hv & Hrole); [done|].
  rewrite Hu in Hv; injection Hv as <-. apply dashboard_role in Hrole.
  assert (Hnone : Order.driverId o = None).
  { apply driver_ok_none; [by apply (Forall_elem _ _ _ Hdrv Hin)|by rewrite Hready]. }
  rewrite Hready. split; [done|].
  unfold DriverApp.handleAccept. rewrite Hu. apply refine_left; [done|done|by rewrite Hready|..].
  - unfold Lifecycle.authorized; simpl. rewrite Hready, Hrole; simpl. by rewrite Hnone.
  - intros old. apply newDriverId_some, MOCK_USERS_id_nonempty. by apply Hus.
Qed.

Lemma driver_advance_refines x o now u :
  fsys_ok x -> screen x = App.DriverApp ->
  o ∈ DriverApp.myActiveOrders (store x) ->
  Store.currentUser (store x) = Some u ->
  let to := DriverApp.nextStatus (Order.status o) in
  Lifecycle.edge (Order.status o) to = true /\
  Lifecycle.applyTransition (owner_of (store x)) (Store.orders (store x)) (Order.id o)
    to (actor_of u) now
  = inl (Store.orders (DriverApp.handleStatusUpdate (Order.id o) (Order.status o) now (store x))).
Proof.
  intros (_ & Hnd & Hdrv) Hsc Hact Hu to.
  destruct (myActive_member _ _ Hact) as (Hin & Hd & Hst).
  destruct (screen_user _ _ Hsc) as (v & Hv & Hrole); [done|].
  rewrite Hu in Hv; injection Hv as <-. apply dashboard_role in Hrole.
  pose proof (Forall_elem _ _ _ Hdrv Hin) as Hok. unfold driver_ok in Hok.
  rewrite Hd, Hu in Hok; simpl in Hok. destruct Hok as [Hph _].
  assert (Hedge : Lifecycle.edge (Order.status o) to = true)
    by (subst to; by destruct (Order.status o)).
  split; [done|]. apply refine_left; [done..| |].
  - unfold Lifecycle.authorized, Lifecycle.assigned; simpl. rewrite Hrole, Hd, Hu.
    subst to; simpl. by destruct (Order.status o); rewrite ?bool_decide_true.
  - intros old. subst to. by destruct (Order.status o).
Qed.

(** ** How a step changes the order list *)

(** A click rewrites the clicked order's id through [updateOrderStatus]. *)
Lemma exec_click_shape x e x' o to now :
  exec x e = Some x' -> request e = Some (o, to, now) ->
  exists d, store x' = Store.updateOrderStatus (Order.id o) to d now (store x) /\
            ui x' = ui x.
Proof.
  intros Hx Hr. destruct x as [s u].
  destruct e; simpl in *; simplify_eq; repeat (case_match; try discriminate); simplify_eq/=;
    eexists; split; reflexivity.
Qed.

(** Any other event at most puts one new order in front. *)
Lemma exec_other_orders x e x' :
  exec x e = Some x' -> request e = None ->
  Store.orders (store x') = Store.orders (store x) \/
  exists rnd now, e = PlaceOrder rnd now /\
    Store.orders (store x') =
      CustomerApp.newOrder (ui x) (store x) rnd now :: Store.orders (store x).
Proof.
  intros Hx Hr. destruct x as [s u].
  destruct e; simpl in *; try discriminate; repeat (case_match; try discriminate);
    simplify_eq/=; try by left.
  - left. unfold Store.login. by case_match.
  - left. unfold CustomerApp.handleAddToCart in *. case_match; by simplify_eq/=.
  - right. unfold CustomerApp.handlePlaceOrder in *. case_match; simplify_eq/=.
    all: try (bool_hyps; discriminate). all: eauto.
Qed.

(** The clicked order is in the store and not terminal. *)
Lemma clicked_order x e x' o to now :
  fsys_ok x -> exec x e = Some x' -> request e = Some (o, to, now) ->
  o ∈ Store.orders (store x) /\ is_terminal (Order.status o) = false.
Proof.
  intros (_ & _ & Hdrv) Hx Hr. destruct x as [s u].
  destruct e; simpl in *; simplify_eq; repeat (case_match; try discriminate);
    simplify_eq/=; bool_hyps.
  - match goal with H : _ ∈ RestaurantAdminDashboard.buttonList _ _ |- _ =>
      destruct (buttonList_member _ _ _ H) as (? & _ & _ & ? & _) end. done.
  - match goal with H : _ ∈ DriverApp.availableOrders _ |- _ =>
      destruct (available_member _ _ H) as (? & [->|[-> _]]) end; done.
  - match goal with H : _ ∈ DriverApp.myActiveOrders _ |- _ =>
      destruct (myActive_member _ _ H) as (Hin & Hd & Hst) end.
    split; [done|]. pose proof (Forall_elem _ _ _ Hdrv Hin) as Hok.
    unfold driver_ok in Hok.
    match goal with H : screen _ = App.DriverApp |- _ =>
      destruct (screen_user _ _ H) as (v & Hv & _); [done|] end.
    simpl in Hv. rewrite Hd, Hv in Hok. destruct Hok as [Hph _].
    by destruct (Order.status o).
Qed.

(** A click changes no order but the clicked one. *)
Lemma click_keeps_other x e x' o' to now o :
  fsys_ok x -> exec x e = Some x' -> request e = Some (o', to, now) ->
  o ∈ Store.orders (store x) -> o <> o' -> o ∈ Store.orders (store x').
Proof.
  intros Hok Hx Hreq Ho Hne.
  destruct (clicked_order _ _ _ _ _ _ Hok Hx Hreq) as [Hin' _].
  destruct (exec_click_shape _ _ _ _ _ _ Hx Hreq) as (d & -> & _).
  rewrite <- (Store.updateOrder_unique_other (Store.orders (store x)) o' o to d now);
    [|by destruct Hok as (_ & ? & _)|done|done|done].
  by apply (list_elem_of_fmap_2 (Store.updateOrder (Order.id o') to d now)).
Qed.

(** ** Running sessions *)

(** Freshness of an event, as a test. *)
Definition freshb (x : Sys) (e : Event) : bool :=
  match e with
  | PlaceOrder rnd _ =>
      forallb (fun o => negb (Order.id o =s= CustomerApp.orderId rnd)) (Store.orders (store x))
  | _ => true
  end.

(** [run] that also refuses an event reusing an order id. *)
Fixpoint runf (x : Sys) (es : list Event) : option Sys :=
  match es with
  | [] => Some x
  | e :: es' =>
      if freshb x e then match exec x e with Some x' => runf x' es' | None => None end
      else None
  end.

Lemma freshb_fresh x e : freshb x e = true -> fresh x e.
Proof.
  destruct e; simpl; try done. intros H. apply Forall_forall. intros o Ho.
  rewrite forallb_forall in H. specialize (H o Ho).
  apply negb_true_iff, String.eqb_neq in H. done.
Qed.

Lemma run_reachable x es y : reachable x -> run x es = Some y -> reachable y.
Proof.
  revert x; induction es as [|e es IH]; simpl; intros x Hx Hr; [congruence|].
  destruct (exec x e) eqn:E; [|done]. eapply IH; [|done]. econstructor; eauto.
Qed.

Lemma runf_reachable_fresh x es y : reachable_fresh x -> runf x es = Some y -> reachable_fresh y.
Proof.
  revert x; induction es as [|e es IH]; simpl; intros x Hx Hr; [congruence|].
  destruct (freshb x e) eqn:F; [|done]. destruct (exec x e) eqn:E; [|done].
  eapply IH; [|done]. econstructor; eauto using freshb_fresh.
Qed.

(** ** Properties *)

(** C2: In every reachable state, every order's total is the sum of its food
    subtotal, delivery fee and service fee. *)
Theorem reachable_order_totals x o :
  reachable x -> o ∈ Store.orders (store x) ->
  Order.totalFee o = Order.foodSubtotal o + Order.deliveryFee o + Order.serviceFee o.
Proof.
  intros Hr Ho. destruct (reachable_sys_ok _ Hr) as (_ & _ & _ & _ & Hall).
  by destruct (Forall_elem _ _ _ Hall Ho).
Qed.

(** C3: With fresh order ids, ids stay unique and an order has a driver exactly
    when it is in the driver's phase, that driver being a catalogue driver. *)
Theorem fresh_orders_consistent x :
  reachable_fresh x ->
  NoDup (map Order.id (Store.orders (store x))) /\ Forall driver_ok (Store.orders (store x)).
Proof. intros Hr. by destruct (reachable_fresh_fsys_ok _ Hr) as (_ & ? & ?). Qed.

(** C4: With fresh order ids, a delivered or cancelled order is never changed
    again by any step. *)
Theorem terminal_orders_stable x e x' o :
  reachable_fresh x -> fresh x e -> exec x e = Some x' ->
  o ∈ Store.orders (store x) -> is_terminal (Order.status o) = true ->
  o ∈ Store.orders (store x').
Proof.
  intros Hr Hfr Hx Ho Ht. pose proof (reachable_fresh_fsys_ok _ Hr) as Hok.
  destruct (request e) as [[[o' to] now]|] eqn:Hreq.
  - destruct (clicked_order _ _ _ _ _ _ Hok Hx Hreq) as [_ Hnt].
    apply (click_keeps_other _ _ _ _ _ _ _ Hok Hx Hreq Ho). intros ->; congruence.
  - destruct (exec_other_orders _ _ _ Hx Hreq) as [->|(rnd & n & _ & ->)]; [done|].
    by apply elem_of_cons; right.
Qed.

(** C1: Refinement: with fresh order ids, every status change a restaurant or
    driver button makes is, when the specification's table has the edge,
    exactly the result of the specification's [applyTransition] for the
    current user (authorized, same new order list); the only requests the
    table lacks are the four of [off_table]. *)
Theorem click_refines_spec x e x' o to now u :
  reachable_fresh x -> exec x e = Some x' -> request e = Some (o, to, now) ->
  Store.currentUser (store x) = Some u ->
  (Lifecycle.edge (Order.status o) to = true /\
   Lifecycle.applyTransition (owner_of (store x)) (Store.orders (store x))
     (Order.id o) to (actor_of u) now = inl (Store.orders (store x')))
  \/ (Order.status o, to) ∈ off_table.
Proof.
  intros Hr Hx Hreq Hu. pose proof (reachable_fresh_fsys_ok _ Hr) as Hok.
  destruct x as [s u0].
  destruct e; simpl in Hreq; simplify_eq; simpl in Hx;
    repeat (case_match; try discriminate); simplify_eq/=; bool_hyps.
  - exact (restaurant_click_refines (mkSys s u0) _ o now u Hok ltac:(done) ltac:(done) Hu).
  - left. exact (driver_accept_refines (mkSys s u0) o now u Hok ltac:(done) ltac:(done) Hu).
  - left. exact (driver_advance_refines (mkSys s u0) o now u Hok ltac:(done) ltac:(done) Hu).
Qed.

(** C6: A customer can change no existing order: on the customer's screen a
    step keeps the order list or puts one new [PENDING] order in front. *)
Theorem customer_cannot_change_orders x e x' :
  screen x = App.CustomerApp -> exec x e = Some x' ->
  Store.orders (store x') = Store.orders (store x) \/
  exists o, Store.orders (store x') = o :: Store.orders (store x) /\
            Order.status o = PENDING.
Proof.
  intros Hsc Hx. destruct (request e) as [[[o to] now]|] eqn:Hreq.
  - exfalso. destruct e; simpl in Hreq; try discriminate; simpl in Hx;
      rewrite Hsc in Hx; discriminate.
  - destruct (exec_other_orders _ _ _ Hx Hreq) as [?|(rnd & n & _ & ?)]; [by left|].
    right. by eexists.
Qed.

(** C5: Checkout: placing an order empties the cart and puts in front one
    [PENDING] order whose amounts are the cart's subtotal and the two flat
    fees, all in the same step; it is offered only with a non-empty cart. *)
Theorem checkout_atomic x rnd now x' :
  exec x (PlaceOrder rnd now) = Some x' ->
  let o := CustomerApp.newOrder (ui x) (store x) rnd now in
  Store.cart (store x) <> [] /\ Store.cart (store x') = [] /\
  Store.orders (store x') = o :: Store.orders (store x) /\
  Order.status o = PENDING /\
  Order.foodSubtotal o = sumZ CartItem.totalPrice (Store.cart (store x)) /\
  Order.totalFee o = Order.foodSubtotal o + 2500 + 500.
Proof.
  intros Hx o. destruct x as [s u]; simpl in Hx.
  repeat (case_match; try discriminate); simplify_eq/=; bool_hyps.
  unfold CustomerApp.handlePlaceOrder in *. case_match; [done|]. simplify_eq/=.
  subst o. unfold CustomerApp.newOrder; simpl.
  split_and!; try done; by rewrite Pricing.foodSubtotal_sum.
Qed.

(** C24: Scenario D: with an empty cart the checkout is not offered, and its
    handler leaves the store and the view unchanged (no order is created;
    the code signals no [EmptyCartError]). *)
Theorem place_order_empty_cart x rnd now :
  Store.cart (store x) = [] ->
  exec x (PlaceOrder rnd now) = None /\
  CustomerApp.handlePlaceOrder (ui x) (store x) rnd now = (ui x, store x).
Proof.
  intros Hc. unfold exec, CustomerApp.handlePlaceOrder. rewrite Hc.
  split; [|done].
  rewrite (bool_decide_eq_false_2 ([] <> [])); [|by intros H; apply H].
  by rewrite andb_false_r.
Qed.

(** C9: Tenant isolation: in every reachable state, every ticket the
    restaurant dashboard shows to the logged-in admin (on any of its four
    buttons) is an order of a restaurant that admin owns. *)
Theorem admin_sees_own_orders x b o u :
  reachable x -> screen x = App.RestaurantAdminDashboard -> Store.currentUser (store x) = Some u ->
  o ∈ RestaurantAdminDashboard.buttonList b (store x) ->
  exists r, r ∈ Store.restaurants (store x) /\ Restaurant.ownerId r = User.id u /\
            Order.restaurantId o = Some (Restaurant.id r).
Proof.
  intros Hr _ Hu Ho. destruct (reachable_sys_ok x Hr) as (_ & _ & _ & _ & Hall).
  destruct (buttonList_member _ _ _ Ho) as (Hin & Hrid & _).
  destruct (Forall_elem _ _ _ Hall Hin) as [_ (r0 & _ & Hr0)].
  unfold RestaurantAdminDashboard.myRest in Hrid. rewrite Hu in Hrid.
  destruct (find _ (Store.restaurants (store x))) as [r|] eqn:E; simpl in Hrid; [|congruence].
  apply find_some in E as [Hm Hown]. apply bool_decide_eq_true in Hown.
  exists r. simpl in Hown. split_and!; [by apply list_elem_of_In|congruence|done].
Qed.

End WithDrivers.

(** The case analysis of a step that is not a click: one goal per handler,
    with the handler's guards as hypotheses and its store and view
    computed. *)
Ltac exec_other_cases e Hreq Hx :=
  destruct e; simpl in Hreq; try discriminate; simpl in Hx;
  repeat (case_match; try discriminate); simplify_eq/=; bool_hyps;
  try (unfold Store.login; case_match);
  try (unfold CustomerApp.handleAddToCart in *; case_match; simplify_eq/=);
  try (unfold CustomerApp.handlePlaceOrder in *; case_match; simplify_eq/=).


(** The shipped driver view never renders: [drivers] is [undefined]. *)
Lemma shipped_driver_never_renders s : driverRenders DriverApp.storeDrivers s = false.
Proof. apply bool_decide_eq_false_2. intros H. by apply H. Qed.

(** C7: The shipped driver view throws while rendering, so no driver button is
    ever available: in every reachable state of the shipped code, no order
    has reached [ACCEPTED], [PICKED_UP], [IN_TRANSIT] or [DELIVERED]. *)
Theorem shipped_orders_never_reach_driver x :
  reachable DriverApp.storeDrivers x ->
  Forall (fun o => driver_phase (Order.status o) = false) (Store.orders (store x)).
Proof.
  induction 1 as [|x e x' _ IH Hx]; [constructor|].
  destruct (request e) as [[[o to] now]|] eqn:Hreq.
  - assert (Hto : driver_phase to = false).
    { destruct e; simpl in Hreq; try discriminate; injection Hreq as <- <- <-;
        [by destruct b|..]; simpl in Hx;
        by rewrite shipped_driver_never_renders, andb_false_r in Hx. }
    destruct (exec_click_shape _ _ _ _ _ _ _ Hx Hreq) as (d & -> & _).
    apply Store.Forall_updateOrderStatus; [done|]. intros o' _ _ Hid.
    unfold Store.updateOrder. by rewrite Hid, String.eqb_refl.
  - destruct (exec_other_orders _ _ _ _ Hx Hreq) as [->|(rnd & n & _ & ->)]; [done|].
    by constructor.
Qed.

(** The item open in the customer's dialog is an item of the catalogue. *)
Definition item_ok (u : CustomerApp.UI) : Prop :=
  forall it, CustomerApp.selectedItem u = Some it -> it ∈ MOCK_MENU_ITEMS.

Lemma exec_item_ok drivers x e x' :
  sys_ok x -> item_ok (ui x) -> exec drivers x e = Some x' -> item_ok (ui x').
Proof.
  intros Hok Hi Hx.
  destruct (request e) as [[[o to] now]|] eqn:Hreq.
  - by destruct (exec_click_shape drivers _ _ _ _ _ _ Hx Hreq) as (d & _ & ->).
  - destruct x as [s u]; destruct Hok as (_ & Hmenu & _); simpl in *.
    exec_other_cases e Hreq Hx; unfold item_ok; simpl; try done; try (by intros ? [=]).
    intros ? [= <-]. rewrite <- Hmenu.
    match goal with H : _ ∈ CustomerApp.restMenu _ _ |- _ =>
      unfold CustomerApp.restMenu in H; by apply list_elem_of_filter in H as [_ ?] end.
Qed.

End System.
