(* ===== verification/Amounts.v ===== *)
(** * Amounts: every amount of a session is a whole number of rands

    The code keeps money in binary floating point.  Every price of the
    catalogue and both fees are whole rands, the view offers no modifier
    and a quantity of one only, so every cart line, order amount and
    dashboard total of a reachable state is a whole, non-negative number
    of rands: doubles add such numbers exactly (below 2^53), which is why
    [Z] cents model the code's arithmetic faithfully on every reachable
    state.  [money_ok] is that invariant; [exec_money_ok] shows that every
    step keeps it. *)

From S2P Require Import Prelude Types Catalog Pricing Store Views Dashboards System.

Import System.

(** A whole, non-negative number of rands, in cents. *)
Definition whole (m : Money) : Prop := exists k, m = 100 * k /\ 0 <= k.

Definition wholeb (m : Money) : bool := (m mod 100 =? 0) && (0 <=? m).

Lemma wholeb_whole m : wholeb m = true -> whole m.
Proof.
  unfold wholeb. intros H. bool_hyps.
  apply Z.eqb_eq in H. apply Z.leb_le in H0.
  exists (m / 100). pose proof (Z.div_mod m 100). split; [lia|].
  apply Z.div_pos; lia.
Qed.

Lemma whole_add a b : whole a -> whole b -> whole (a + b).
Proof. intros [k [-> ?]] [l [-> ?]]. exists (k + l). lia. Qed.

Lemma whole_sumZ {A} (f : A -> Money) l : Forall (fun x => whole (f x)) l -> whole (sumZ f l).
Proof.
  induction 1 as [|x l Hx _ IH]; simpl; [by exists 0|]. by apply whole_add.
Qed.

#[export] Hint Resolve whole_add whole_sumZ : wd.

(** The catalogue's prices, checked by evaluation. *)
Definition menu_wholeb (it : MenuItem.t) : bool :=
  wholeb (MenuItem.basePrice it) &&
  forallb (fun v => wholeb (MenuItemVariation.price v)) (default [] (MenuItem.variations it)).

Lemma MOCK_MENU_ITEMS_whole it :
  it ∈ MOCK_MENU_ITEMS ->
  whole (MenuItem.basePrice it) /\
  forall v, v ∈ default [] (MenuItem.variations it) -> whole (MenuItemVariation.price v).
Proof.
  intros Hit.
  assert (Hb : menu_wholeb it = true).
  { assert (Hall : forallb menu_wholeb MOCK_MENU_ITEMS = true) by reflexivity.
    rewrite forallb_forall in Hall. by apply Hall, list_elem_of_In. }
  unfold menu_wholeb in Hb. bool_hyps. split; [by apply wholeb_whole|].
  intros v Hv. apply wholeb_whole. rewrite forallb_forall in H0.
  by apply H0, list_elem_of_In.
Qed.

Definition order_whole (o : Order.t) : Prop :=
  whole (Order.foodSubtotal o) /\ whole (Order.deliveryFee o) /\
  whole (Order.serviceFee o) /\ whole (Order.totalFee o).

Definition money_ok (x : Sys) : Prop :=
  Forall (fun c => whole (CartItem.totalPrice c)) (Store.cart (store x)) /\
  Forall order_whole (Store.orders (store x)) /\
  item_ok (ui x) /\
  (forall v, CustomerApp.selectedVar (ui x) = Some v -> whole (MenuItemVariation.price v)).

Lemma order_whole_update oid st d now o :
  order_whole o -> order_whole (Store.updateOrder oid st d now o).
Proof.
  unfold order_whole. destruct (Store.updateOrder_fees oid st d now o) as (-> & -> & -> & ->).
  done.
Qed.

Lemma whole_js_or_zero (v : option MenuItemVariation.t) :
  (forall v', v = Some v' -> whole (MenuItemVariation.price v')) ->
  whole (Pricing.js_or_zero (v ?. MenuItemVariation.price)).
Proof.
  intros Hv. rewrite Pricing.js_or_zero_default.
  destruct v as [v'|]; simpl; [by apply Hv|by exists 0].
Qed.

Section WithDrivers.

Variable drivers : Store.AppState -> option (list DriverApp.Driver).

Lemma exec_money_ok x e x' :
  sys_ok x -> money_ok x -> exec drivers x e = Some x' -> money_ok x'.
Proof.
  intros Hok Hm Hx. destruct Hm as (Hc & Ho & Hi & Hv).
  pose proof (exec_item_ok drivers _ _ _ Hok Hi Hx) as Hi'.
  destruct (request e) as [[[o to] now]|] eqn:Hreq.
  - destruct (exec_click_shape drivers _ _ _ _ _ _ Hx Hreq) as (d & Hs & Hu).
    unfold money_ok. rewrite Hs, Hu. split_and!; try done. by apply Store.Forall_updateOrderStatus; auto using order_whole_update.
  - destruct x as [s u]; destruct (Hok) as (Hr & Hmenu & _ & [_ Hsm] & _); simpl in *.
    exec_other_cases e Hreq Hx.
    all: split_and!; simpl; try done; try (by intros ? [=]).
    + intros ? [= <-]. by apply (MOCK_MENU_ITEMS_whole t0); [apply Hi|].
    + apply Forall_app; split; [done|]. repeat constructor.
      unfold Pricing.makeCartItem; simpl. rewrite Pricing.finalPrice_sum, Hsm.
      apply whole_add; [apply whole_add|by exists 0].
      * by apply (MOCK_MENU_ITEMS_whole t); apply Hi.
      * destruct (CustomerApp.selectedVar u) eqn:E; simpl; [by apply Hv|by exists 0].
    + constructor; [|done]. unfold order_whole, CustomerApp.newOrder; simpl.
      assert (whole (Pricing.foodSubtotal (Store.cart s))).
      { rewrite Pricing.foodSubtotal_sum. apply whole_sumZ. congruence. }
      split_and!; [done|by exists 25|by exists 5|].
      unfold Pricing.totalOrderAmount. repeat apply whole_add; [done|by exists 25|by exists 5].
Qed.

Lemma reachable_money_ok x : reachable drivers x -> money_ok x.
Proof.
  induction 1 as [|x e x' Hr IH Hx].
  - split_and!; simpl; first [apply Forall_nil|by intros ? [=]].
  - eapply exec_money_ok; [by apply (reachable_sys_ok drivers)|done|done].
Qed.

(** The sum of the order totals, as the dashboards compute it. *)
Lemma whole_sum_totals (os : list Order.t) (a : Money) :
  Forall order_whole os -> whole a ->
  whole (fold_left (fun acc o => acc + Order.totalFee o) os 0 + a).
Proof.
  intros Hos Ha. rewrite fold_left_add_sumZ. apply whole_add; [|done].
  apply whole_add; [by exists 0|]. apply whole_sumZ.
  eapply Forall_impl; [|exact Hos]. by intros o (_ & _ & _ & ?).
Qed.

(** C16: In every reachable state, every cart line, every amount of every
    order and the totals of both dashboards are whole, non-negative
    numbers of rands, on which the code's floating-point additions are
    exact. *)
Theorem reachable_amounts_whole x :
  reachable drivers x ->
  Forall (fun c => whole (CartItem.totalPrice c)) (Store.cart (store x)) /\
  Forall order_whole (Store.orders (store x)) /\
  whole (PlatformOwnerDashboard.gmv (store x)) /\
  whole (AdminDashboard.totalGMV (store x)).
Proof.
  intros Hr. destruct (reachable_money_ok x Hr) as (Hc & Ho & _ & _).
  split_and!; try done; apply whole_sum_totals; try done.
  - by exists 145000.
  - by exists 125000.
Qed.

End WithDrivers.
