(* ===== verification/Progress.v ===== *)
(** * Progress: termination of the driver's work and liveness of orders

    The driver's advance button moves an order one step along
    [ACCEPTED -> PICKED_UP -> IN_TRANSIT -> DELIVERED].  [rank] counts the
    steps an order still has on that path and [driver_work] sums it over the
    store: every advance click of a state reached with fresh order ids
    lowers it by one, so a driver can click only finitely often
    ([driver_clicks_bounded]).

    Liveness is the converse question: how far can an order always be
    brought?  For an order of The Kota King, whose admin is a catalogue
    user, a session of logins and clicks brings it to [READY_FOR_PICKUP]
    for every value of [drivers], the shipped one included
    ([kota_orders_reach_pickup]); when the store provides a drivers list
    (the code as meant) a longer session delivers it
    ([kota_orders_delivered]).  An order of Debonairs, whose owner
    ["deb-corp"] is no user of the catalogue, never leaves [PENDING] when
    order ids do not collide. *)

From S2P Require Import Prelude Types Catalog Store Lifecycle Views System.

Import System.

(** The steps an order still has on the driver's path. *)
Definition rank (st : OrderStatus) : nat :=
  match st with ACCEPTED => 3 | PICKED_UP => 2 | IN_TRANSIT => 1 | _ => 0 end.

Definition driver_work (s : Store.AppState) : nat :=
  list_sum (map (fun o => rank (Order.status o)) (Store.orders s)).

(** The order with id [oid] is [READY_FOR_PICKUP] in [x]. *)
Definition at_pickup (x : Sys) (oid : string) : Prop :=
  exists o, o ∈ Store.orders (store x) /\ Order.id o = oid /\ Order.status o = READY_FOR_PICKUP.

(** Every order of the restaurant [rid] is still [PENDING]. *)
Definition all_pending (s : Store.AppState) (rid : string) : Prop :=
  Forall (fun o => Order.restaurantId o = Some rid -> Order.status o = PENDING) (Store.orders s).

(** The order with id [oid] is [DELIVERED] in [x]. *)
Definition delivered (x : Sys) (oid : string) : Prop :=
  exists o, o ∈ Store.orders (store x) /\ Order.id o = oid /\ Order.status o = DELIVERED.

Definition is_advance (e : Event) : Prop :=
  match e with DriverAdvanceClick _ _ => True | _ => False end.

Lemma rank_next st :
  driver_phase st = true -> st <> DELIVERED -> (rank (DriverApp.nextStatus st) + 1)%nat = rank st.
Proof. by destruct st. Qed.

(** Updating an id no order has changes nothing. *)
Lemma map_updateOrder_absent oid st d now os :
  oid ∉ map Order.id os -> map (Store.updateOrder oid st d now) os = os.
Proof.
  induction os as [|o os IH]; simpl; intros Hn; [done|].
  rewrite Store.updateOrder_other, IH; [done| |]; intros E; apply Hn; [by right|].
  rewrite E. by left.
Qed.

(** A sum over the orders after updating the one order [o] of a list
    with unique ids. *)
Lemma sum_update_unique (f : Order.t -> nat) os o st d now :
  NoDup (map Order.id os) -> o ∈ os ->
  (list_sum (map f (map (Store.updateOrder (Order.id o) st d now) os)) + f o
   = list_sum (map f os) + f (Store.updateOrder (Order.id o) st d now o))%nat.
Proof.
  induction os as [|o' os IH]; simpl; intros Hnd Ho; [set_solver|].
  pose proof (NoDup_cons_1_1 _ _ Hnd) as Hn; apply NoDup_cons_1_2 in Hnd.
  apply elem_of_cons in Ho as [->|Ho].
  - rewrite map_updateOrder_absent by done. lia.
  - rewrite (Store.updateOrder_other _ _ _ _ o').
    + rewrite <- Nat.add_assoc, IH by done. lia.
    + intros E. apply Hn. rewrite E. by apply (list_elem_of_fmap_2 Order.id).
Qed.

Section WithDrivers.

Variable drivers : Store.AppState -> option (list DriverApp.Driver).

(** One advance click lowers the driver's work by exactly one. *)
Lemma advance_decreases x o now x' :
  fsys_ok x -> exec drivers x (DriverAdvanceClick o now) = Some x' ->
  (driver_work (store x') + 1)%nat = driver_work (store x).
Proof.
  intros (_ & Hnd & Hdrv) Hx. destruct x as [s u]; simpl in *.
  repeat (case_match; try discriminate); simplify_eq/=; bool_hyps.
  destruct (myActive_member drivers s o ltac:(done)) as (Ho & Hd & Hnd').
  destruct (screen_user (mkSys s u) App.DriverApp) as (v & Hv & _); [done|done|].
  pose proof (Forall_elem _ _ _ Hdrv Ho) as Hok. unfold driver_ok in Hok.
  simpl in Hv. rewrite Hd, Hv in Hok. destruct Hok as [Hph _].
  unfold driver_work, DriverApp.handleStatusUpdate, Store.updateOrderStatus; simpl.
  pose proof (sum_update_unique (fun o => rank (Order.status o)) _ o
                (DriverApp.nextStatus (Order.status o)) None now Hnd Ho) as Hs.
  rewrite Store.updateOrder_self in Hs; simpl in Hs.
  pose proof (rank_next _ Hph Hnd'). lia.
Qed.

(** The restaurant admin's dashboard shows the tickets of The Kota King. *)
Lemma admin_myRest x :
  sys_ok x -> screen x = App.RestaurantAdminDashboard ->
  RestaurantAdminDashboard.myRest (store x) ?. Restaurant.id = Some "rest-1".
Proof.
  intros (Hr & _ & Hu & _) Hsc.
  destruct (screen_user x _ Hsc) as (u & Hcu & Hd); [done|].
  apply dashboard_role in Hd.
  destruct (MOCK_USERS_admin u) as [Hid _]; [by apply Hu|done|].
  unfold RestaurantAdminDashboard.myRest. rewrite Hcu, Hr; simpl. by rewrite Hid.
Qed.

(** C13: In every session whose checkouts draw fresh order ids, every
    order of Debonairs stays [PENDING]: its owner ["deb-corp"] is no user
    of the catalogue, so no restaurant dashboard shows it, no driver can
    take it (it has a restaurant) and no driver is assigned to it.  The
    freshness matters: when a Debonairs order shares its id with a Kota
    King order, a click on the latter rewrites both
    ([Departures.clicks_rewrite_namesakes]). *)
Theorem debonairs_orders_stuck x :
  reachable_fresh drivers x -> all_pending (store x) "rest-2".
Proof.
  unfold all_pending. induction 1 as [|x e x' Hr IH _ Hx]; [constructor|].
  pose proof (reachable_fresh_fsys_ok drivers x Hr) as Hok.
  destruct (request e) as [[[o' to] now]|] eqn:Hreq.
  - destruct (clicked_order drivers _ _ _ _ _ _ Hok Hx Hreq) as [Hin' _].
    destruct (exec_click_shape drivers _ _ _ _ _ _ Hx Hreq) as (d & -> & _).
    apply Store.Forall_updateOrderStatus; [done|]. intros o Ho _ Hid.
    destruct Hok as (Hsys & Hnd & Hdrv).
    rewrite (NoDup_map_key_eq Order.id _ o o' Hnd Ho Hin' Hid).
    unfold Store.updateOrder; rewrite String.eqb_refl; simpl. intros Hrest. exfalso.
    pose proof (Forall_elem _ _ _ IH Hin' Hrest) as Hpend.
    destruct x as [s u]; destruct e; simpl in Hreq; simplify_eq; simpl in Hx;
      repeat (case_match; try discriminate); simplify_eq/=; bool_hyps.
    + match goal with H : _ ∈ RestaurantAdminDashboard.buttonList _ _ |- _ =>
        destruct (buttonList_member _ _ _ H) as (_ & Hm & _) end.
      pose proof (admin_myRest (mkSys s u) Hsys ltac:(done)) as Hm'. simpl in Hm'.
      congruence.
    + match goal with H : _ ∈ DriverApp.availableOrders _ |- _ =>
        destruct (available_member drivers _ _ H) as (_ & [Hst|[_ Hf]]) end;
        [congruence|by rewrite Hrest in Hf].
    + match goal with H : _ ∈ DriverApp.myActiveOrders _ |- _ =>
        destruct (myActive_member drivers _ _ H) as (_ & Hd & _) end.
      pose proof (Forall_elem _ _ _ Hdrv Hin') as Hdo.
      rewrite (driver_ok_none o') in Hd by (by rewrite ?Hpend).
      match goal with H : screen _ = App.DriverApp |- _ =>
        destruct (screen_user _ _ H) as (v & Hv & _); [done|] end.
      simpl in Hv. by rewrite Hv in Hd.
  - destruct (exec_other_orders drivers _ _ _ Hx Hreq) as [->|(rnd & n & _ & ->)]; [done|].
    by constructor.
Qed.

(** C14: Termination of the driver's work: from a state reached with fresh
    order ids, a session of driver advance clicks that all go through has
    at most [driver_work] clicks (three per order still at [ACCEPTED], two
    at [PICKED_UP], one at [IN_TRANSIT]). *)
Theorem driver_clicks_bounded x es y :
  reachable_fresh drivers x -> run drivers x es = Some y -> Forall is_advance es ->
  (length es <= driver_work (store x))%nat.
Proof.
  revert x; induction es as [|e es IH]; intros x Hr Hrun Hall; simpl; [lia|].
  inversion Hall as [|? ? He Hall']; subst. destruct e; try contradiction.
  cbn [run] in Hrun. destruct (exec drivers x (DriverAdvanceClick o now)) as [x'|] eqn:E;
    [|discriminate].
  pose proof (advance_decreases x o now x' (reachable_fresh_fsys_ok drivers x Hr) E).
  assert (Hr' : reachable_fresh drivers x') by (eapply reachf_step; [exact Hr| |exact E]; exact I).
  specialize (IH x' Hr' Hrun Hall'). lia.
Qed.

End WithDrivers.

(** ** Liveness *)

Section Liveness.

Variable drivers : Store.AppState -> option (list DriverApp.Driver).

(** The store provides a drivers list (the code as meant). *)
Hypothesis drivers_provided : forall s, drivers s <> None.

Definition kotaAdmin : User.t := User.mk "2" "Kota King Admin" "kota@business.co.za" RESTAURANT_ADMIN.
Definition sipho : User.t := User.mk "3" "Speedy Sipho" "sipho@driver.co.za" DRIVER.

(** The next status on the main path of the lifecycle. *)
Definition mainNext (st : OrderStatus) : OrderStatus :=
  match st with
  | PENDING => RESTAURANT_ACCEPTED
  | RESTAURANT_ACCEPTED => PREPARING
  | PREPARING => READY_FOR_PICKUP
  | READY_FOR_PICKUP => ACCEPTED
  | ACCEPTED => PICKED_UP
  | PICKED_UP => IN_TRANSIT
  | IN_TRANSIT => DELIVERED
  | st => st
  end.

(** The steps left on the main path. *)
Definition dist (st : OrderStatus) : nat :=
  match st with
  | PENDING => 7 | RESTAURANT_ACCEPTED => 6 | PREPARING => 5 | READY_FOR_PICKUP => 4
  | ACCEPTED => 3 | PICKED_UP => 2 | IN_TRANSIT => 1 | _ => 0
  end.

(** Log in as the user of [email], logging out first if someone is. *)
Definition relogin (x : Sys) (email : string) : list Event :=
  match Store.currentUser (store x) with
  | None => [Login email]
  | Some _ => [Logout; Login email]
  end.

(** The events that move [o] one step along the main path. *)
Definition push_events (x : Sys) (o : Order.t) (now : Z) : list Event :=
  match Order.status o with
  | PENDING => relogin x (User.email kotaAdmin) ++
                 [RestaurantClick RestaurantAdminDashboard.Accept o now]
  | RESTAURANT_ACCEPTED => relogin x (User.email kotaAdmin) ++
                 [RestaurantClick RestaurantAdminDashboard.Prep o now]
  | PREPARING => relogin x (User.email kotaAdmin) ++
                 [RestaurantClick RestaurantAdminDashboard.Ready o now]
  | READY_FOR_PICKUP => relogin x (User.email sipho) ++ [DriverAcceptClick o now]
  | ACCEPTED | PICKED_UP | IN_TRANSIT =>
      relogin x (User.email sipho) ++ [DriverAdvanceClick o now]
  | DELIVERED | CANCELLED => []
  end.

Lemma driverRenders_provided s : driverRenders drivers s = true.
Proof.
  unfold driverRenders, DriverApp.driverData.
  destruct (drivers s) eqn:E; [by apply bool_decide_eq_true|].
  by destruct (drivers_provided s).
Qed.

Lemma runf_step x e x' es :
  freshb x e = true -> exec drivers x e = Some x' -> runf drivers x (e :: es) = runf drivers x' es.
Proof. intros Hf Hx. cbn [runf]. by rewrite Hf, Hx. Qed.

Lemma runf_app x es1 es2 :
  runf drivers x (es1 ++ es2) =
  match runf drivers x es1 with Some y => runf drivers y es2 | None => None end.
Proof.
  revert x; induction es1 as [|e es1 IH]; intros x; [done|]. cbn [runf app].
  destruct (freshb x e); [|done]. destruct (exec drivers x e); [apply IH|done].
Qed.

Lemma updated_member s o st d now :
  o ∈ Store.orders s ->
  Store.updateOrder (Order.id o) st d now o ∈
    Store.orders (Store.updateOrderStatus (Order.id o) st d now s).
Proof. intros Ho. by apply (list_elem_of_fmap_2 (Store.updateOrder (Order.id o) st d now)). Qed.

Lemma login_run y u :
  reachable_fresh drivers y -> Store.currentUser (store y) = None -> u ∈ MOCK_USERS ->
  exists y', runf drivers y [Login (User.email u)] = Some y' /\ reachable_fresh drivers y' /\
    Store.currentUser (store y') = Some u /\ Store.orders (store y') = Store.orders (store y).
Proof.
  intros Hy Hn Hu.
  assert (Hx : exec drivers y (Login (User.email u))
               = Some (mkSys (Store.login (User.email u) (store y)) CustomerApp.initialUI)).
  { assert (He : User.email u ∈ map User.email MOCK_USERS) by (by apply list_elem_of_fmap_2).
    unfold exec. rewrite (bool_decide_eq_true_2 _ He), Hn. reflexivity. }
  eexists. split; [erewrite runf_step; [reflexivity|reflexivity|exact Hx]|].
  split_and!; [eapply reachf_step; [exact Hy| |exact Hx]; exact I| |].
  - cbn [store]. unfold Store.login.
    by rewrite (find_key_unique User.email MOCK_USERS u MOCK_USERS_emails_NoDup Hu).
  - cbn [store]. unfold Store.login. by case_match.
Qed.

Lemma relogin_run x u :
  reachable_fresh drivers x -> crashed drivers x = false -> u ∈ MOCK_USERS ->
  exists x1, runf drivers x (relogin x (User.email u)) = Some x1 /\ reachable_fresh drivers x1 /\
    Store.currentUser (store x1) = Some u /\ Store.orders (store x1) = Store.orders (store x).
Proof.
  intros Hr Hc Hu. unfold relogin.
  destruct (Store.currentUser (store x)) as [v|] eqn:Ev; [|by apply login_run].
  pose proof (logout_exec drivers x Hc ltac:(congruence)) as Hx.
  assert (Hr1 : reachable_fresh drivers (mkSys (Store.logout (store x)) CustomerApp.initialUI))
    by (eapply reachf_step; [exact Hr| |exact Hx]; exact I).
  destruct (login_run _ u Hr1 eq_refl Hu) as (x1 & Hrun & Hr' & Hcu & Ho).
  exists x1. erewrite runf_step; [|reflexivity|exact Hx]. by split_and!.
Qed.

Lemma kotaAdmin_in : kotaAdmin ∈ MOCK_USERS.
Proof. apply (bool_decide_unpack _). vm_compute. reflexivity. Qed.

Lemma sipho_in : sipho ∈ MOCK_USERS.
Proof. apply (bool_decide_unpack _). vm_compute. reflexivity. Qed.

(** A click that [exec] accepts, run as a one-event session. *)
Lemma click_run x e x' :
  reachable_fresh drivers x -> request e <> None -> exec drivers x e = Some x' ->
  runf drivers x [e] = Some x' /\ reachable_fresh drivers x'.
Proof.
  intros Hr Hreq Hx. assert (Hf : freshb x e = true) by (destruct e; done).
  split; [by rewrite (runf_step _ _ _ _ Hf Hx)|].
  eapply reachf_step; [exact Hr|by apply freshb_fresh|exact Hx].
Qed.

Lemma restaurant_push x b o now :
  reachable_fresh drivers x -> Store.currentUser (store x) = Some kotaAdmin ->
  o ∈ Store.orders (store x) -> Order.restaurantId o = Some "rest-1" ->
  Order.status o ∈ (match b with
                    | RestaurantAdminDashboard.Decline | RestaurantAdminDashboard.Accept => [PENDING]
                    | _ => [RESTAURANT_ACCEPTED; PREPARING; READY_FOR_PICKUP] end) ->
  exists x', runf drivers x [RestaurantClick b o now] = Some x' /\ reachable_fresh drivers x' /\
    Store.updateOrder (Order.id o) (RestaurantAdminDashboard.buttonStatus b) None now o
      ∈ Store.orders (store x') /\
    Store.currentUser (store x') = Some kotaAdmin.
Proof.
  intros Hr Hcu Ho Hrest Hst.
  assert (Hsc : screen x = App.RestaurantAdminDashboard) by (unfold screen; by rewrite Hcu).
  destruct (reachable_fresh_fsys_ok drivers x Hr) as (Hsys & _).
  assert (Hb : o ∈ RestaurantAdminDashboard.buttonList b (store x)).
  { pose proof (admin_myRest x Hsys Hsc) as Hm.
    destruct b; simpl; unfold RestaurantAdminDashboard.pending, RestaurantAdminDashboard.active,
      RestaurantAdminDashboard.myOrders; rewrite !list_elem_of_filter;
      (split; [|split; [congruence|done]]); first [by apply list_elem_of_singleton in Hst|done]. }
  destruct (click_run x (RestaurantClick b o now)
              (mkSys (RestaurantAdminDashboard.onClick b (Order.id o) now (store x)) (ui x)))
    as [Hrun Hr']; [done|done| |].
  { simpl. by rewrite (bool_decide_eq_true_2 _ Hsc), (bool_decide_eq_true_2 _ Hb). }
  eexists. split_and!; [exact Hrun|exact Hr'|by apply updated_member|]. by destruct b.
Qed.

Lemma driver_accept_push x o now :
  reachable_fresh drivers x -> Store.currentUser (store x) = Some sipho ->
  o ∈ Store.orders (store x) -> Order.status o = READY_FOR_PICKUP ->
  exists x', runf drivers x [DriverAcceptClick o now] = Some x' /\ reachable_fresh drivers x' /\
    Store.updateOrder (Order.id o) ACCEPTED (Some "3") now o ∈ Store.orders (store x').
Proof.
  intros Hr Hcu Ho Hst.
  assert (Hsc : screen x = App.DriverApp) by (unfold screen; by rewrite Hcu).
  assert (Ha : o ∈ DriverApp.availableOrders (store x)).
  { unfold DriverApp.availableOrders. rewrite list_elem_of_filter. by split; [left|]. }
  destruct (click_run x (DriverAcceptClick o now)
              (mkSys (DriverApp.handleAccept (Order.id o) now (store x)) (ui x)))
    as [Hrun Hr']; [done|done| |].
  { simpl. by rewrite (bool_decide_eq_true_2 _ Hsc), driverRenders_provided,
      (bool_decide_eq_true_2 _ Ha). }
  eexists. split_and!; [exact Hrun|exact Hr'|].
  unfold DriverApp.handleAccept. rewrite Hcu. by apply updated_member.
Qed.

Lemma driver_advance_push x o now :
  reachable_fresh drivers x -> Store.currentUser (store x) = Some sipho ->
  o ∈ Store.orders (store x) -> Order.status o ∈ [ACCEPTED; PICKED_UP; IN_TRANSIT] ->
  exists x', runf drivers x [DriverAdvanceClick o now] = Some x' /\ reachable_fresh drivers x' /\
    Store.updateOrder (Order.id o) (DriverApp.nextStatus (Order.status o)) None now o
      ∈ Store.orders (store x').
Proof.
  intros Hr Hcu Ho Hst.
  assert (Hsc : screen x = App.DriverApp) by (unfold screen; by rewrite Hcu).
  destruct (reachable_fresh_fsys_ok drivers x Hr) as (_ & _ & Hdrv).
  assert (Hd : Order.driverId o = Some "3").
  { pose proof (Forall_elem _ _ _ Hdrv Ho) as Hok. unfold driver_ok in Hok.
    destruct (Order.driverId o) as [d|].
    - destruct Hok as [_ (v & Hv & <- & Hrole)]. by rewrite (proj1 (MOCK_USERS_driver v Hv Hrole)).
    - exfalso. repeat (apply elem_of_cons in Hst as [Hst|Hst]; [by rewrite Hst in Hok|]).
      by apply elem_of_nil in Hst. }
  assert (Ha : o ∈ DriverApp.myActiveOrders (store x)).
  { unfold DriverApp.myActiveOrders. rewrite list_elem_of_filter, Hcu, Hd.
    split_and!; [done| |done]. intros E. rewrite E in Hst.
    repeat (apply elem_of_cons in Hst as [Hst|Hst]; [done|]). by apply elem_of_nil in Hst. }
  destruct (click_run x (DriverAdvanceClick o now)
              (mkSys (DriverApp.handleStatusUpdate (Order.id o) (Order.status o) now (store x))
                 (ui x)))
    as [Hrun Hr']; [done|done| |].
  { simpl. by rewrite (bool_decide_eq_true_2 _ Hsc), driverRenders_provided,
      (bool_decide_eq_true_2 _ Ha). }
  eexists. split_and!; [exact Hrun|exact Hr'|]. by apply updated_member.
Qed.

Ltac push_finish Hrun1 Hrun2 Hr2 Hin2 Est :=
  rewrite runf_app, Hrun1; do 2 eexists; split_and!; [exact Hrun2|exact Hr2|exact Hin2|..];
  rewrite ?Store.updateOrder_self; simpl; rewrite ?Est; first [done|congruence].

(** The restaurant admin's dashboard never crashes. *)
Lemma admin_not_crashed x :
  Store.currentUser (store x) = Some kotaAdmin -> crashed drivers x = false.
Proof. intros Hu. unfold crashed, screen. by rewrite Hu. Qed.

Lemma provided_not_crashed x : crashed drivers x = false.
Proof.
  unfold crashed. rewrite driverRenders_provided.
  repeat case_bool_decide; simpl; rewrite ?andb_false_r; try done;
    by destruct (drivers_provided (store x)).
Qed.

(** The steps an order still has before [READY_FOR_PICKUP]. *)
Definition kitchen_dist (st : OrderStatus) : nat :=
  match st with PENDING => 3 | RESTAURANT_ACCEPTED => 2 | PREPARING => 1 | _ => 0 end.

Lemma kitchen_dist_next st n :
  kitchen_dist st = S n ->
  kitchen_dist (mainNext st) = n /\
  mainNext st ∈ [PENDING; RESTAURANT_ACCEPTED; PREPARING; READY_FOR_PICKUP].
Proof. destruct st; intros [= <-]; split; try done; repeat (first [by left|right]). Qed.

(** The restaurant admin's login and one click move a Kota King order one
    step through the kitchen; the admin stays logged in. *)
Lemma kitchen_push x o now :
  reachable_fresh drivers x -> crashed drivers x = false -> o ∈ Store.orders (store x) ->
  Order.restaurantId o = Some "rest-1" -> (1 <= kitchen_dist (Order.status o))%nat ->
  exists x' o', runf drivers x (push_events x o now) = Some x' /\ reachable_fresh drivers x' /\
    o' ∈ Store.orders (store x') /\ Order.id o' = Order.id o /\
    Order.restaurantId o' = Some "rest-1" /\ Order.status o' = mainNext (Order.status o) /\
    Store.currentUser (store x') = Some kotaAdmin.
Proof.
  intros Hr Hc Ho Hrest Hk. unfold push_events.
  destruct (relogin_run x kotaAdmin Hr Hc kotaAdmin_in) as (x1 & Hrun1 & Hr1 & Hcu1 & Ho1).
  rewrite <- Ho1 in Ho.
  destruct (Order.status o) eqn:Est; simpl in Hk; try lia.
  1: destruct (restaurant_push x1 RestaurantAdminDashboard.Accept o now Hr1 Hcu1 Ho Hrest)
       as (x2 & Hrun2 & Hr2 & Hin2 & Hcu2); [rewrite Est; by left|].
  2: destruct (restaurant_push x1 RestaurantAdminDashboard.Prep o now Hr1 Hcu1 Ho Hrest)
       as (x2 & Hrun2 & Hr2 & Hin2 & Hcu2); [rewrite Est; by left|].
  3: destruct (restaurant_push x1 RestaurantAdminDashboard.Ready o now Hr1 Hcu1 Ho Hrest)
       as (x2 & Hrun2 & Hr2 & Hin2 & Hcu2); [rewrite Est; by right; left|].
  all: push_finish Hrun1 Hrun2 Hr2 Hin2 Est.
Qed.

(** One round of logins and clicks moves a Kota King order one step along
    the main path, when the store provides a drivers list. *)
Lemma push_step x o now :
  reachable_fresh drivers x -> o ∈ Store.orders (store x) ->
  Order.restaurantId o = Some "rest-1" -> is_terminal (Order.status o) = false ->
  exists x' o', runf drivers x (push_events x o now) = Some x' /\ reachable_fresh drivers x' /\
    o' ∈ Store.orders (store x') /\ Order.id o' = Order.id o /\
    Order.restaurantId o' = Some "rest-1" /\ Order.status o' = mainNext (Order.status o).
Proof.
  intros Hr Ho Hrest Ht.
  destruct (decide (1 <= kitchen_dist (Order.status o))%nat) as [Hk|Hk].
  { destruct (kitchen_push x o now Hr (provided_not_crashed x) Ho Hrest Hk)
      as (x' & o' & H1 & H2 & H3 & H4 & H5 & H6 & _).
    by exists x', o'. }
  unfold push_events.
  destruct (Order.status o) eqn:Est; try discriminate Ht; simpl in Hk; try lia.
  all: destruct (relogin_run x sipho Hr (provided_not_crashed x) sipho_in)
         as (x1 & Hrun1 & Hr1 & Hcu1 & Ho1); rewrite <- Ho1 in Ho.
  1: destruct (driver_accept_push x1 o now Hr1 Hcu1 Ho Est) as (x2 & Hrun2 & Hr2 & Hin2).
  2-4: destruct (driver_advance_push x1 o now Hr1 Hcu1 Ho) as (x2 & Hrun2 & Hr2 & Hin2);
    [rewrite Est; repeat (first [by left|right])|].
  all: push_finish Hrun1 Hrun2 Hr2 Hin2 Est.
Qed.

Lemma dist_mainNext st n :
  dist st = S n ->
  dist (mainNext st) = n /\ mainNext st <> CANCELLED /\ is_terminal st = false.
Proof. by destruct st; intros [= <-]. Qed.

(** C12: Liveness of the kitchen, for every value of [drivers] and so for
    the shipped code: from any state reached with fresh order ids whose
    screen has not crashed, every order of The Kota King that is
    [PENDING], [RESTAURANT_ACCEPTED] or [PREPARING] can be brought to
    [READY_FOR_PICKUP] by some session (log in as the restaurant admin,
    then Accept, Prep and Ready).  With the shipped store no driver can
    take it further ([System.shipped_orders_never_reach_driver]). *)
Theorem kota_orders_reach_pickup x o (now : Z) :
  reachable_fresh drivers x -> crashed drivers x = false ->
  o ∈ Store.orders (store x) -> Order.restaurantId o = Some "rest-1" ->
  Order.status o ∈ [PENDING; RESTAURANT_ACCEPTED; PREPARING; READY_FOR_PICKUP] ->
  exists es y, runf drivers x es = Some y /\ at_pickup y (Order.id o).
Proof.
  intros Hr Hc Ho Hrest Hst. remember (kitchen_dist (Order.status o)) as n eqn:Hn.
  revert x o Hr Hc Ho Hrest Hst Hn. induction n as [|n IH]; intros x o Hr Hc Ho Hrest Hst Hn.
  - exists [], x. split; [done|]. exists o. split_and!; try done.
    repeat (apply elem_of_cons in Hst as [Hst|Hst]; [rewrite Hst in Hn |- *; simpl in Hn; congruence|]).
    by apply elem_of_nil in Hst.
  - destruct (kitchen_push x o now Hr Hc Ho Hrest)
      as (x' & o' & Hrun & Hr' & Ho' & Hid & Hrest' & Hst' & Hcu'); [lia|].
    destruct (kitchen_dist_next (Order.status o) n (eq_sym Hn)) as [Hn' Hin'].
    rewrite <- Hst' in Hn', Hin'.
    destruct (IH x' o' Hr' (admin_not_crashed x' Hcu') Ho' Hrest' Hin' (eq_sym Hn'))
      as (es & y & Hrun' & Hat).
    exists (push_events x o now ++ es), y. rewrite runf_app, Hrun. split; [done|]. by rewrite <- Hid.
Qed.

(** The code as meant: when the store provides a drivers list, every
    order of The Kota King that is not cancelled can be delivered by some
    session (the kitchen's steps, then the driver accepts, picks up,
    transits and delivers it). *)
Lemma kota_orders_delivered x o (now : Z) :
  reachable_fresh drivers x -> o ∈ Store.orders (store x) ->
  Order.restaurantId o = Some "rest-1" -> Order.status o <> CANCELLED ->
  exists es y, runf drivers x es = Some y /\ delivered y (Order.id o).
Proof.
  intros Hr Ho Hrest Hc. remember (dist (Order.status o)) as n eqn:Hn.
  revert x o Hr Ho Hrest Hc Hn. induction n as [|n IH]; intros x o Hr Ho Hrest Hc Hn.
  - exists [], x. split; [done|]. exists o. split_and!; try done. by destruct (Order.status o).
  - destruct (dist_mainNext _ n (eq_sym Hn)) as (Hn' & Hc' & Ht).
    destruct (push_step x o now Hr Ho Hrest Ht)
      as (x' & o' & Hrun & Hr' & Ho' & Hid & Hrest' & Hst).
    rewrite <- Hst in Hn', Hc'.
    destruct (IH x' o' Hr' Ho' Hrest' Hc' (eq_sym Hn')) as (es & y & Hrun' & Hdel).
    exists (push_events x o now ++ es), y.
    rewrite runf_app, Hrun. split; [done|]. by rewrite <- Hid.
Qed.

End Liveness.
