(* ===== verification/WellFormed.v ===== *)
(** * WellFormed: the shape of every order and cart line

    The types of [src/types.ts] allow an order without a restaurant or
    items and a customer id [''] ([currentUser?.id || '']).  In every
    reachable state none of this happens: every order belongs to a
    catalogue customer and a catalogue restaurant, is picked up at that
    restaurant's address, and has a non-empty list of lines, each of a
    catalogue menu item with quantity one and no modifier.  [wf] is that
    invariant of the session. *)

From S2P Require Import Prelude Types Catalog Pricing Store Views System.

Import System.

Definition line_wf (c : CartItem.t) : Prop :=
  CartItem.quantity c = 1 /\ CartItem.modifiers c = Some [] /\
  exists it, it ∈ MOCK_MENU_ITEMS /\ CartItem.menuItemId c = MenuItem.id it /\
             CartItem.name c = MenuItem.name it.

Definition order_wf (o : Order.t) : Prop :=
  (exists u, u ∈ MOCK_USERS /\ User.role u = CUSTOMER /\ Order.customerId o = User.id u) /\
  (exists r, r ∈ MOCK_RESTAURANTS /\ Order.restaurantId o = Some (Restaurant.id r) /\
             Order.pickupAddress o = Restaurant.address r) /\
  (exists l, Order.items o = Some l /\ l <> [] /\ Forall line_wf l).

Definition wf (x : Sys) : Prop :=
  Forall line_wf (Store.cart (store x)) /\ Forall order_wf (Store.orders (store x)) /\
  item_ok (ui x).

Lemma MOCK_RESTAURANTS_address r : r ∈ MOCK_RESTAURANTS -> Restaurant.address r <> "".
Proof.
  unfold MOCK_RESTAURANTS. intros Hr.
  repeat (apply elem_of_cons in Hr as [->|Hr]; [discriminate|]). by apply elem_of_nil in Hr.
Qed.

Lemma js_or_empty_nonempty str : str <> "" -> js_or_empty (Some str) = str.
Proof. intros H. simpl. by case_streq. Qed.

Lemma order_wf_update oid st d now o : order_wf o -> order_wf (Store.updateOrder oid st d now o).
Proof. unfold Store.updateOrder. by case_streq. Qed.

Section WithDrivers.

Variable drivers : Store.AppState -> option (list DriverApp.Driver).

Lemma exec_wf x e x' : sys_ok x -> wf x -> exec drivers x e = Some x' -> wf x'.
Proof.
  intros Hok (Hc & Ho & Hi) Hx.
  pose proof (exec_item_ok drivers _ _ _ Hok Hi Hx) as Hi'.
  destruct (request e) as [[[o to] now]|] eqn:Hreq.
  - destruct (exec_click_shape drivers _ _ _ _ _ _ Hx Hreq) as (d & Hs & Hu).
    unfold wf. rewrite Hs, Hu. split_and!; try done.
    by apply Store.Forall_updateOrderStatus; auto using order_wf_update.
  - destruct x as [s u]; destruct (Hok) as (Hr & Hmenu & Husers & [Hsr Hsm] & _); simpl in *.
    exec_other_cases e Hreq Hx.
    all: split_and!; simpl; try done.
    + apply Forall_app; split; [done|]. constructor; [|constructor].
      unfold line_wf; simpl. split_and!; [done|by rewrite Hsm|].
      match goal with H : CustomerApp.selectedItem u = Some ?it |- _ =>
        exists it; split_and!; [by apply Hi|done|done] end.
    + constructor; [|congruence]. unfold CustomerApp.newOrder; simpl.
      match goal with H : is_customer _ = true |- _ => apply bool_decide_eq_true in H end.
      match goal with H : screen _ = App.CustomerApp |- _ =>
        destruct (screen_user _ _ H) as (v & Hv & Hd); [done|] end.
      apply dashboard_role in Hd. simpl in Hv. rewrite Hv; simpl.
      destruct (CustomerApp.selectedRest u) as [r|] eqn:Er; [|done].
      pose proof (Husers v Hv) as Hvin. pose proof (Hsr r eq_refl) as Hrin.
      split_and!.
      * exists v. split_and!; [done|done|]. apply js_or_empty_nonempty.
        by apply MOCK_USERS_id_nonempty.
      * exists r. split_and!; [done|done|]. simpl.
        by apply js_or_empty_nonempty, MOCK_RESTAURANTS_address.
      * eexists; split_and!; [reflexivity|congruence|congruence].
Qed.

Lemma reachable_wf x : reachable drivers x -> wf x.
Proof.
  induction 1 as [|x e x' Hr IH Hx].
  - split_and!; [apply Forall_nil|apply Forall_nil|by intros ? [=]].
  - eapply exec_wf; [by apply (reachable_sys_ok drivers)|done|done].
Qed.

(** C15: Every order of a reachable state is well formed: it is the order
    of a catalogue customer (its [customerId] is never the fallback
    [''] of [currentUser?.id || '']), it belongs to a catalogue restaurant
    and is picked up at that restaurant's address (never [undefined] or
    ['']), and its items are a non-empty list of lines, each of a catalogue
    menu item with quantity one and no modifier; so is every cart line. *)
Theorem reachable_orders_wf x :
  reachable drivers x ->
  Forall order_wf (Store.orders (store x)) /\ Forall line_wf (Store.cart (store x)).
Proof. intros Hr. by destruct (reachable_wf x Hr) as (? & ? & _). Qed.

End WithDrivers.
