(* ===== verification/Screens.v ===== *)
(** * Screens: the login screen, the page layout and the driver's cards

    - [Login] ([src/views/Login.tsx]): the page, with one identity button
      per catalogue user (lines 22-37), showing the user's name and role,
      whose click calls [login(user.email)].
    - [Layout] ([src/components/Layout.tsx]): the frame around every
      dashboard, with the header (lines 17-26) showing the current user's
      role, name and email, the logout button (lines 28-29) and the footer.
    - [DriverCards] ([src/views/DriverApp.tsx]): the earnings panel with
      its rating and trip badges, the card of each active delivery, with
      the label of its advance button, the card of each available order,
      with the restaurant it is looked up in, and the whole screen.
    - [CustomerScreens] ([src/views/CustomerApp.tsx]): the menu cards, the
      portion radios of the item dialog, the checkout tray, the category
      chips and the restaurant cards.
    - [KitchenScreens] ([src/views/RestaurantAdminDashboard.tsx]): the
      header, the stats, the pending tickets and the active queue's rows.

    The theorems: an identity button logs in exactly the user it shows
    and the layout then shows that user, and logging out again is a round
    trip; the advance button's label names the step its click performs on
    every order a driver can see, with fresh order ids; [replaceFirst]
    replaces the first occurrence only, which leaves an underscore in
    "READY FOR_PICKUP"; the earnings badges' [||] turns a 0 into the
    fallback. *)

From Stdlib Require Import Ascii String.
From S2P Require Import Prelude Types Catalog Pricing Store Views System.

Import System.

(** [s.replace(c, d)] with a one-character pattern: the first occurrence
    only. *)
Fixpoint replaceFirst (c d : Ascii.ascii) (str : string) : string :=
  match str with
  | EmptyString => EmptyString
  | String a rest => if Ascii.eqb a c then String d rest else String a (replaceFirst c d rest)
  end.

(** [x || fallback] on a string. *)
Definition js_or_str (x : option string) (fallback : string) : string :=
  match x with Some str => if str =s= "" then fallback else str | None => fallback end.

Module Login.

Record IdentityButton := mkButton {
  key : string; userName : string; roleLabel : string; email : string }.

(** [user.role.replace('_', ' ')] *)
Definition roleLabelOf (r : UserRole) : string :=
  replaceFirst "_"%char " "%char (UserRole_value r).

(** [MOCK_USERS.map((user) => <button key={user.id} ...>)] *)
Definition identityButtons : list IdentityButton :=
  map (fun u => mkButton (User.id u) (User.name u) (roleLabelOf (User.role u)) (User.email u))
    MOCK_USERS.

(** [onClick={() => login(user.email)}] *)
Definition onClick (b : IdentityButton) (s : Store.AppState) : Store.AppState :=
  Store.login (email b) s.

Record Page := mkPage {
  mark : string; title : string; subtitle : string; caption : string;
  buttons : list IdentityButton; footnote : string }.

(** The page (lines 9-48): the "S" mark, the title and subtitle, the
    caption over the identity buttons, the buttons and the footnote. *)
Definition page : Page :=
  mkPage "S" "SwiftDrop SA" "Enterprise Marketplace Portal" "Identity Selection"
    identityButtons "Secure Multi-Tenant Gateway".

End Login.

Module Layout.

Record Header := mkHeader {
  appName : string; roleBadge : option string; userName : option string;
  userEmail : option string }.

(** [{APP_NAME}], [{currentUser?.role}], [{currentUser?.name}],
    [{currentUser?.email}] *)
Definition header (s : Store.AppState) : Header :=
  mkHeader APP_NAME (Store.currentUser s ?. (fun u => UserRole_value (User.role u)))
    (Store.currentUser s ?. User.name) (Store.currentUser s ?. User.email).

(** [onClick={logout}] *)
Definition onLogout (s : Store.AppState) : Store.AppState := Store.logout s.

Record Frame := mkFrame { mark : string; frameHeader : Header; main : App.Screen; footer : string }.

(** The frame around a view (lines 9-50): the "S" mark, the header, the
    child in [<main>] and the footer. *)
Definition frame (s : Store.AppState) (children : App.Screen) : Frame :=
  mkFrame "S" (header s) children "© 2024 SwiftDrop Logistics Platform. All rights reserved.".

End Layout.

Module DriverCards.

(** The label of the advance button (lines 98-99). *)
Definition buttonLabel (st : OrderStatus) : string :=
  if bool_decide (st = ACCEPTED) then "Arrived at Pickup"
  else if bool_decide (st = PICKED_UP) then "Order Collected"
  else "Mark as Delivered".

Record ActiveCard := mkActive {
  orderId : string; isFood : bool; earning : Money; pickUpFrom : string; dropOffTo : string;
  advanceLabel : string }.

(** The card of an active delivery (lines 56-101). *)
Definition activeCard (o : Order.t) : ActiveCard :=
  mkActive (Order.id o) (negb (js_falsy_str (Order.restaurantId o))) (Order.totalFee o)
    (Order.pickupAddress o) (Order.dropoffAddress o) (buttonLabel (Order.status o)).

Definition activeCards (s : Store.AppState) : list ActiveCard :=
  map activeCard (DriverApp.myActiveOrders s).

(** [restaurants.find(r => r.id === order.restaurantId)] *)
Definition cardRest (s : Store.AppState) (o : Order.t) : option Restaurant.t :=
  find (fun r => bool_decide (Some (Restaurant.id r) = Order.restaurantId o)) (Store.restaurants s).

Record AvailableCard := mkAvailable {
  availId : string; foodIcon : bool; title : string; zone : string }.

(** The card of an available order (lines 117-139). *)
Definition availableCard (s : Store.AppState) (o : Order.t) : AvailableCard :=
  mkAvailable (Order.id o) (negb (js_falsy_str (Order.restaurantId o)))
    (js_or_str (cardRest s o ?. Restaurant.name) "Logistic Package")
    (js_or_str (cardRest s o ?. Restaurant.zone) "Central Zone").

Definition availableCards (s : Store.AppState) : list AvailableCard :=
  map (availableCard s) (DriverApp.availableOrders s).

(** [x || d] on a number: the fallback [d] when [x] is [undefined] or
    [0]. *)
Definition js_or_num (x : option Z) (d : Z) : Z :=
  match x with Some n => if n =? 0 then d else n | None => d end.

(** The earnings panel at the top of the view (lines 31-45): the fixed
    daily earnings, the rating and trip badges, the online button and the
    zone line. *)
Record EarningsPanel := mkEarnings {
  earnings : string; ratingBadge : Z; tripsBadge : Z; onlineButton : string; zoneLine : string }.

(** [driverData?.ratingAvg || 4.9] (in tenths) and
    [driverData?.totalTrips || 12]. *)
Definition earningsPanel (driverData : option DriverApp.Driver) : EarningsPanel :=
  mkEarnings "R1,450.00" (js_or_num (driverData ?. DriverApp.ratingAvg) 49)
    (js_or_num (driverData ?. DriverApp.totalTrips) 12) "YOU ARE ONLINE" "Soweto Zone • Ready".

(** [myActiveOrders.length === 0] (lines 104-109): the "No Active Tasks"
    placeholder. *)
Definition noActiveTasks (s : Store.AppState) : bool :=
  bool_decide (length (DriverApp.myActiveOrders s) = 0%nat).

(** What the view renders (lines 27-143), given the [drivers] value it
    reads: [None] when the [driverData] lookup throws; otherwise the
    earnings panel, the active cards, the placeholder and the available
    cards. *)
Definition driverScreen (drivers : option (list DriverApp.Driver)) (s : Store.AppState)
    : option (EarningsPanel * list ActiveCard * bool * list AvailableCard) :=
  match DriverApp.driverData drivers s with
  | None => None
  | Some dd => Some (earningsPanel dd, activeCards s, noActiveTasks s, availableCards s)
  end.

End DriverCards.

Module CustomerScreens.

(** A menu item's card (lines 86-90): name, description, base price. *)
Record MenuCard := mkMenuCard { itemName : string; itemDescription : string; itemPrice : Money }.

Definition menuCards (s : Store.AppState) (rest : Restaurant.t) : list MenuCard :=
  map (fun it => mkMenuCard (MenuItem.name it) (MenuItem.description it) (MenuItem.basePrice it))
    (CustomerApp.restMenu s rest).

(** A portion radio of the item dialog (lines 119-126): the variation's
    name and price, checked when [selectedVar?.id === v.id]. *)
Record Radio := mkRadio { radioName : string; radioPrice : Money; checked : bool }.

Definition dialogRadios (ui : CustomerApp.UI) : list Radio :=
  match CustomerApp.selectedItem ui with
  | Some it =>
      map (fun v => mkRadio (MenuItemVariation.name v) (MenuItemVariation.price v)
                      (bool_decide (CustomerApp.selectedVar ui ?. MenuItemVariation.id
                                    = Some (MenuItemVariation.id v))))
        (default [] (MenuItem.variations it))
  | None => []
  end.

(** The checkout tray (lines 142-153), shown when the cart is not empty:
    the number of lines, the restaurant it names, and the total. *)
Record Tray := mkTray { lines : Z; fromRest : string; trayTotal : Money }.

Definition tray (ui : CustomerApp.UI) (s : Store.AppState) : option Tray :=
  match Store.cart s, CustomerApp.selectedRest ui with
  | [], _ | _, None => None
  | c, Some r => Some (mkTray (Z.of_nat (length c)) (Restaurant.name r)
                         (Pricing.totalOrderAmount c))
  end.

(** The heading over the restaurant cards (lines 211-220): title,
    subtitle and zone chip. *)
Definition featuredHeader : string * string * string :=
  ("Featured Kitchens", "Top rated in your delivery zone.", "Soweto Zone 📍").

(** A restaurant's card on the list (lines 223-248). *)
Record RestCard := mkRestCard {
  restName : string; chainBadge : bool; restRating : Z; restDeliveryTime : string;
  restCategories : list string; deliveryLabel : Money }.

Definition restaurantCards (s : Store.AppState) : list RestCard :=
  map (fun r => mkRestCard (Restaurant.name r) (default false (Restaurant.isChain r))
                  (Restaurant.rating r) (Restaurant.deliveryTime r) (Restaurant.categories r) 2500)
    (Store.restaurants s).

(** The category chips of the home screen (lines 203-208): icon and name. *)
Definition categoryChips : list (string * string) :=
  map (fun c => (icon c, categoryName c)) FOOD_CATEGORIES.

End CustomerScreens.

Module KitchenScreens.

(** [{myRest?.name}] and [{myRest?.zone}] (lines 30-31). *)
Definition header (s : Store.AppState) : option string * option string :=
  (RestaurantAdminDashboard.myRest s ?. Restaurant.name,
   RestaurantAdminDashboard.myRest s ?. Restaurant.zone).

Inductive StatValue := Num (n : Z) | Text (t : string).

(** A figure card: label, value, text colour and background classes. *)
Record StatCard := mkStat { label : string; value : StatValue; color : string; bg : string }.

(** [stats] (lines 18-22): the order count of the restaurant and two fixed
    figures. *)
Definition stats (s : Store.AppState) : list StatCard :=
  [mkStat "Today Orders" (Num (Z.of_nat (length (RestaurantAdminDashboard.myOrders s))))
     "text-slate-900" "bg-white";
   mkStat "Net Earnings" (Text "R4,850") "text-green-600" "bg-green-50";
   mkStat "Avg Prep Time" (Text "12m") "text-blue-600" "bg-blue-50"].

(** A line of a ticket (lines 68-73): quantity, name, line total. *)
Definition ticketLines (o : Order.t) : list (Z * string * Money) :=
  map (fun c => (CartItem.quantity c, CartItem.name c, CartItem.totalPrice c))
    (default [] (Order.items o)).

(** A pending ticket (lines 58-74): id, total, lines. *)
Definition ticket (o : Order.t) : string * Money * list (Z * string * Money) :=
  (Order.id o, Order.totalFee o, ticketLines o).

(** [order.status.replace('_', ' ')] (line 99). *)
Definition statusLabel (st : OrderStatus) : string :=
  replaceFirst "_"%char " "%char (OrderStatus_value st).

(** A row of the active queue (lines 94-100): id and status label. *)
Definition activeRow (o : Order.t) : string * string := (Order.id o, statusLabel (Order.status o)).

Definition activeRows (s : Store.AppState) : list (string * string) :=
  map activeRow (RestaurantAdminDashboard.active s).

End KitchenScreens.

(** ** Properties *)

(** [replaceFirst c d] is JavaScript's [replace] with a one-character
    pattern: it replaces the first occurrence of [c] and only that one, and
    leaves a string without [c] unchanged. *)
Lemma replaceFirst_spec (c d : Ascii.ascii) (p q : string) :
  (forall a, In a (list_ascii_of_string p) -> a <> c) ->
  replaceFirst c d (p +:+ String c q) = p +:+ String d q /\
  replaceFirst c d p = p.
Proof.
  induction p as [|a p IH]; intros Hp; simpl; [by rewrite Ascii.eqb_refl|].
  destruct (Ascii.eqb_spec a c) as [->|Hne].
  - exfalso. by apply (Hp c); [left|].
  - destruct IH as [-> ->]; [|done]. intros b Hb. apply Hp. by right.
Qed.

(** C27: Round trip of the login screen: clicking the identity button of a
    user on the login screen shows, in the layout's header, the name, email
    and role (as the button labels it) of that very user, leads to a
    dashboard (not back to the login), and logging out again gives back the
    store with an empty cart. *)
Theorem identity_button_roundtrip b s :
  b ∈ Login.identityButtons -> Store.currentUser s = None ->
  (exists rv, Layout.header (Login.onClick b s)
              = Layout.mkHeader APP_NAME (Some rv) (Some (Login.userName b)) (Some (Login.email b))
              /\ replaceFirst "_"%char " "%char rv = Login.roleLabel b) /\
  App.getDashboardByRole (Store.currentUser (Login.onClick b s)) <> App.NavigateToLogin /\
  Layout.onLogout (Login.onClick b s) = Store.clearCart s.
Proof.
  unfold Login.identityButtons. intros Hb Hn.
  apply list_elem_of_fmap in Hb as (u & -> & Hu).
  unfold Login.onClick, Store.login; cbn [Login.email].
  rewrite (find_key_unique User.email MOCK_USERS u MOCK_USERS_emails_NoDup Hu).
  split_and!.
  - by eexists.
  - unfold App.getDashboardByRole; simpl. by destruct (User.role u).
  - unfold Layout.onLogout, Store.logout, Store.clearCart; simpl. by rewrite Hn.
Qed.

(** The step the driver's click takes the order to, as the button should
    name it. *)
Definition stepName (st : OrderStatus) : string :=
  match st with
  | PICKED_UP => "Arrived at Pickup"
  | IN_TRANSIT => "Order Collected"
  | DELIVERED => "Mark as Delivered"
  | _ => "No step"
  end.

Section WithDrivers.

Variable drivers : Store.AppState -> option (list DriverApp.Driver).

(** An order a driver sees among the active deliveries is in the driver's
    phase and not delivered, when order ids are fresh. *)
Lemma myActive_phase x o :
  reachable_fresh drivers x -> screen x = App.DriverApp ->
  o ∈ DriverApp.myActiveOrders (store x) ->
  Order.status o ∈ [ACCEPTED; PICKED_UP; IN_TRANSIT].
Proof.
  intros Hr Hsc Ho. destruct (reachable_fresh_fsys_ok drivers x Hr) as (_ & _ & Hdrv).
  destruct (myActive_member drivers _ _ Ho) as (Hin & Hd & Hnd).
  destruct (screen_user x _ Hsc) as (v & Hv & _); [done|].
  pose proof (Forall_elem _ _ _ Hdrv Hin) as Hok. unfold driver_ok in Hok.
  rewrite Hd, Hv in Hok. destruct Hok as [Hph _].
  destruct (Order.status o); try discriminate; try done; by repeat constructor.
Qed.

(** C26: On every card a driver sees, with fresh order ids, the advance
    button's label names the step its click performs: "Arrived at Pickup"
    moves the order to [PICKED_UP], "Order Collected" to [IN_TRANSIT],
    "Mark as Delivered" to [DELIVERED]. *)
Theorem advance_label_names_step x o :
  reachable_fresh drivers x -> screen x = App.DriverApp ->
  o ∈ DriverApp.myActiveOrders (store x) ->
  DriverCards.advanceLabel (DriverCards.activeCard o)
  = stepName (DriverApp.nextStatus (Order.status o)).
Proof.
  intros Hr Hsc Ho. pose proof (myActive_phase x o Hr Hsc Ho) as Hst.
  simpl. repeat (apply elem_of_cons in Hst as [->|Hst]; [done|]). by apply elem_of_nil in Hst.
Qed.

(** C25: What the checkout tray shows is what the checkout button
    charges: the order it places has the tray's total as its [totalFee],
    the tray's line count as its number of items, and the restaurant the
    tray names as its restaurant. *)
Theorem tray_shows_charge x rnd now x' :
  exec drivers x (PlaceOrder rnd now) = Some x' ->
  exists t o r, CustomerScreens.tray (ui x) (store x) = Some t /\
    Store.orders (store x') = o :: Store.orders (store x) /\
    CustomerScreens.trayTotal t = Order.totalFee o /\
    CustomerScreens.lines t = Z.of_nat (length (default [] (Order.items o))) /\
    CustomerApp.selectedRest (ui x) = Some r /\ CustomerScreens.fromRest t = Restaurant.name r /\
    Order.restaurantId o = Some (Restaurant.id r).
Proof.
  intros Hx. destruct x as [s u]; simpl in Hx.
  repeat (case_match; try discriminate); simplify_eq/=; bool_hyps.
  unfold CustomerApp.handlePlaceOrder in *. case_match; [done|]. simplify_eq/=.
  destruct (CustomerApp.selectedRest u) as [r|] eqn:Er; [|done].
  unfold CustomerScreens.tray. rewrite Er.
  match goal with H : Store.cart s = _ |- _ => rewrite H end.
  do 3 eexists. split_and!; [reflexivity|reflexivity|..]; unfold CustomerApp.newOrder; simpl;
    rewrite ?Er; try reflexivity.
  all: match goal with H : Store.cart _ = _ :: _ |- _ => by rewrite H end.
Qed.

End WithDrivers.

(** The active queue prints a status with [replace('_', ' ')], which
    replaces the first underscore only: [READY_FOR_PICKUP] is shown as
    "READY FOR_PICKUP" while [RESTAURANT_ACCEPTED] reads
    "RESTAURANT ACCEPTED". *)
Example status_label_keeps_second_underscore :
  map KitchenScreens.statusLabel [RESTAURANT_ACCEPTED; PREPARING; READY_FOR_PICKUP]
  = ["RESTAURANT ACCEPTED"; "PREPARING"; "READY FOR_PICKUP"].
Proof. reflexivity. Qed.

(** The rating and trip badges of the driver's earnings panel use
    JavaScript's [||], which falls back on [0] as on a missing record: a
    badge shows the driver record's figure exactly when that figure is not
    0, and a driver whose record has 0 trips and a 0 rating gets the same
    panel as a driver with no record, 12 trips rated 4.9. *)
Lemma earnings_badges_zero_fallback d :
  (DriverCards.tripsBadge (DriverCards.earningsPanel (Some d)) = DriverApp.totalTrips d
     <-> DriverApp.totalTrips d <> 0) /\
  (DriverCards.ratingBadge (DriverCards.earningsPanel (Some d)) = DriverApp.ratingAvg d
     <-> DriverApp.ratingAvg d <> 0) /\
  (forall i online, DriverCards.earningsPanel (Some (DriverApp.mkDriver i 0 0 online))
                    = DriverCards.earningsPanel None) /\
  DriverCards.tripsBadge (DriverCards.earningsPanel None) = 12 /\
  DriverCards.ratingBadge (DriverCards.earningsPanel None) = 49.
Proof.
  unfold DriverCards.earningsPanel, DriverCards.js_or_num; simpl.
  split_and!; [..|done|done|done];
    [destruct (Z.eqb_spec (DriverApp.totalTrips d) 0) as [->|?]
    |destruct (Z.eqb_spec (DriverApp.ratingAvg d) 0) as [->|?]]; split; congruence.
Qed.

