(* ===== verification/Departures.v ===== *)
(** * Departures: where the code does not do what the specification says

    General theorems, over every state of [System] satisfying the stated
    conditions, about behaviours of the shipped code that the
    specification forbids or does not foresee; [Scenarios] evaluates each
    on a concrete session to show its conditions are met.

    - The restaurant dashboard offers the four requests the
      specification's table has no edge for (Ready on [RESTAURANT_ACCEPTED],
      Prep on [READY_FOR_PICKUP], Prep on [PREPARING], Ready on
      [READY_FOR_PICKUP]) and performs them, where [applyTransition]
      answers [IllegalTransitionError].
    - A click rewrites every order that shares the clicked order's id, a
      cancelled or delivered one or one of another restaurant included:
      only the clicked order is checked against the screen.
    - The variation chosen for one item survives closing its dialog: the
      next item's dialog shows none of its portions checked, and Add to
      Cart charges the stale variation, which [priceSelection] rejects.
    - With the shipped store the driver's and the owner's views throw
      while rendering; React then unmounts the page and every session
      ends there: no event, not even logout, is possible. *)

From S2P Require Import Prelude Types Catalog Pricing Store Lifecycle Views System Screens.

Import System.

(** An order of the admin's restaurant in one of the three kitchen
    statuses is on the active queue. *)
Lemma active_member s o :
  o ∈ Store.orders s ->
  Order.restaurantId o = RestaurantAdminDashboard.myRest s ?. Restaurant.id ->
  Order.status o ∈ [RESTAURANT_ACCEPTED; PREPARING; READY_FOR_PICKUP] ->
  o ∈ RestaurantAdminDashboard.active s.
Proof.
  intros Ho Hrid Hst. unfold RestaurantAdminDashboard.active, RestaurantAdminDashboard.myOrders.
  rewrite !list_elem_of_filter. by split_and!.
Qed.

(** Every catalogue dish is available. *)
Lemma MOCK_MENU_ITEMS_available it : it ∈ MOCK_MENU_ITEMS -> MenuItem.isAvailable it = true.
Proof.
  intros Hit. repeat (apply elem_of_cons in Hit as [->|Hit]; [done|]). by apply elem_of_nil in Hit.
Qed.

(** The specification refuses the request [to] on the order [oid] as an
    illegal transition, whoever makes it and whenever. *)
Definition spec_refuses (s : Store.AppState) (oid : string) (to : OrderStatus) : Prop :=
  forall a now, Lifecycle.applyTransition (owner_of s) (Store.orders s) oid to a now
                = inr Lifecycle.IllegalTransitionError.

(** [o''] is the order [o'] after the request [to] at [now]: the new
    status and update time, the same restaurant and creation time. *)
Definition takes_request (o' : Order.t) (to : OrderStatus) (now : Z) (o'' : Order.t) : Prop :=
  Order.status o'' = to /\ Order.updatedAt o'' = now /\
  Order.restaurantId o'' = Order.restaurantId o' /\ Order.createdAt o'' = Order.createdAt o'.

(** The item dialog shows none of its portions checked. *)
Definition no_portion_checked (u : CustomerApp.UI) : Prop :=
  Forall (fun r => CustomerScreens.checked r = false) (CustomerScreens.dialogRadios u).

(** No event is possible in [x] with the shipped store, so every session
    from [x] stops at its first event. *)
Definition dead_end (x : Sys) : Prop :=
  forall e es, exec DriverApp.storeDrivers x e = None /\
               run DriverApp.storeDrivers x (e :: es) = None.

Section WithDrivers.

Variable drivers : Store.AppState -> option (list DriverApp.Driver).

(** C10: The restaurant dashboard offers and performs each of the four
    requests the specification's table has no edge for: in a state reached
    with fresh order ids, on an order of the admin's restaurant whose
    status and the button's status form such a pair, the button is shown,
    its click sets the status (and the update time), and the
    specification's [applyTransition] answers the same request, whoever
    makes it, with [IllegalTransitionError]. *)
Theorem restaurant_off_table_offered x b o now :
  reachable_fresh drivers x -> screen x = App.RestaurantAdminDashboard ->
  o ∈ Store.orders (store x) ->
  Order.restaurantId o = option_map Restaurant.id (RestaurantAdminDashboard.myRest (store x)) ->
  (Order.status o, RestaurantAdminDashboard.buttonStatus b) ∈ off_table ->
  exec drivers x (RestaurantClick b o now)
  = Some (mkSys (Store.updateOrderStatus (Order.id o) (RestaurantAdminDashboard.buttonStatus b)
                   None now (store x)) (ui x)) /\
  spec_refuses (store x) (Order.id o) (RestaurantAdminDashboard.buttonStatus b).
Proof.
  intros Hr Hsc Ho Hrid Hoff. destruct (reachable_fresh_fsys_ok drivers x Hr) as (_ & Hnd & _).
  assert (Hb : o ∈ RestaurantAdminDashboard.buttonList b (store x) /\
               Lifecycle.edge (Order.status o) (RestaurantAdminDashboard.buttonStatus b) = false).
  { unfold off_table in Hoff.
    destruct b; simpl in Hoff |- *;
      repeat (apply elem_of_cons in Hoff as [Hoff|Hoff]; [injection Hoff as Hst; try discriminate|]);
      try (by apply elem_of_nil in Hoff);
      (split; [apply active_member; [done|done|rewrite Hst; repeat (first [by left|right])]
              |by rewrite Hst]). }
  destruct Hb as [Hb He]. split.
  - simpl. by rewrite (bool_decide_eq_true_2 _ Hsc), (bool_decide_eq_true_2 _ Hb).
  - intros a t. unfold Lifecycle.applyTransition.
    by rewrite (find_key_unique Order.id) by done; rewrite He.
Qed.

(** C11: A click rewrites every order sharing the clicked order's id,
    whatever that order's restaurant or status: the button's guard looks
    at the clicked order only, and [updateOrderStatus] maps over the
    whole list.  Order ids are a random number below 90000 with no check
    for reuse, so a Debonairs order, or a cancelled or delivered one,
    sharing a Kota King order's id takes the new status and update time
    (this is what the freshness hypothesis of the lifecycle invariants
    excludes). *)
Theorem clicks_rewrite_namesakes x e x' o to now i o' :
  exec drivers x e = Some x' -> request e = Some (o, to, now) ->
  Store.orders (store x) !! i = Some o' -> Order.id o' = Order.id o ->
  exists o'', Store.orders (store x') !! i = Some o'' /\ takes_request o' to now o''.
Proof.
  intros Hx Hreq Hi Hid. destruct (exec_click_shape drivers _ _ _ _ _ _ Hx Hreq) as (d & -> & _).
  rewrite Store.lookup_updateOrderStatus, Hi; simpl. eexists; split; [reflexivity|].
  unfold takes_request, Store.updateOrder. rewrite Hid, String.eqb_refl. by split_and!.
Qed.

(** C23: The variation chosen in one item's dialog survives closing it.
    From a reachable state with a variation [v] still selected, opening an
    item that offers no variation with [v]'s id shows none of its portions
    checked, yet Add to Cart appends a line of that item priced with [v],
    a selection the specification's [priceSelection] rejects with
    [VariationNotOffered]. *)
Theorem stale_variation_charged_unseen x it v x1 x2 :
  reachable drivers x -> CustomerApp.selectedVar (ui x) = Some v ->
  MenuItemVariation.id v ∉ map MenuItemVariation.id (default [] (MenuItem.variations it)) ->
  exec drivers x (SelectItem it) = Some x1 -> exec drivers x1 AddToCart = Some x2 ->
  no_portion_checked (ui x1) /\
  Store.cart (store x2) = Store.cart (store x) ++ [Pricing.makeCartItem it (Some v) []] /\
  Pricing.priceSelection it (Some v) [] 1 = inr Pricing.VariationNotOffered.
Proof.
  intros Hr Hv Hid Hx1 Hx2.
  destruct (reachable_sys_ok drivers x Hr) as (_ & Hm & _ & [_ Hmods] & _).
  destruct x as [s u]; simpl in *.
  destruct (CustomerApp.selectedRest u) as [rest|] eqn:Er; [|discriminate].
  repeat (case_match; try discriminate); simplify_eq/=; bool_hyps.
  match goal with H : it ∈ CustomerApp.restMenu _ _ |- _ =>
    unfold CustomerApp.restMenu in H; apply list_elem_of_filter in H as [_ Hit] end.
  rewrite Hm in Hit. unfold CustomerApp.handleAddToCart in *; simpl in *; simplify_eq/=.
  rewrite Hv, Hmods. split_and!; [|done|].
  - unfold no_portion_checked. apply Forall_forall. intros r Hrd. unfold CustomerScreens.dialogRadios in Hrd; simpl in Hrd.
    apply in_map_iff in Hrd as (w & <- & Hw). simpl. rewrite Hv.
    apply bool_decide_eq_false_2. intros [= Heq]. apply Hid. rewrite Heq.
    apply list_elem_of_fmap_2. by apply list_elem_of_In.
  - unfold Pricing.priceSelection, Pricing.offers.
    rewrite (MOCK_MENU_ITEMS_available it Hit); simpl.
    destruct (MenuItem.variations it) as [vs|]; simpl in *; [|done].
    rewrite bool_decide_eq_false_2; [done|]. intros Hw. apply Hid.
    by apply list_elem_of_fmap_2.
Qed.

End WithDrivers.

(** C8: With the shipped store ([drivers] is [undefined]), the driver's
    and the owner's views throw while rendering and React unmounts the
    page: on either screen no event is possible, not even logout, so every
    session that reaches it ends there. *)
Theorem shipped_crash_dead_end x :
  screen x = App.DriverApp \/ screen x = App.PlatformOwnerDashboard -> dead_end x.
Proof.
  intros Hsc e es. assert (Hx : exec DriverApp.storeDrivers x e = None).
  { assert (Hu : Store.currentUser (store x) <> None).
    { intros Hn. unfold screen in Hsc. rewrite Hn in Hsc. by destruct Hsc. }
    assert (Hc : crashed DriverApp.storeDrivers x = true).
    { unfold crashed. by destruct Hsc as [-> | ->]. }
    destruct x as [s u]; destruct e; cbn [exec store ui] in *;
      rewrite ?Hc; simpl; repeat case_match; try done; bool_hyps;
      unfold is_customer, driverRenders, DriverApp.driverData, DriverApp.storeDrivers in *;
      bool_hyps; first [congruence|by destruct Hsc; congruence]. }
  split; [done|]. cbn [run]. by rewrite Hx.
Qed.
