(* ===== verification/KitchenViews.v ===== *)
(** * KitchenViews: the whole screens of the two restaurant views

    [KitchenPanels] completes the routed
    [src/views/RestaurantAdminDashboard.tsx]: the header panel (lines
    26-37), the badge counting new tickets (line 53), the empty-queue
    placeholder (line 108), the fixed daily performance chart (line 115)
    and the screen they compose (lines 24-124) with the stats, tickets
    and queue rows of [Screens.KitchenScreens].

    [BoardScreens] is the same for the unrouted
    [src/views/RestaurantDashboard.tsx]: header, figure cards, tickets
    with payment method and portion, placeholders, and the queue rows,
    which print "Preparing" whatever the order's status.

    The lemmas relate the two screens: they show the same tickets with
    the same lines, and the same queue, but the unrouted view labels
    every queued order "Preparing". *)

From Stdlib Require Import Ascii String.
From S2P Require Import Prelude Types Store Views RestaurantDashboard Screens.

(** A JSX expression child: [undefined] renders as nothing. *)
Definition js_text (x : option string) : string := default "" x.

Module KitchenPanels.

Record HeaderPanel := mkHeaderPanel {
  logo : option string; title : option string; zoneLine : string; badge : string }.

(** The header (lines 26-37): [myRest?.logo], [myRest?.name],
    [Branch Ops • {myRest?.zone}] and the "Kitchen Online" badge. *)
Definition headerPanel (s : Store.AppState) : HeaderPanel :=
  let '(name, zone) := KitchenScreens.header s in
  mkHeaderPanel (RestaurantAdminDashboard.myRest s ?. Restaurant.logo) name
    ("Branch Ops • " +:+ js_text zone) "Kitchen Online".

(** [{pending.length} New] (line 53). *)
Definition newBadge (s : Store.AppState) : Z :=
  Z.of_nat (length (RestaurantAdminDashboard.pending s)).

(** [active.length === 0 && <p>No active prep.</p>] (line 108). *)
Definition noActivePrep (s : Store.AppState) : bool :=
  bool_decide (length (RestaurantAdminDashboard.active s) = 0%nat).

(** The fixed data of the "Daily Performance" chart (line 115). *)
Definition dailyPerformance : list (string * Z) :=
  [("8am", 12); ("12pm", 45); ("4pm", 28); ("8pm", 65)].

Record Screen := mkScreen {
  header : HeaderPanel;
  stats : list KitchenScreens.StatCard;
  pendingBadge : Z;
  tickets : list (string * Money * list (Z * string * Money));
  queue : list (string * string);
  emptyQueue : bool;
  performance : list (string * Z) }.

(** The rendered view (lines 24-124). *)
Definition screen (s : Store.AppState) : Screen :=
  mkScreen (headerPanel s) (KitchenScreens.stats s) (newBadge s)
    (map KitchenScreens.ticket (RestaurantAdminDashboard.pending s))
    (KitchenScreens.activeRows s) (noActivePrep s) dailyPerformance.

End KitchenPanels.

Module BoardScreens.

(** The header (lines 21-29): [{myRest?.name} Kitchen],
    [Orders flowing from {myRest?.zone}.] and the badge. *)
Definition header (s : Store.AppState) : string * string * string :=
  (js_text (RestaurantDashboard.myRest s ?. Restaurant.name) +:+ " Kitchen",
   "Orders flowing from " +:+ js_text (RestaurantDashboard.myRest s ?. Restaurant.zone) +:+ ".",
   "Live & Accepting Orders").

(** The figure cards (lines 33-37): the two counts of
    [RestaurantDashboard.stats] and the fixed payout. *)
Definition statCards (s : Store.AppState) : list KitchenScreens.StatCard :=
  let '(unchecked, prep) := RestaurantDashboard.stats s in
  [KitchenScreens.mkStat "Unchecked Orders" (KitchenScreens.Num unchecked)
     "text-orange-600" "bg-orange-50";
   KitchenScreens.mkStat "Kitchen Prep" (KitchenScreens.Num prep) "text-blue-600" "bg-blue-50";
   KitchenScreens.mkStat "Today's Payout" (KitchenScreens.Text "R4,850")
     "text-green-600" "bg-green-50"].

(** A line of a ticket (lines 68-74): quantity, name, total and the
    [Size: {item.variation.name}] line when a variation is set. *)
Definition ticketLine (c : CartItem.t) : Z * string * Money * option string :=
  (CartItem.quantity c, CartItem.name c, CartItem.totalPrice c,
   CartItem.variation c ?. (fun v => "Size: " +:+ MenuItemVariation.name v)).

Record Ticket := mkTicket {
  ticketId : string; received : string; ticketTotal : Money; payment : string;
  ticketLines : list (Z * string * Money * option string) }.

(** A pending ticket (lines 54-82); the payment method is printed with
    [replace('_', ' ')]. *)
Definition ticket (o : Order.t) : Ticket :=
  mkTicket (Order.id o) "Received 2m ago" (Order.totalFee o)
    (replaceFirst "_"%char " "%char (PaymentMethod_value (Order.paymentMethod o)))
    (map ticketLine (default [] (Order.items o))).

(** A row of the active queue (lines 97-104): id, [order.items?.length]
    and the fixed word "Preparing". *)
Definition activeRow (o : Order.t) : string * option Z * string :=
  (Order.id o, Order.items o ?. (fun l => Z.of_nat (length l)), "Preparing").

Record Screen := mkScreen {
  header3 : string * string * string;
  cards : list KitchenScreens.StatCard;
  tickets : list Ticket;
  noNewOrders : bool;
  queue : list (string * option Z * string);
  queueEmpty : bool }.

(** The rendered view (lines 19-116), with the placeholders of lines
    84-89 and 111. *)
Definition screen (s : Store.AppState) : Screen :=
  mkScreen (header s) (statCards s) (map ticket (RestaurantDashboard.pendingOrders s))
    (bool_decide (length (RestaurantDashboard.pendingOrders s) = 0%nat))
    (map activeRow (RestaurantDashboard.activeOrders s))
    (bool_decide (length (RestaurantDashboard.activeOrders s) = 0%nat)).

End BoardScreens.

(** ** Properties *)

(** The two restaurant screens show the same pending tickets, with the
    same ids, totals and lines (the unrouted view adds the portion of each
    line and the payment method). *)
Lemma board_tickets_match_admin s :
  map (fun t => (BoardScreens.ticketId t, BoardScreens.ticketTotal t,
                 map (fun '(q, n, p, _) => (q, n, p)) (BoardScreens.ticketLines t)))
      (BoardScreens.tickets (BoardScreens.screen s))
  = KitchenPanels.tickets (KitchenPanels.screen s).
Proof.
  cbn [BoardScreens.tickets BoardScreens.screen KitchenPanels.tickets KitchenPanels.screen].
  rewrite map_map. apply map_ext. intros o.
  unfold KitchenScreens.ticket, KitchenScreens.ticketLines, BoardScreens.ticket; simpl.
  by rewrite map_map.
Qed.

(** Both queues list the same orders in the same order; the routed view
    prints each order's status, the unrouted one "Preparing" for all. *)
Lemma board_queue_says_preparing s :
  map (fun '(i, _, w) => (i, w)) (BoardScreens.queue (BoardScreens.screen s))
  = map (fun '(i, _) => (i, "Preparing")) (KitchenPanels.queue (KitchenPanels.screen s)).
Proof.
  cbn [BoardScreens.queue BoardScreens.screen KitchenPanels.queue KitchenPanels.screen].
  unfold KitchenScreens.activeRows. rewrite !map_map. by apply map_ext.
Qed.
