(* ===== verification/Router.v ===== *)
(** * Router: the routes of [src/App.tsx] and their redirects

    [App] renders a [HashRouter] with three routes (lines 31-49):
    ["/login"] shows the login page when nobody is logged in and
    redirects to ["/"] otherwise; ["/"] shows the [Layout] around
    [getDashboardByRole()] when a user is logged in and redirects to
    ["/login"] otherwise; every other path redirects to ["/"].  The
    dashboard chosen by role redirects to ["/login"] in its [default]
    branch (line 27).

    [Routes.routes] is the element a path renders (React Router matches
    a path case-insensitively and ignores trailing slashes:
    [Routes.matches]), [Routes.resolve] follows the [<Navigate>]
    redirects with fuel.  The theorem
    [router_settles] shows that three redirects are always enough and
    that the page the router settles on is the one [System.screen] (the
    abstraction of routing the rest of the development uses) names. *)

From Stdlib Require Import Ascii String.
From S2P Require Import Prelude Types Store Views System.

Module Routes.

(** What a route renders: the login page, the layout around a view, or a
    redirect. *)
Inductive Element :=
  | LoginPage
  | InLayout (sc : App.Screen)
  | Navigate (to : string).

#[global] Instance Element_eq_dec : EqDecision Element.
Proof. solve_decision. Defined.

(** React Router's matching of a route's [path] against the location:
    case-insensitive, and trailing slashes are ignored ([matchPath] with
    [caseSensitive] false and [end] true). *)
Definition lower (c : Ascii.ascii) : Ascii.ascii :=
  let n := Ascii.nat_of_ascii c in
  if (Nat.leb 65 n && Nat.leb n 90)%bool then Ascii.ascii_of_nat (n + 32)%nat else c.

Fixpoint drop_slashes (l : list Ascii.ascii) : list Ascii.ascii :=
  match l with
  | c :: l' => if Ascii.eqb c "/"%char then drop_slashes l' else l
  | [] => []
  end.

Definition normalize (p : string) : string :=
  String.string_of_list_ascii
    (map lower (rev (drop_slashes (rev (String.list_ascii_of_string p))))).

Definition matches (pattern path : string) : bool := normalize path =s= normalize pattern.

(** [<Routes>] (lines 33-48): ["/login"], ["/"] and the catch-all
    ["*"], tried in that order. *)
Definition routes (path : string) (currentUser : option User.t) : Element :=
  if matches "/login" path then
    match currentUser with None => LoginPage | Some _ => Navigate "/" end
  else if matches "/" path then
    match currentUser with
    | Some _ => InLayout (App.getDashboardByRole currentUser)
    | None => Navigate "/login"
    end
  else Navigate "/".

(** The target of a rendered [<Navigate>]: the route's own, or the one
    [getDashboardByRole] returns in its [default] branch inside the
    layout. *)
Definition redirect (e : Element) : option string :=
  match e with
  | Navigate to => Some to
  | InLayout App.NavigateToLogin => Some "/login"
  | _ => None
  end.

(** Follow the redirects from [path], at most [fuel] renders; the path and
    the element the router settles on. *)
Fixpoint resolve (fuel : nat) (path : string) (currentUser : option User.t)
    : option (string * Element) :=
  match fuel with
  | O => None
  | S fuel' =>
      let e := routes path currentUser in
      match redirect e with
      | Some to => resolve fuel' to currentUser
      | None => Some (path, e)
      end
  end.

(** The page [System.screen] stands for. *)
Definition page_of (sc : App.Screen) : Element :=
  match sc with
  | App.NavigateToLogin => LoginPage
  | sc => InLayout sc
  end.

End Routes.

Import System Routes.

(** A logged-in user's dashboard is never the [default] branch. *)
Lemma getDashboardByRole_some u :
  App.getDashboardByRole (Some u) <> App.NavigateToLogin.
Proof. unfold App.getDashboardByRole; simpl. by destruct (User.role u). Qed.

(** C30: From every path of the hash router and every state of a session,
    following the [<Navigate>] redirects settles within three renders, on
    a path that React Router matches with ["/"] and the layout around the
    role's dashboard when a user is logged in, and on a path it matches
    with ["/login"] and the login page otherwise: the page [System.screen]
    names. *)
Theorem router_settles (path : string) (x : Sys) :
  exists p, resolve 3 path (Store.currentUser (store x)) = Some (p, page_of (screen x)) /\
    matches (match Store.currentUser (store x) with Some _ => "/" | None => "/login" end) p = true.
Proof.
  unfold screen. destruct (Store.currentUser (store x)) as [u|].
  - pose proof (getDashboardByRole_some u) as Hd. simpl; unfold routes.
    destruct (matches "/login" path) eqn:E1, (matches "/" path) eqn:E2; simpl;
      destruct (App.getDashboardByRole (Some u)); try done; by eexists.
  - simpl; unfold routes.
    destruct (matches "/login" path) eqn:E1, (matches "/" path) eqn:E2; simpl; by eexists.
Qed.
