(* ===== verification/Scenarios.v ===== *)
(** * Scenarios: concrete sessions and what they show

    Sessions are lists of [System.Event]s run from the initial store by
    [System.run] (any events) or [System.runf] (events that never reuse an
    order id).  They evaluate by [vm_compute] and serve two purposes:
    witnesses of the general theorems (each applied at a concrete state
    where its hypotheses hold), and concrete runs of the specification's
    scenarios (section 8) and of the departures proved in general in
    [Departures], kept as [Example]s.

    [DriverApp.storeDrivers] is the [drivers] value the shipped code reads
    (always [undefined]); [someDrivers] is a store that provides an (empty)
    driver list, under which the driver view renders. *)

From Stdlib Require Import Ascii.
From S2P Require Import Prelude Types Catalog Pricing Store Lifecycle Views Dashboards System Amounts Progress WellFormed Screens Departures.

Import System.

Definition noRest : Restaurant.t := Restaurant.mk "" "" "" "" "" "" 0 "" [] "" None.
Definition noItem : MenuItem.t := MenuItem.mk "" "" "" "" "" 0 "" None None false.
Definition noOrder : Order.t :=
  Order.mk "" "" None None None "" "" PENDING CARD 0 0 0 0 0 0.

Definition kotaKing : Restaurant.t := nth 0 MOCK_RESTAURANTS noRest.
Definition debonairs : Restaurant.t := nth 1 MOCK_RESTAURANTS noRest.
Definition fullHouseKota : MenuItem.t := nth 0 MOCK_MENU_ITEMS noItem.
Definition slapChips : MenuItem.t := nth 1 MOCK_MENU_ITEMS noItem.
Definition doubleCheese : MenuItemVariation.t := MenuItemVariation.mk "v2" "Double Cheese" 1000.

Definition someDrivers (s : Store.AppState) : option (list DriverApp.Driver) := Some [].

Definition asCustomer : Event := Login "thabo@gmail.com".
Definition asRestaurant : Event := Login "kota@business.co.za".
Definition asDriver : Event := Login "sipho@driver.co.za".

(** The customer orders one Full House Kota with Double Cheese from The
    Kota King (specification, scenario A) and logs out. *)
Definition kotaOrder (rnd now : Z) : list Event :=
  [asCustomer; SelectRest kotaKing; SelectItem fullHouseKota; SelectVar doubleCheese;
   AddToCart; PlaceOrder rnd now; Logout].

Definition firstOrder (x : option Sys) : Order.t :=
  match x with Some x => hd noOrder (Store.orders (store x)) | None => noOrder end.

(** The sessions used below. *)
Definition acceptedState : option Sys :=
  runf DriverApp.storeDrivers init (kotaOrder 11 1000 ++ [asRestaurant]).

Definition skipEvents : list Event :=
  kotaOrder 11 1000 ++
  [asRestaurant; RestaurantClick RestaurantAdminDashboard.Accept (firstOrder acceptedState) 2000].

Definition backEvents : list Event :=
  skipEvents ++ [RestaurantClick RestaurantAdminDashboard.Ready
                   (firstOrder (runf DriverApp.storeDrivers init skipEvents)) 3000].

Definition collisionEvents : list Event :=
  kotaOrder 7 1000 ++
  [asRestaurant;
   RestaurantClick RestaurantAdminDashboard.Decline
     (firstOrder (run DriverApp.storeDrivers init (kotaOrder 7 1000 ++ [asRestaurant]))) 2000;
   Logout] ++
  kotaOrder 7 3000 ++ [asRestaurant].

Definition staleEvents : list Event :=
  [asCustomer; SelectRest kotaKing; SelectItem fullHouseKota; SelectVar doubleCheese;
   CloseItem; SelectItem slapChips; AddToCart].

Definition mixEvents : list Event :=
  [asCustomer; SelectRest kotaKing; SelectItem fullHouseKota; AddToCart; BackToList;
   SelectRest debonairs; PlaceOrder 5 1000].

Definition stateOf (x : option Sys) : Sys := match x with Some x => x | None => init end.

(** ** The specification's scenarios *)

(** Scenario A: one Full House Kota with Double Cheese (45.00 + 10.00),
    delivery 25.00 and service 5.00: the checkout leaves an empty cart and a
    single [PENDING] order of total 85.00. *)
Example scenario_A_checkout :
  exists x o, runf DriverApp.storeDrivers init (kotaOrder 7 1000) = Some x /\
    Store.orders (store x) = [o] /\ Store.cart (store x) = [] /\
    Order.status o = PENDING /\ Order.totalFee o = 8500.
Proof.
  exists (stateOf (runf DriverApp.storeDrivers init (kotaOrder 7 1000))),
         (firstOrder (runf DriverApp.storeDrivers init (kotaOrder 7 1000))).
  vm_compute. split_and!; reflexivity.
Qed.

(** ** Where the code departs from the specification *)

(** The restaurant's Ready button is shown on a [RESTAURANT_ACCEPTED]
    order and moves it straight to [READY_FOR_PICKUP], an edge the
    specification's table does not have (it requires [PREPARING] first). *)
Example restaurant_skips_preparing :
  exists x o x', runf DriverApp.storeDrivers init skipEvents = Some x /\
    o ∈ Store.orders (store x) /\ Order.status o = RESTAURANT_ACCEPTED /\
    exec DriverApp.storeDrivers x (RestaurantClick RestaurantAdminDashboard.Ready o 3000)
      = Some x' /\
    map Order.status (Store.orders (store x')) = [READY_FOR_PICKUP] /\
    Lifecycle.edge RESTAURANT_ACCEPTED READY_FOR_PICKUP = false.
Proof.
  set (r := runf DriverApp.storeDrivers init skipEvents).
  exists (stateOf r), (firstOrder r),
    (stateOf (exec DriverApp.storeDrivers (stateOf r)
                (RestaurantClick RestaurantAdminDashboard.Ready (firstOrder r) 3000))).
  subst r. vm_compute. split_and!; try reflexivity. by apply elem_of_cons; left.
Qed.

(** The Prep button stays on a [READY_FOR_PICKUP] order and moves it back
    to [PREPARING]: the lifecycle is not monotone. *)
Example restaurant_moves_back_to_preparing :
  exists x o x', runf DriverApp.storeDrivers init backEvents = Some x /\
    o ∈ Store.orders (store x) /\ Order.status o = READY_FOR_PICKUP /\
    exec DriverApp.storeDrivers x (RestaurantClick RestaurantAdminDashboard.Prep o 4000)
      = Some x' /\
    map Order.status (Store.orders (store x')) = [PREPARING] /\
    Lifecycle.edge READY_FOR_PICKUP PREPARING = false.
Proof.
  set (r := runf DriverApp.storeDrivers init backEvents).
  exists (stateOf r), (firstOrder r),
    (stateOf (exec DriverApp.storeDrivers (stateOf r)
                (RestaurantClick RestaurantAdminDashboard.Prep (firstOrder r) 4000))).
  subst r. vm_compute. split_and!; try reflexivity. by apply elem_of_cons; left.
Qed.

(** Order ids are [ORD-] and a random number below 90000, never checked
    for reuse, and [updateOrderStatus] rewrites every order with the id:
    after two checkouts draw the same number, accepting the new order also
    reopens the earlier, cancelled one. *)
Example id_collision_reopens_cancelled :
  exists x x', run DriverApp.storeDrivers init collisionEvents = Some x /\
    map Order.id (Store.orders (store x)) = ["ORD-7"; "ORD-7"] /\
    map Order.status (Store.orders (store x)) = [PENDING; CANCELLED] /\
    exec DriverApp.storeDrivers x
      (RestaurantClick RestaurantAdminDashboard.Accept (firstOrder (Some x)) 4000) = Some x' /\
    map Order.status (Store.orders (store x')) = [RESTAURANT_ACCEPTED; RESTAURANT_ACCEPTED].
Proof.
  set (r := run DriverApp.storeDrivers init collisionEvents).
  exists (stateOf r),
    (stateOf (exec DriverApp.storeDrivers (stateOf r)
                (RestaurantClick RestaurantAdminDashboard.Accept (firstOrder r) 4000))).
  subst r. vm_compute. split_and!; reflexivity.
Qed.

(** Closing the item dialog keeps the chosen variation: adding another
    item afterwards prices it with the first item's variation.  Slap Chips
    (20.00) enter the cart with Double Cheese (+10.00) at 30.00, a selection
    the specification's [priceSelection] rejects. *)
Example stale_variation_priced :
  exists x line, runf DriverApp.storeDrivers init staleEvents = Some x /\
    Store.cart (store x) = [line] /\
    CartItem.menuItemId line = MenuItem.id slapChips /\
    CartItem.variation line = Some doubleCheese /\
    CartItem.totalPrice line = 3000 /\
    Pricing.priceSelection slapChips (Some doubleCheese) [] 1 = inr Pricing.VariationNotOffered.
Proof.
  set (r := runf DriverApp.storeDrivers init staleEvents).
  exists (stateOf r), (hd (Pricing.makeCartItem noItem None []) (Store.cart (store (stateOf r)))).
  subst r. vm_compute. split_and!; reflexivity.
Qed.

(** The cart is not tied to a restaurant: a Full House Kota (The Kota
    King) put in the cart, then a checkout from Debonairs' page, creates an
    order addressed to Debonairs containing The Kota King's item. *)
Example order_restaurant_mismatch :
  exists x o line, runf DriverApp.storeDrivers init mixEvents = Some x /\
    Store.orders (store x) = [o] /\
    Order.restaurantId o = Some (Restaurant.id debonairs) /\
    Order.items o = Some [line] /\
    CartItem.menuItemId line = MenuItem.id fullHouseKota /\
    MenuItem.restaurantId fullHouseKota = Restaurant.id kotaKing /\
    Restaurant.id kotaKing <> Restaurant.id debonairs.
Proof.
  set (r := runf DriverApp.storeDrivers init mixEvents).
  exists (stateOf r), (firstOrder r),
    (hd (Pricing.makeCartItem noItem None []) (default [] (Order.items (firstOrder r)))).
  subst r. vm_compute. split_and!; try reflexivity. discriminate.
Qed.

(** ** Witnesses: the general theorems applied to concrete sessions *)


Definition orderedState : Sys := stateOf (runf DriverApp.storeDrivers init (kotaOrder 7 1000)).

Definition cancelledState : Sys :=
  stateOf (runf DriverApp.storeDrivers init
    (kotaOrder 7 1000 ++
     [asRestaurant;
      RestaurantClick RestaurantAdminDashboard.Decline
        (firstOrder (runf DriverApp.storeDrivers init (kotaOrder 7 1000 ++ [asRestaurant]))) 2000])).

Definition acceptClick : Event :=
  RestaurantClick RestaurantAdminDashboard.Accept (firstOrder acceptedState) 2000.

Lemma click_refines_spec_witness :
  reachable_fresh DriverApp.storeDrivers (stateOf acceptedState) /\
  ((Lifecycle.edge PENDING RESTAURANT_ACCEPTED = true /\
    Lifecycle.applyTransition (owner_of (store (stateOf acceptedState)))
      (Store.orders (store (stateOf acceptedState))) (Order.id (firstOrder acceptedState))
      RESTAURANT_ACCEPTED (actor_of kotaAdmin) 2000
    = inl (Store.orders (store (stateOf (exec DriverApp.storeDrivers (stateOf acceptedState) acceptClick)))))
   \/ (PENDING, RESTAURANT_ACCEPTED) ∈ off_table).
Proof.
  assert (Hr : reachable_fresh DriverApp.storeDrivers (stateOf acceptedState)).
  { apply (runf_reachable_fresh _ init (kotaOrder 11 1000 ++ [asRestaurant]));
      [apply reachf_init|vm_compute; reflexivity]. }
  split; [exact Hr|].
  change PENDING with (Order.status (firstOrder acceptedState)).
  change RESTAURANT_ACCEPTED with (RestaurantAdminDashboard.buttonStatus RestaurantAdminDashboard.Accept).
  apply (click_refines_spec DriverApp.storeDrivers (stateOf acceptedState) acceptClick
           _ (firstOrder acceptedState) _ 2000 kotaAdmin Hr);
    vm_compute; reflexivity.
Defined.

Lemma terminal_orders_stable_witness :
  Order.status (firstOrder (Some cancelledState)) = CANCELLED /\
  firstOrder (Some cancelledState)
    ∈ Store.orders (store (stateOf (exec DriverApp.storeDrivers cancelledState Logout))).
Proof.
  split; [vm_compute; reflexivity|].
  apply (terminal_orders_stable DriverApp.storeDrivers cancelledState Logout).
  - apply (runf_reachable_fresh _ init
      (kotaOrder 7 1000 ++
       [asRestaurant;
        RestaurantClick RestaurantAdminDashboard.Decline
          (firstOrder (runf DriverApp.storeDrivers init (kotaOrder 7 1000 ++ [asRestaurant]))) 2000]));
      [apply reachf_init|vm_compute; reflexivity].
  - exact I.
  - vm_compute; reflexivity.
  - vm_compute. by apply elem_of_cons; left.
  - vm_compute; reflexivity.
Defined.

Lemma orderedState_reachable_fresh : reachable_fresh DriverApp.storeDrivers orderedState.
Proof.
  apply (runf_reachable_fresh _ init (kotaOrder 7 1000)); [apply reachf_init|].
  vm_compute; reflexivity.
Qed.

Lemma reachable_order_totals_witness :
  Order.totalFee (firstOrder (Some orderedState)) = 8500 /\
  Order.totalFee (firstOrder (Some orderedState))
  = Order.foodSubtotal (firstOrder (Some orderedState))
    + Order.deliveryFee (firstOrder (Some orderedState))
    + Order.serviceFee (firstOrder (Some orderedState)).
Proof.
  split; [vm_compute; reflexivity|].
  apply (reachable_order_totals DriverApp.storeDrivers orderedState).
  - apply reachable_fresh_reachable, orderedState_reachable_fresh.
  - vm_compute. by apply elem_of_cons; left.
Defined.

Lemma fresh_orders_consistent_witness :
  NoDup (map Order.id (Store.orders (store orderedState))) /\
  Forall driver_ok (Store.orders (store orderedState)).
Proof.
  apply (fresh_orders_consistent DriverApp.storeDrivers orderedState).
  apply orderedState_reachable_fresh.
Defined.

Lemma shipped_orders_never_reach_driver_witness :
  Forall (fun o => driver_phase (Order.status o) = false) (Store.orders (store orderedState)).
Proof.
  apply (shipped_orders_never_reach_driver orderedState).
  apply reachable_fresh_reachable, orderedState_reachable_fresh.
Defined.

Definition itemOpenState : Sys :=
  stateOf (runf DriverApp.storeDrivers init
    [asCustomer; SelectRest kotaKing; SelectItem fullHouseKota; SelectVar doubleCheese]).

Lemma customer_cannot_change_orders_witness :
  Store.orders (store (stateOf (exec DriverApp.storeDrivers itemOpenState AddToCart)))
  = Store.orders (store itemOpenState) \/
  exists o, Store.orders (store (stateOf (exec DriverApp.storeDrivers itemOpenState AddToCart)))
            = o :: Store.orders (store itemOpenState) /\ Order.status o = PENDING.
Proof.
  apply (customer_cannot_change_orders DriverApp.storeDrivers itemOpenState AddToCart);
    vm_compute; reflexivity.
Defined.

Definition cartFullState : Sys :=
  stateOf (runf DriverApp.storeDrivers init
    [asCustomer; SelectRest kotaKing; SelectItem fullHouseKota; SelectVar doubleCheese; AddToCart]).

Lemma checkout_atomic_witness :
  let o := CustomerApp.newOrder (ui cartFullState) (store cartFullState) 7 1000 in
  let x' := stateOf (exec DriverApp.storeDrivers cartFullState (PlaceOrder 7 1000)) in
  Store.cart (store cartFullState) <> [] /\ Store.cart (store x') = [] /\
  Store.orders (store x') = o :: Store.orders (store cartFullState) /\
  Order.status o = PENDING /\
  Order.foodSubtotal o = sumZ CartItem.totalPrice (Store.cart (store cartFullState)) /\
  Order.totalFee o = Order.foodSubtotal o + 2500 + 500.
Proof.
  apply (checkout_atomic DriverApp.storeDrivers cartFullState 7 1000). vm_compute; reflexivity.
Defined.

Definition restState : Sys :=
  stateOf (runf DriverApp.storeDrivers init [asCustomer; SelectRest kotaKing]).

Lemma place_order_empty_cart_witness :
  exec DriverApp.storeDrivers restState (PlaceOrder 7 1000) = None /\
  CustomerApp.handlePlaceOrder (ui restState) (store restState) 7 1000
  = (ui restState, store restState).
Proof.
  apply (place_order_empty_cart DriverApp.storeDrivers restState 7 1000). vm_compute; reflexivity.
Defined.

(** ** A repeated Ready click *)

Definition prepEvents : list Event :=
  skipEvents ++ [RestaurantClick RestaurantAdminDashboard.Prep
                   (firstOrder (runf DriverApp.storeDrivers init skipEvents)) 3000].

Definition readyOnce : option Sys :=
  exec DriverApp.storeDrivers (stateOf (runf DriverApp.storeDrivers init prepEvents))
    (RestaurantClick RestaurantAdminDashboard.Ready
       (firstOrder (runf DriverApp.storeDrivers init prepEvents)) 4000).

(** Two Ready clicks on a [PREPARING] order both go through: the first
    moves it to [READY_FOR_PICKUP], the second sets the same status again
    and bumps its update time, where the specification's [applyTransition]
    answers the second request with [IllegalTransitionError] (section 8:
    of two Ready requests from [PREPARING] exactly one succeeds). *)
Example ready_twice_no_error :
  exists x1 x2 x3, runf DriverApp.storeDrivers init prepEvents = Some x1 /\
    map Order.status (Store.orders (store x1)) = [PREPARING] /\
    exec DriverApp.storeDrivers x1
      (RestaurantClick RestaurantAdminDashboard.Ready (firstOrder (Some x1)) 4000) = Some x2 /\
    Lifecycle.applyTransition (owner_of (store x1)) (Store.orders (store x1))
      (Order.id (firstOrder (Some x1))) READY_FOR_PICKUP (actor_of kotaAdmin) 4000
      = inl (Store.orders (store x2)) /\
    exec DriverApp.storeDrivers x2
      (RestaurantClick RestaurantAdminDashboard.Ready (firstOrder (Some x2)) 5000) = Some x3 /\
    map Order.status (Store.orders (store x3)) = [READY_FOR_PICKUP] /\
    map Order.updatedAt (Store.orders (store x3)) = [5000] /\
    Lifecycle.applyTransition (owner_of (store x2)) (Store.orders (store x2))
      (Order.id (firstOrder (Some x2))) READY_FOR_PICKUP (actor_of kotaAdmin) 5000
      = inr Lifecycle.IllegalTransitionError.
Proof.
  exists (stateOf (runf DriverApp.storeDrivers init prepEvents)), (stateOf readyOnce),
    (stateOf (exec DriverApp.storeDrivers (stateOf readyOnce)
                (RestaurantClick RestaurantAdminDashboard.Ready (firstOrder readyOnce) 5000))).
  vm_compute. split_and!; reflexivity.
Qed.

Lemma reachable_amounts_whole_witness :
  Forall order_whole (Store.orders (store orderedState)) /\
  whole (PlatformOwnerDashboard.gmv (store orderedState)).
Proof.
  destruct (reachable_amounts_whole DriverApp.storeDrivers orderedState) as (_ & Ho & Hg & _).
  - apply reachable_fresh_reachable, orderedState_reachable_fresh.
  - by split.
Defined.

(** ** A full delivery, with a drivers list in the store *)

Lemma someDrivers_provided s : someDrivers s <> None.
Proof. discriminate. Qed.

(** [es] followed by a click on the newest order of the state [es] reaches. *)
Definition withFirst (es : list Event) (f : Order.t -> Event) : list Event :=
  es ++ [f (firstOrder (runf someDrivers init es))].

Definition driverAcceptedEvents : list Event :=
  let e1 := kotaOrder 7 1000 ++ [asRestaurant] in
  let e2 := withFirst e1 (fun o => RestaurantClick RestaurantAdminDashboard.Accept o 2000) in
  let e3 := withFirst e2 (fun o => RestaurantClick RestaurantAdminDashboard.Prep o 3000) in
  let e4 := withFirst e3 (fun o => RestaurantClick RestaurantAdminDashboard.Ready o 4000) in
  withFirst (e4 ++ [Logout; asDriver]) (fun o => DriverAcceptClick o 5000).

Definition driverAccepted : Sys := stateOf (runf someDrivers init driverAcceptedEvents).

Definition advanceEvents : list Event :=
  let e1 := withFirst driverAcceptedEvents (fun o => DriverAdvanceClick o 6000) in
  let e2 := withFirst e1 (fun o => DriverAdvanceClick o 7000) in
  let e3 := withFirst e2 (fun o => DriverAdvanceClick o 8000) in
  drop (length driverAcceptedEvents) e3.

Lemma driverAccepted_reachable_fresh : reachable_fresh someDrivers driverAccepted.
Proof.
  apply (runf_reachable_fresh _ init driverAcceptedEvents); [apply reachf_init|].
  vm_compute; reflexivity.
Qed.

Lemma driver_clicks_bounded_witness :
  map Order.status (Store.orders (store (stateOf (runf someDrivers driverAccepted advanceEvents))))
    = [DELIVERED] /\
  (length advanceEvents <= driver_work (store driverAccepted))%nat.
Proof.
  split; [vm_compute; reflexivity|].
  apply (driver_clicks_bounded someDrivers driverAccepted _
           (stateOf (runf someDrivers driverAccepted advanceEvents)));
    [apply driverAccepted_reachable_fresh|vm_compute; reflexivity|].
  repeat constructor.
Defined.

Definition debonairsState : Sys := stateOf (runf someDrivers init mixEvents).

Lemma debonairs_orders_stuck_witness :
  map Order.restaurantId (Store.orders (store debonairsState)) = [Some "rest-2"] /\
  all_pending (store debonairsState) "rest-2".
Proof.
  split; [vm_compute; reflexivity|].
  apply (debonairs_orders_stuck someDrivers).
  apply (runf_reachable_fresh _ init mixEvents); [apply reachf_init|vm_compute; reflexivity].
Defined.

Definition kotaState : Sys := stateOf (runf someDrivers init (kotaOrder 7 1000)).

Lemma kota_orders_delivered_witness :
  exists es y, runf someDrivers kotaState es = Some y /\
    delivered y (Order.id (firstOrder (Some kotaState))).
Proof.
  apply (kota_orders_delivered someDrivers someDrivers_provided kotaState
           (firstOrder (Some kotaState)) 9000).
  - apply (runf_reachable_fresh _ init (kotaOrder 7 1000)); [apply reachf_init|].
    vm_compute; reflexivity.
  - vm_compute. by apply elem_of_cons; left.
  - vm_compute; reflexivity.
  - vm_compute; discriminate.
Defined.

Lemma reachable_orders_wf_witness :
  Forall order_wf (Store.orders (store orderedState)) /\
  Forall line_wf (Store.cart (store orderedState)).
Proof.
  apply (reachable_orders_wf DriverApp.storeDrivers orderedState).
  apply reachable_fresh_reachable, orderedState_reachable_fresh.
Defined.

(** ** The login screen and the driver's cards *)

Definition thaboButton : Login.IdentityButton :=
  Login.mkButton "4" "Thabo Mokoena" "CUSTOMER" "thabo@gmail.com".

Lemma identity_button_roundtrip_witness :
  (exists rv, Layout.header (Login.onClick thaboButton Store.initialState)
              = Layout.mkHeader APP_NAME (Some rv) (Some "Thabo Mokoena") (Some "thabo@gmail.com")
              /\ replaceFirst "_"%char " "%char rv = "CUSTOMER") /\
  App.getDashboardByRole (Store.currentUser (Login.onClick thaboButton Store.initialState))
    <> App.NavigateToLogin /\
  Layout.onLogout (Login.onClick thaboButton Store.initialState) = Store.clearCart Store.initialState.
Proof.
  apply (identity_button_roundtrip thaboButton Store.initialState); [|reflexivity].
  vm_compute. by repeat (first [apply elem_of_cons; left; reflexivity|apply elem_of_cons; right]).
Defined.

Lemma advance_label_names_step_witness :
  DriverCards.advanceLabel (DriverCards.activeCard (firstOrder (Some driverAccepted)))
  = "Arrived at Pickup".
Proof.
  rewrite (advance_label_names_step someDrivers driverAccepted).
  - vm_compute; reflexivity.
  - apply driverAccepted_reachable_fresh.
  - vm_compute; reflexivity.
  - vm_compute. by apply elem_of_cons; left.
Defined.

(** A driver's delivery cancelled through an id collision: the same id is
    drawn again, and declining the new order cancels both. *)
Definition cancelledDeliveryEvents : list Event :=
  let e1 := driverAcceptedEvents ++ [Logout] ++ kotaOrder 7 9000 ++ [asRestaurant] in
  e1 ++ [RestaurantClick RestaurantAdminDashboard.Decline
           (firstOrder (run someDrivers init e1)) 10000; Logout; asDriver].

Definition secondOrder (x : option Sys) : Order.t :=
  match x with Some x => nth 1 (Store.orders (store x)) noOrder | None => noOrder end.

(** The driver's active deliveries keep a cancelled order
    ([myActiveOrders] only leaves out [DELIVERED]): after an id collision
    cancels a delivery the driver had accepted, its card still offers
    "Mark as Delivered", and the click leaves the order [CANCELLED] while
    rewriting it. *)
Example cancelled_delivery_still_active :
  exists x x', run someDrivers init cancelledDeliveryEvents = Some x /\
    secondOrder (Some x) ∈ DriverApp.myActiveOrders (store x) /\
    Order.status (secondOrder (Some x)) = CANCELLED /\
    DriverCards.advanceLabel (DriverCards.activeCard (secondOrder (Some x))) = "Mark as Delivered" /\
    exec someDrivers x (DriverAdvanceClick (secondOrder (Some x)) 11000) = Some x' /\
    map Order.status (Store.orders (store x')) = [CANCELLED; CANCELLED] /\
    map Order.updatedAt (Store.orders (store x')) = [11000; 11000].
Proof.
  set (r := run someDrivers init cancelledDeliveryEvents).
  exists (stateOf r),
    (stateOf (exec someDrivers (stateOf r) (DriverAdvanceClick (secondOrder r) 11000))).
  subst r. vm_compute. split_and!; try reflexivity. by apply elem_of_cons; left.
Qed.

Definition staleDialogEvents : list Event :=
  [asCustomer; SelectRest kotaKing; SelectItem fullHouseKota; SelectVar doubleCheese;
   CloseItem; SelectItem slapChips].

(** The stale variation is invisible: with Slap Chips open after
    Double Cheese was chosen for another item, the dialog shows Slap Chips'
    four portions with none of them checked, yet Add to Cart charges
    Double Cheese's 10.00 on top of the base price. *)
Example stale_variation_hidden :
  exists x x', run DriverApp.storeDrivers init staleDialogEvents = Some x /\
    map CustomerScreens.radioName (CustomerScreens.dialogRadios (ui x))
      = ["Small"; "Medium"; "Large"; "Extra Large"] /\
    Forall (fun r => CustomerScreens.checked r = false) (CustomerScreens.dialogRadios (ui x)) /\
    exec DriverApp.storeDrivers x AddToCart = Some x' /\
    map CartItem.totalPrice (Store.cart (store x')) = [3000] /\
    map CartItem.variation (Store.cart (store x')) = [Some doubleCheese].
Proof.
  set (r := run DriverApp.storeDrivers init staleDialogEvents).
  exists (stateOf r), (stateOf (exec DriverApp.storeDrivers (stateOf r) AddToCart)).
  subst r. vm_compute. split_and!; try reflexivity. repeat constructor.
Qed.

Lemma admin_sees_own_orders_witness :
  exists r, r ∈ Store.restaurants (store (stateOf acceptedState)) /\
    Restaurant.ownerId r = User.id kotaAdmin /\
    Order.restaurantId (firstOrder acceptedState) = Some (Restaurant.id r).
Proof.
  apply (admin_sees_own_orders DriverApp.storeDrivers (stateOf acceptedState)
           RestaurantAdminDashboard.Accept).
  - apply reachable_fresh_reachable.
    apply (runf_reachable_fresh _ init (kotaOrder 11 1000 ++ [asRestaurant]));
      [apply reachf_init|vm_compute; reflexivity].
  - vm_compute; reflexivity.
  - vm_compute; reflexivity.
  - vm_compute. by apply elem_of_cons; left.
Defined.

Lemma tray_shows_charge_witness :
  exists t o r, CustomerScreens.tray (ui cartFullState) (store cartFullState) = Some t /\
    Store.orders (store (stateOf (exec DriverApp.storeDrivers cartFullState (PlaceOrder 7 1000))))
      = o :: Store.orders (store cartFullState) /\
    CustomerScreens.trayTotal t = Order.totalFee o /\
    CustomerScreens.lines t = Z.of_nat (length (default [] (Order.items o))) /\
    CustomerApp.selectedRest (ui cartFullState) = Some r /\
    CustomerScreens.fromRest t = Restaurant.name r /\
    Order.restaurantId o = Some (Restaurant.id r).
Proof.
  apply (tray_shows_charge DriverApp.storeDrivers cartFullState 7 1000). vm_compute; reflexivity.
Defined.

(** ** Witnesses of the departures and of the kitchen's liveness *)

Definition skipState : Sys := stateOf (runf DriverApp.storeDrivers init skipEvents).

Lemma restaurant_off_table_offered_witness :
  exec DriverApp.storeDrivers skipState
    (RestaurantClick RestaurantAdminDashboard.Ready (firstOrder (Some skipState)) 3000)
  = Some (mkSys (Store.updateOrderStatus (Order.id (firstOrder (Some skipState)))
                   READY_FOR_PICKUP None 3000 (store skipState)) (ui skipState)) /\
  spec_refuses (store skipState) (Order.id (firstOrder (Some skipState))) READY_FOR_PICKUP.
Proof.
  apply (restaurant_off_table_offered DriverApp.storeDrivers skipState
           RestaurantAdminDashboard.Ready (firstOrder (Some skipState)) 3000).
  - apply (runf_reachable_fresh _ init skipEvents); [apply reachf_init|vm_compute; reflexivity].
  - vm_compute; reflexivity.
  - vm_compute. by apply elem_of_cons; left.
  - vm_compute; reflexivity.
  - vm_compute. by apply elem_of_cons; left.
Defined.

Definition collisionState : Sys := stateOf (run DriverApp.storeDrivers init collisionEvents).

Definition collisionClick : Event :=
  RestaurantClick RestaurantAdminDashboard.Accept (firstOrder (Some collisionState)) 4000.

(** The earlier, cancelled order of the collision is rewritten. *)
Lemma clicks_rewrite_namesakes_witness :
  Order.status (secondOrder (Some collisionState)) = CANCELLED /\
  exists o'', Store.orders (store (stateOf (exec DriverApp.storeDrivers collisionState collisionClick)))
                !! 1%nat = Some o'' /\
    takes_request (secondOrder (Some collisionState)) RESTAURANT_ACCEPTED 4000 o''.
Proof.
  split; [vm_compute; reflexivity|].
  apply (clicks_rewrite_namesakes DriverApp.storeDrivers collisionState collisionClick
           _ (firstOrder (Some collisionState)) RESTAURANT_ACCEPTED 4000 1
           (secondOrder (Some collisionState))); vm_compute; reflexivity.
Defined.

Definition staleState : Sys :=
  stateOf (run DriverApp.storeDrivers init
    [asCustomer; SelectRest kotaKing; SelectItem fullHouseKota; SelectVar doubleCheese; CloseItem]).

Definition staleOpen : Sys := stateOf (exec DriverApp.storeDrivers staleState (SelectItem slapChips)).

Lemma stale_variation_charged_unseen_witness :
  no_portion_checked (ui staleOpen) /\
  Store.cart (store (stateOf (exec DriverApp.storeDrivers staleOpen AddToCart)))
    = Store.cart (store staleState) ++ [Pricing.makeCartItem slapChips (Some doubleCheese) []] /\
  Pricing.priceSelection slapChips (Some doubleCheese) [] 1 = inr Pricing.VariationNotOffered.
Proof.
  apply (stale_variation_charged_unseen DriverApp.storeDrivers staleState slapChips doubleCheese).
  - apply (run_reachable _ init
      [asCustomer; SelectRest kotaKing; SelectItem fullHouseKota; SelectVar doubleCheese; CloseItem]);
      [constructor|vm_compute; reflexivity].
  - vm_compute; reflexivity.
  - vm_compute. intros Hin. repeat (apply elem_of_cons in Hin as [Hin|Hin]; [discriminate|]).
    by apply elem_of_nil in Hin.
  - vm_compute; reflexivity.
  - vm_compute; reflexivity.
Defined.

Definition driverLoggedIn : Sys := stateOf (run DriverApp.storeDrivers init [asDriver]).

Lemma shipped_crash_dead_end_witness :
  exec DriverApp.storeDrivers driverLoggedIn Logout = None /\
  run DriverApp.storeDrivers driverLoggedIn [Logout; asCustomer] = None.
Proof.
  apply (shipped_crash_dead_end driverLoggedIn). left. vm_compute; reflexivity.
Defined.

Lemma kota_orders_reach_pickup_witness :
  exists es y, runf DriverApp.storeDrivers orderedState es = Some y /\
    at_pickup y (Order.id (firstOrder (Some orderedState))).
Proof.
  apply (kota_orders_reach_pickup DriverApp.storeDrivers orderedState
           (firstOrder (Some orderedState)) 9000).
  - apply orderedState_reachable_fresh.
  - vm_compute; reflexivity.
  - vm_compute. by apply elem_of_cons; left.
  - vm_compute; reflexivity.
  - vm_compute. by apply elem_of_cons; left.
Defined.
